(** * Payment settlement pipeline of the storefront backend

    A shallow embedding of the Razorpay routes ([/api/razorpay]: create-order,
    verify-payment, payment lookup, refund), of the generic order and
    payment routes ([/api/orders], [/api/payments]: create, read by id,
    delete, status), of the subcategory routes that write
    ([/api/subcategories]: create, delete, toggle) and of the Mongoose
    models they use (Order, Payment, Category, Subcategory).

    Conventions of the embedding.
    - A JSON string field is an [option string]; [None] stands for a field
      that is absent ([undefined]).  In the routes' own tests ([!x],
      [x || d], [x?.f]) an explicit [null] behaves as an absent field does;
      where the code tells the two apart (the default of [currency]) the
      field is a [JS.Field], and a payload that gives [null] to a path with
      a schema default is outside the payload types.  A string is the
      sequence of the UTF-8 bytes of a well-formed text; [JS.length] counts
      its UTF-16 code units, as [s.length] and [maxlength] do.
    - A JSON number field is an [option Q] that holds the value of a finite
      IEEE 754 double ([JS.double]).  Comparisons, [Math.round] and the
      truth tests are exact on such values; a product or a quotient is
      rounded to the nearest double, ties to even ([JS.fl], [JS.mul],
      [JS.div]).  A result beyond the largest double ([Infinity] in the
      code) is outside the model: the theorems that depend on a product
      assume it finite ([JS.finite]).
    - A Mongo collection is the list of its documents in insertion order;
      an ObjectId is the number its 24 hexadecimal digits denote, and the
      driver hands out fresh ones from a counter.
    - Of Mongoose, what the schemas use: casting, defaults, [required],
      [min], [enum], [maxlength], [trim], the [pre('save')] hooks and the
      unique indexes; of [lowercase], the letters A to Z (a text with other
      capital letters in an e-mail address is outside the model).
    - [new Date()] is the parameter [now] of a handler.
    - [console.log] calls are dropped. *)

From Stdlib Require Import ZArith NArith QArith Qround Qabs Qpower List String Ascii Bool
  Lia Lqa.
From Stdlib Require Import Strings.Byte DecimalString DecimalN.
Import ListNotations.

Local Open Scope string_scope.

(* ===================================================================== *)
(** ** JavaScript values and operators used by the routes *)
(* ===================================================================== *)

Module JS.

(** Truthiness of a string-valued field: absent and [""] are falsy. *)
Definition truthy_str (s : option string) : bool :=
  match s with
  | Some s => negb (String.eqb s "")
  | None => false
  end.

(** [s || d] for a string-valued field. *)
Definition or_str (s : option string) (d : string) : string :=
  match s with
  | Some v => if String.eqb v "" then d else v
  | None => d
  end.

(** [s || null]. *)
Definition or_null (s : option string) : option string :=
  if truthy_str s then s else None.

(** Truthiness of a number-valued field: absent and [0] are falsy. *)
Definition truthy_num (x : option Q) : bool :=
  match x with
  | Some q => negb (Qeq_bool q 0)
  | None => false
  end.

(** [x || d] for a number-valued field. *)
Definition or_num (x : option Q) (d : Q) : Q :=
  match x with
  | Some q => if Qeq_bool q 0 then d else q
  | None => d
  end.

(** [x <= 0] and [x > 0] on numbers ([false] on an absent operand, as
    comparisons with [undefined] are). *)
Definition le0 (x : option Q) : bool :=
  match x with Some q => Qle_bool q 0 | None => false end.

Definition gt0 (x : option Q) : bool :=
  match x with Some q => negb (Qle_bool q 0) | None => false end.

(** A field that the code reads with a destructuring default: the
    default is taken when the field is [undefined], not when it is
    [null]. *)
Inductive Field (A : Type) : Type :=
| Undefined
| Null
| Value (a : A).
Arguments Undefined {A}.
Arguments Null {A}.
Arguments Value {A} a.

(** *** Numbers: IEEE 754 binary64 *)

(** Powers of two, of either sign. *)
Definition pow2 (e : Z) : Q := Qpower 2 e.

Definition ilog2 (q : Q) : Z :=
  let k := (Z.log2 (Qnum q) - Z.log2 (Zpos (Qden q)))%Z in
  if Qle_bool (pow2 k) q then k else (k - 1)%Z.

(** The nearest integer, a tie going to the even neighbour. *)
Definition round_ties_even (x : Q) : Z :=
  let f := Qfloor x in
  match Qcompare (x - inject_Z f) (1 # 2) with
  | Lt => f
  | Gt => (f + 1)%Z
  | Eq => if Z.even f then f else (f + 1)%Z
  end.

(** The double nearest to a real number, a tie going to the even
    significand: 53 significant bits, and multiples of [2^-1074] below
    [2^-1022]. *)
Definition fl (x : Q) : Q :=
  if Qeq_bool x 0 then 0
  else
    let e := Z.max (ilog2 (Qabs x) - 52) (-1074) in
    Qred (inject_Z (round_ties_even (x / pow2 e)) * pow2 e).

(** The largest double, [(2^53 - 1) * 2^971]. *)
Definition max_double : Q := inject_Z ((2 ^ 53 - 1) * 2 ^ 971).

(** The double nearest to [x] is finite. *)
Definition finite (x : Q) : bool := Qle_bool (Qabs (fl x)) max_double.

(** [x] is the value of a finite double. *)
Definition double (x : Q) : bool := (Qeq_bool (fl x) x && finite x)%bool.

(** [x * y] and [x / y] on doubles. *)
Definition mul (x y : Q) : Q := fl (x * y).
Definition div (x y : Q) : Q := fl (x / y).

(** [Math.round] of a double: the nearest integer, ties towards
    +infinity. *)
Definition Math_round (x : Q) : Z := Qfloor (x + (1 # 2)).

(** [arr.includes(s)] on an array of strings. *)
Definition includes (arr : list string) (s : string) : bool :=
  existsb (String.eqb s) arr.

(** *** Strings *)

(** [s.length]: the number of UTF-16 code units.  A character of one, two
    or three bytes is one unit, a character of four bytes is two; the
    bytes that continue a character count for nothing. *)
Fixpoint length (s : string) : nat :=
  match s with
  | String c r =>
      let n := nat_of_ascii c in
      ((if Nat.ltb n 128 then 1
        else if Nat.ltb n 192 then 0
        else if Nat.ltb n 240 then 1
        else 2) + length r)%nat
  | EmptyString => 0%nat
  end.

(** The white space and line terminators that [String.prototype.trim]
    removes: those of one byte (TAB, LF, VT, FF, CR, SP), ... *)
Definition is_space (c : ascii) : bool :=
  let n := nat_of_ascii c in
  (Nat.eqb n 32 || (Nat.leb 9 n && Nat.leb n 13))%bool.

(** ... of two bytes (U+00A0) ... *)
Definition is_space2 (a b : ascii) : bool :=
  (Nat.eqb (nat_of_ascii a) 194 && Nat.eqb (nat_of_ascii b) 160)%bool.

(** ... and of three bytes (U+1680, U+2000 to U+200A, U+2028, U+2029,
    U+202F, U+205F, U+3000, U+FEFF). *)
Definition is_space3 (a b c : ascii) : bool :=
  let x := nat_of_ascii a in
  let y := nat_of_ascii b in
  let z := nat_of_ascii c in
  ((Nat.eqb x 225 && Nat.eqb y 154 && Nat.eqb z 128)
   || (Nat.eqb x 226 && Nat.eqb y 128
       && ((Nat.leb 128 z && Nat.leb z 138) || Nat.eqb z 168 || Nat.eqb z 169
           || Nat.eqb z 175))
   || (Nat.eqb x 226 && Nat.eqb y 129 && Nat.eqb z 159)
   || (Nat.eqb x 227 && Nat.eqb y 128 && Nat.eqb z 128)
   || (Nat.eqb x 239 && Nat.eqb y 187 && Nat.eqb z 191))%bool.

(** The white space at the head of a string is dropped; with [back], the
    string is read backwards, bytes of a character included. *)
Fixpoint strip (back : bool) (s : string) : string :=
  match s with
  | String a r =>
      if is_space a then strip back r
      else
        match r with
        | String b r2 =>
            if (if back then is_space2 b a else is_space2 a b) then strip back r2
            else
              match r2 with
              | String c r3 =>
                  if (if back then is_space3 c b a else is_space3 a b c)
                  then strip back r3
                  else s
              | EmptyString => s
              end
        | EmptyString => s
        end
  | EmptyString => EmptyString
  end.

Definition reverse (s : string) : string :=
  string_of_list_ascii (rev (list_ascii_of_string s)).

Definition trim_start (s : string) : string := strip false s.

Definition trim_end (s : string) : string := reverse (strip true (reverse s)).

Definition trim (s : string) : string := trim_end (trim_start s).

Definition lower_ascii (c : ascii) : ascii :=
  let n := nat_of_ascii c in
  if (Nat.leb 65 n && Nat.leb n 90)%bool then ascii_of_nat (n + 32) else c.

Fixpoint toLowerCase (s : string) : string :=
  match s with
  | String c r => String (lower_ascii c) (toLowerCase r)
  | EmptyString => EmptyString
  end.

(** [arr.join(sep)] on an array of strings. *)
Fixpoint join (sep : string) (arr : list string) : string :=
  match arr with
  | [] => ""
  | [x] => x
  | x :: r => x ++ sep ++ join sep r
  end.

(** [String(n).padStart(w, '0')] for a natural number. *)
Definition padStart0 (w : nat) (s : string) : string :=
  string_of_list_ascii (repeat "0"%char (w - String.length s)) ++ s.

Definition String_of_N (n : N) : string :=
  NilEmpty.string_of_uint (N.to_uint n).

(** A [const] binding: reading it before its initializer has run throws
    (temporal dead zone). *)
Inductive Binding (A : Type) : Type :=
| Uninitialized
| Initialized (a : A).
Arguments Uninitialized {A}.
Arguments Initialized {A} a.

End JS.

(* ===================================================================== *)
(** ** [crypto.createHmac("sha256", key).update(data).digest("hex")] *)
(* ===================================================================== *)

Module SHA256.

Local Open Scope Z_scope.

Definition word_mask : Z := 0xFFFFFFFF.

(** 32-bit words are integers in [[0, 2^32)]; sums wrap around. *)
Definition wrap (x : Z) : Z := Z.land x word_mask.
Definition add32 (x y : Z) : Z := wrap (x + y).

Definition rotr (n x : Z) : Z :=
  Z.lor (Z.shiftr x n) (wrap (Z.shiftl x (32 - n))).

Definition not32 (x : Z) : Z := Z.lxor x word_mask.

Definition ch (x y z : Z) : Z := Z.lxor (Z.land x y) (Z.land (not32 x) z).
Definition maj (x y z : Z) : Z :=
  Z.lxor (Z.lxor (Z.land x y) (Z.land x z)) (Z.land y z).
Definition bsig0 (x : Z) : Z := Z.lxor (Z.lxor (rotr 2 x) (rotr 13 x)) (rotr 22 x).
Definition bsig1 (x : Z) : Z := Z.lxor (Z.lxor (rotr 6 x) (rotr 11 x)) (rotr 25 x).
Definition ssig0 (x : Z) : Z := Z.lxor (Z.lxor (rotr 7 x) (rotr 18 x)) (Z.shiftr x 3).
Definition ssig1 (x : Z) : Z := Z.lxor (Z.lxor (rotr 17 x) (rotr 19 x)) (Z.shiftr x 10).

(** The constants of FIPS 180-4 are not tabulated but derived as the
    standard defines them, from the first primes. *)
Definition is_prime (n : Z) : bool :=
  (1 <? n) && forallb (fun d => negb (n mod d =? 0)) (map Z.of_nat (seq 2 (Z.to_nat n - 2))).

Definition first_primes (count : nat) : list Z :=
  firstn count (filter is_prime (map Z.of_nat (seq 2 310))).

(** Integer cube root, one bit after the other from bit [bits - 1] down. *)
Fixpoint cube_root_bits (bits : nat) (n r : Z) : Z :=
  match bits with
  | O => r
  | S k =>
      let c := r + Z.shiftl 1 (Z.of_nat k) in
      cube_root_bits k n (if c * c * c <=? n then c else r)
  end.

Definition cube_root (n : Z) : Z := cube_root_bits 40 n 0.

(** The first 32 bits of the fractional parts of the cube roots of the
    first 64 primes. *)
Definition round_constants : list Z :=
  Eval vm_compute in
    map (fun p => wrap (cube_root (Z.shiftl p 96))) (first_primes 64).

(** The chaining value: eight words. *)
Record chain : Type := mkChain
  { ha : Z; hb : Z; hc : Z; hd : Z; he : Z; hf : Z; hg : Z; hh : Z }.

(** The first 32 bits of the fractional parts of the square roots of the
    first 8 primes. *)
Definition initial_words : list Z :=
  Eval vm_compute in
    map (fun p => wrap (Z.sqrt (Z.shiftl p 64))) (first_primes 8).

Definition initial_chain : chain :=
  mkChain (nth 0 initial_words 0) (nth 1 initial_words 0)
          (nth 2 initial_words 0) (nth 3 initial_words 0)
          (nth 4 initial_words 0) (nth 5 initial_words 0)
          (nth 6 initial_words 0) (nth 7 initial_words 0).

(** Message schedule.  [recent] holds the words produced so far, the
    latest first, so that W(t-2), W(t-7), W(t-15) and W(t-16) sit at
    positions 1, 6, 14 and 15. *)
Fixpoint extend_schedule (n : nat) (recent : list Z) : list Z :=
  match n with
  | O => recent
  | S n' =>
      let w :=
        add32 (add32 (ssig1 (nth 1 recent 0)) (nth 6 recent 0))
              (add32 (ssig0 (nth 14 recent 0)) (nth 15 recent 0)) in
      extend_schedule n' (w :: recent)
  end.

Definition schedule (block_words : list Z) : list Z :=
  rev (extend_schedule 48 (rev block_words)).

Definition round (s : chain) (kw : Z * Z) : chain :=
  let t1 := add32 (add32 (add32 (hh s) (bsig1 (he s)))
                         (add32 (ch (he s) (hf s) (hg s)) (fst kw)))
                  (snd kw) in
  let t2 := add32 (bsig0 (ha s)) (maj (ha s) (hb s) (hc s)) in
  mkChain (add32 t1 t2) (ha s) (hb s) (hc s)
          (add32 (hd s) t1) (he s) (hf s) (hg s).

Definition compress (h : chain) (block_words : list Z) : chain :=
  let s := fold_left round (combine round_constants (schedule block_words)) h in
  mkChain (add32 (ha h) (ha s)) (add32 (hb h) (hb s))
          (add32 (hc h) (hc s)) (add32 (hd h) (hd s))
          (add32 (he h) (he s)) (add32 (hf h) (hf s))
          (add32 (hg h) (hg s)) (add32 (hh h) (hh s)).

Definition Z_of_byte (b : byte) : Z := Z.of_N (Byte.to_N b).

Definition byte_of_Z (z : Z) : byte :=
  match Byte.of_N (Z.to_N (Z.land z 0xFF)) with
  | Some b => b
  | None => x00
  end.

(** Big-endian words of a byte sequence, four bytes a word. *)
Fixpoint words_of_bytes (bs : list byte) : list Z :=
  match bs with
  | b0 :: b1 :: b2 :: b3 :: r =>
      (Z.shiftl (Z_of_byte b0) 24 + Z.shiftl (Z_of_byte b1) 16
       + Z.shiftl (Z_of_byte b2) 8 + Z_of_byte b3) :: words_of_bytes r
  | _ => []
  end.

Definition bytes_of_word (w : Z) : list byte :=
  [byte_of_Z (Z.shiftr w 24); byte_of_Z (Z.shiftr w 16);
   byte_of_Z (Z.shiftr w 8); byte_of_Z w].

(** Padding: the bit 1, zeros up to 56 modulo 64 bytes, then the bit
    length of the message on 64 bits. *)
Definition pad (msg : list byte) : list byte :=
  let len := Z.of_nat (List.length msg) in
  let zeros := Z.to_nat ((55 - len) mod 64) in
  let bits := 8 * len in
  msg ++ x80 :: repeat x00 zeros
      ++ bytes_of_word (Z.shiftr bits 32) ++ bytes_of_word bits.

(** Absorb the sixteen-word blocks one after the other. *)
Fixpoint absorb (fuel : nat) (h : chain) (ws : list Z) : chain :=
  match fuel, ws with
  | S fuel', _ :: _ => absorb fuel' (compress h (firstn 16 ws)) (skipn 16 ws)
  | _, _ => h
  end.

Definition sha256 (msg : list byte) : list byte :=
  let ws := words_of_bytes (pad msg) in
  let h := absorb (List.length ws) initial_chain ws in
  flat_map bytes_of_word
    [ha h; hb h; hc h; hd h; he h; hf h; hg h; hh h].

Definition hex_digit (n : Z) : ascii :=
  if n <? 10 then ascii_of_N (Z.to_N (48 + n)) else ascii_of_N (Z.to_N (87 + n)).

(** Lower-case hexadecimal, two digits a byte. *)
Fixpoint hex (bs : list byte) : string :=
  match bs with
  | b :: r =>
      String (hex_digit (Z.shiftr (Z_of_byte b) 4))
        (String (hex_digit (Z.land (Z_of_byte b) 0xF)) (hex r))
  | [] => EmptyString
  end.

End SHA256.

Module Crypto.

Import SHA256.

Definition block_size : nat := 64.

Definition xor_byte (c : Z) (b : byte) : byte := byte_of_Z (Z.lxor (Z_of_byte b) c).

(** The key on one block: hashed when longer than a block, then padded
    with zeros. *)
Definition block_key (key : list byte) : list byte :=
  let k := if Nat.ltb block_size (List.length key) then sha256 key else key in
  k ++ repeat x00 (block_size - List.length k).

(** HMAC (RFC 2104) instantiated with SHA-256. *)
Definition hmac_sha256 (key msg : list byte) : list byte :=
  let k := block_key key in
  sha256 (map (xor_byte 0x5c) k ++ sha256 (map (xor_byte 0x36) k ++ msg)).

(** Node's [Hmac] object: the keyed inner state and the data fed so far. *)
Record Hmac : Type := mkHmac { hm_key : list byte; hm_data : list byte }.

Definition utf8 (s : string) : list byte := list_byte_of_string s.

(** [crypto.createHmac("sha256", key)] *)
Definition createHmac_sha256 (key : string) : Hmac :=
  mkHmac (block_key (utf8 key)) [].

(** [hmac.update(data)] with a string: its UTF-8 bytes are appended. *)
Definition update (h : Hmac) (data : string) : Hmac :=
  mkHmac (hm_key h) (hm_data h ++ utf8 data).

(** [hmac.digest("hex")] *)
Definition digest_hex (h : Hmac) : string :=
  hex (sha256 (map (xor_byte 0x5c) (hm_key h)
               ++ sha256 (map (xor_byte 0x36) (hm_key h) ++ hm_data h))).

End Crypto.

(* ===================================================================== *)
(** ** Configuration ([config/razorpay.js]) *)
(* ===================================================================== *)

Module razorpayConfig.
Definition test_key_id : string := "rzp_test_RJAp2Z3ZQjQh05".
Definition test_key_secret : string := "KVRm4qSsf2kMhVD2fKvr0AZj".
End razorpayConfig.

(* ===================================================================== *)
(** ** The payment gateway (the [razorpay] SDK object) *)
(* ===================================================================== *)

Definition Time : Type := N.
Definition ObjectId : Type := N.

(** A [notes] object: string-valued properties. *)
Definition Notes : Type := list (string * string).

Fixpoint notes_get (k : string) (n : Notes) : option string :=
  match n with
  | (k', v) :: r => if String.eqb k k' then Some v else notes_get k r
  | [] => None
  end.

Module Razorpay.

(** Options of [razorpay.orders.create]. *)
Record OrderOptions : Type := mkOrderOptions
  { oo_amount : Z; oo_currency : string; oo_receipt : string; oo_notes : Notes }.

(** Options of [razorpay.payments.refund]; [ro_amount] is absent for a
    full refund. *)
Record RefundOptions : Type := mkRefundOptions
  { ro_payment_id : string; ro_notes : Notes; ro_amount : option Z }.

Record GatewayOrder : Type := mkGatewayOrder
  { go_id : string; go_amount : Z; go_currency : string; go_receipt : string;
    go_status : string; go_created_at : N }.

(** A gateway payment; [gp_amount] is in minor units (paise). *)
Record GatewayPayment : Type := mkGatewayPayment
  { gp_amount : Z; gp_currency : string; gp_status : string; gp_method : option string;
    gp_bank : option string; gp_wallet : option string; gp_vpa : option string }.

Record GatewayRefund : Type := mkGatewayRefund
  { gr_id : string; gr_amount : Z; gr_status : string; gr_created_at : N }.

(** The remote service, as the three calls the routes make.  [None] is a
    rejected promise (network failure or a request the gateway refuses). *)
Record Service : Type := mkService
  { orders_create : OrderOptions -> option GatewayOrder;
    payments_fetch : string -> option GatewayPayment;
    payments_refund : string -> RefundOptions -> option GatewayRefund }.

(** What was sent to the gateway. *)
Inductive Call : Type :=
| CallOrdersCreate (opts : OrderOptions)
| CallPaymentsFetch (payment_id : string)
| CallPaymentsRefund (payment_id : string) (opts : RefundOptions).

End Razorpay.

(* ===================================================================== *)
(** ** Documents ([models/OrderModel.js], [models/PaymentModel.js]) *)
(* ===================================================================== *)

Record CustomerInfo : Type := mkCustomerInfo
  { firstName : string; lastName : string; email : string; phoneNumber : string }.

Record Address : Type := mkAddress
  { streetAddress : string; city : string; state : string;
    postalCode : string; country : string }.

(** Shape shared by [Order.pricing] and [Payment.amount]. *)
Record Money : Type := mkMoney
  { subtotal : Q; tax : Q; shipping : Q; discount : Q; total : Q }.

Module OrderDoc.

Record Item : Type := mkItem
  { productId : ObjectId; productName : string;
    quantity : Q; unitPrice : Q; totalPrice : Q }.

(** The embedded payment summary of an order. *)
Record PaymentSummary : Type := mkPaymentSummary
  { method : string; status : string;
    transactionId : option string; paidAt : option Time }.

Record t : Type := mkOrder
  { _id : ObjectId;
    orderNumber : string;
    customerInfo : CustomerInfo;
    shippingAddress : Address;
    billingAddress : Address;
    items : list Item;
    pricing : Money;
    payment : PaymentSummary;
    order_status : string;
    shipping_method : string;
    notes : option string;
    createdAt : Time;
    updatedAt : Time }.

End OrderDoc.

Module PaymentDoc.

(** [paymentMethod.details], the gateway fields. *)
Record Details : Type := mkDetails
  { razorpayOrderId : option string;
    razorpayPaymentId : option string;
    razorpaySignature : option string;
    method : option string;
    bank : option string;
    wallet : option string;
    vpa : option string }.

Record TransactionDetails : Type := mkTransactionDetails
  { transactionId : option string;
    gatewayTransactionId : option string;
    gatewayResponse : option Razorpay.GatewayPayment;
    gatewayName : option string;
    processingFee : Q }.

Record RefundDetails : Type := mkRefundDetails
  { refundId : option string;
    refundAmount : option Q;
    refundReason : option string;
    refundStatus : option string;
    refundedAt : option Time }.

Record Timestamps : Type := mkTimestamps
  { initiatedAt : option Time;
    processedAt : option Time;
    completedAt : option Time;
    failedAt : option Time }.

Record t : Type := mkPayment
  { _id : ObjectId;
    paymentId : string;
    orderId : ObjectId;
    orderNumber : string;
    customerInfo : CustomerInfo;
    paymentMethod_type : string;
    paymentMethod_details : Details;
    amount : Money;
    status : string;
    transactionDetails : TransactionDetails;
    refundDetails : RefundDetails;
    timestamps : Timestamps;
    notes : option string;
    createdAt : Time;
    updatedAt : Time }.

End PaymentDoc.

(** The two collections. *)
Record DB : Type := mkDB
  { orders : list OrderDoc.t; payments : list PaymentDoc.t }.

(** The state a request runs in: the store, the driver's ObjectId counter
    and the calls sent to the gateway so far (latest last). *)
Record World : Type := mkWorld
  { db : DB; next_oid : N; gateway_log : list Razorpay.Call }.

(* ===================================================================== *)
(** ** Exceptions and the request monad *)
(* ===================================================================== *)

Inductive Exn : Type :=
| ReferenceError (name : string)
| ValidationError (path : string)
| DuplicateKeyError (index : string)
| GatewayError (call : string).

(** A computation that cannot touch the world: a value or a thrown error. *)
Definition Result (A : Type) : Type := (Exn + A)%type.

Definition rbind {A B : Type} (r : Result A) (k : A -> Result B) : Result B :=
  match r with
  | inl e => inl e
  | inr a => k a
  end.

(** A step of an [async] handler: it may change the world and either
    returns or throws; what it wrote before throwing stays written. *)
Definition M (A : Type) : Type := World -> World * Result A.

Definition ret {A : Type} (a : A) : M A := fun w => (w, inr a).

Definition throw {A : Type} (e : Exn) : M A := fun w => (w, inl e).

Definition bind {A B : Type} (m : M A) (k : A -> M B) : M B :=
  fun w =>
    match m w with
    | (w', inl e) => (w', inl e)
    | (w', inr a) => k a w'
    end.

Definition lift {A : Type} (r : Result A) : M A := fun w => (w, r).

Notation "'let?' x ':=' c 'in' k" := (rbind c (fun x => k))
  (at level 10, x name, c at level 100, k at level 200).
Notation "'let*' x ':=' c 'in' k" := (bind c (fun x => k))
  (at level 10, x name, c at level 100, k at level 200).

(* ===================================================================== *)
(** ** Mongoose: casting, defaults and validators *)
(* ===================================================================== *)

Module Schema.

Definition hex_value (c : ascii) : option N :=
  let n := N_of_ascii c in
  if ((48 <=? n) && (n <=? 57))%N then Some (n - 48)%N
  else if ((97 <=? n) && (n <=? 102))%N then Some (n - 87)%N
  else if ((65 <=? n) && (n <=? 70))%N then Some (n - 55)%N
  else None.

Fixpoint parse_hex (s : string) (acc : N) : option N :=
  match s with
  | String c r =>
      match hex_value c with
      | Some d => parse_hex r (16 * acc + d)%N
      | None => None
      end
  | EmptyString => Some acc
  end.

(** Cast of a string to an ObjectId: 24 hexadecimal digits. *)
Definition castObjectId (s : string) : option ObjectId :=
  if Nat.eqb (String.length s) 24 then parse_hex s 0%N else None.

(** [{ type: String, required, trim }] *)
Definition required_string (path : string) (s : option string) : Result string :=
  match s with
  | Some v =>
      let v' := JS.trim v in
      if String.eqb v' "" then inl (ValidationError path) else inr v'
  | None => inl (ValidationError path)
  end.

(** [{ type: String, trim }] *)
Definition optional_string (s : option string) : option string :=
  option_map JS.trim s.

(** [{ type: Number, required, min }] *)
Definition required_min (path : string) (m : Q) (x : option Q) : Result Q :=
  match x with
  | Some q => if Qle_bool m q then inr q else inl (ValidationError path)
  | None => inl (ValidationError path)
  end.

(** [{ type: Number, default, min }] *)
Definition default_min (path : string) (d m : Q) (x : option Q) : Result Q :=
  match x with
  | Some q => if Qle_bool m q then inr q else inl (ValidationError path)
  | None => inr d
  end.

(** [{ type: Number, min }] *)
Definition optional_min (path : string) (m : Q) (x : option Q) : Result (option Q) :=
  match x with
  | Some q => if Qle_bool m q then inr (Some q) else inl (ValidationError path)
  | None => inr None
  end.

(** [{ type: String, required, enum }] *)
Definition required_enum (path : string) (values : list string) (s : option string)
  : Result string :=
  match s with
  | Some v => if JS.includes values v then inr v else inl (ValidationError path)
  | None => inl (ValidationError path)
  end.

(** [{ type: String, enum, default }] *)
Definition default_enum (path : string) (values : list string) (d : string)
           (s : option string) : Result string :=
  match s with
  | Some v => if JS.includes values v then inr v else inl (ValidationError path)
  | None => inr d
  end.

(** [{ type: String, maxlength }] *)
Definition max_length (path : string) (n : nat) (s : option string)
  : Result (option string) :=
  match s with
  | Some v => if Nat.leb (JS.length v) n then inr (Some v)
              else inl (ValidationError path)
  | None => inr None
  end.

(** [{ type: ObjectId, required }] from a string. *)
Definition required_oid (path : string) (s : option string) : Result ObjectId :=
  match s with
  | Some v =>
      match castObjectId v with
      | Some i => inr i
      | None => inl (ValidationError path)
      end
  | None => inl (ValidationError path)
  end.

(** Validators applied to each element of an array of subdocuments. *)
Fixpoint each {A B : Type} (f : A -> Result B) (l : list A) : Result (list B) :=
  match l with
  | a :: r =>
      let? b := f a in
      let? bs := each f r in
      inr (b :: bs)
  | [] => inr []
  end.

End Schema.

(** What a route hands to [Model.create]: every path may be absent. *)
Module Payload.

Record Customer : Type := mkCustomer
  { firstName : option string; lastName : option string;
    email : option string; phoneNumber : option string }.

Record Addr : Type := mkAddr
  { streetAddress : option string; city : option string; state : option string;
    postalCode : option string; country : option string }.

Record Item : Type := mkItem
  { productId : option string; productName : option string;
    quantity : option Q; unitPrice : option Q; totalPrice : option Q }.

Record Amounts : Type := mkAmounts
  { subtotal : option Q; tax : option Q; shipping : option Q;
    discount : option Q; total : option Q }.

Record Summary : Type := mkSummary
  { method : option string; status : option string;
    transactionId : option string; paidAt : option Time }.

Record Order : Type := mkOrder
  { orderNumber : option string;
    customerInfo : option Customer;
    shippingAddress : option Addr;
    billingAddress : option Addr;
    items : option (list Item);
    pricing : option Amounts;
    payment : option Summary;
    order_status : option string;
    shipping_method : option string;
    notes : option string }.

(** The [orderId] of a payment payload: an ObjectId taken from a document,
    or a string of the request that still has to be cast. *)
Inductive OrderRef : Type :=
| RefId (i : ObjectId)
| RefString (s : string).

Record Payment : Type := mkPayment
  { paymentId : option string;
    pay_orderNumber : option string;
    orderId : option OrderRef;
    pay_customerInfo : option Customer;
    paymentMethod_type : option string;
    paymentMethod_details : PaymentDoc.Details;
    amount : option Amounts;
    pay_status : option string;
    transactionDetails : PaymentDoc.TransactionDetails;
    timestamps : PaymentDoc.Timestamps;
    pay_notes : option string }.

Definition no_customer : Customer := mkCustomer None None None None.
Definition no_addr : Addr := mkAddr None None None None None.
Definition no_amounts : Amounts := mkAmounts None None None None None.
Definition no_summary : Summary := mkSummary None None None None.

End Payload.

(** Primitive steps on the world. *)
Definition fresh_oid : M ObjectId :=
  fun w => (mkWorld (db w) (N.succ (next_oid w)) (gateway_log w), inr (next_oid w)).

Definition get_db : M DB := fun w => (w, inr (db w)).

Definition put_db (d : DB) : M unit :=
  fun w => (mkWorld d (next_oid w) (gateway_log w), inr tt).

(** An awaited gateway call: it is logged, and a rejection is thrown. *)
Definition logged (c : Razorpay.Call) (w : World) : World :=
  mkWorld (db w) (next_oid w) (gateway_log w ++ [c]).

Definition gateway {A : Type} (c : Razorpay.Call) (name : string) (r : option A) : M A :=
  fun w =>
    (logged c w,
     match r with
     | Some a => inr a
     | None => inl (GatewayError name)
     end).

Definition validate_customer (c : option Payload.Customer) : Result CustomerInfo :=
  let c := match c with Some c => c | None => Payload.no_customer end in
  let? f := Schema.required_string "customerInfo.firstName" (Payload.firstName c) in
  let? l := Schema.required_string "customerInfo.lastName" (Payload.lastName c) in
  let? e := Schema.required_string "customerInfo.email" (Payload.email c) in
  let? p := Schema.required_string "customerInfo.phoneNumber" (Payload.phoneNumber c) in
  inr (mkCustomerInfo f l (JS.toLowerCase e) p).

Definition validate_amounts (path : string) (a : option Payload.Amounts) : Result Money :=
  let a := match a with Some a => a | None => Payload.no_amounts end in
  let? s := Schema.required_min (path ++ ".subtotal") 0 (Payload.subtotal a) in
  let? t := Schema.default_min (path ++ ".tax") 0 0 (Payload.tax a) in
  let? h := Schema.default_min (path ++ ".shipping") 0 0 (Payload.shipping a) in
  let? d := Schema.default_min (path ++ ".discount") 0 0 (Payload.discount a) in
  let? tot := Schema.required_min (path ++ ".total") 0 (Payload.total a) in
  inr (mkMoney s t h d tot).

(** ** The Order model *)
Module Order.

Definition payment_methods : list string :=
  ["Credit Card"; "Debit Card"; "PayPal"; "Bank Transfer"; "Cash on Delivery"; "Razorpay"].
Definition payment_statuses : list string := ["Pending"; "Paid"; "Failed"; "Refunded"].
Definition statuses : list string :=
  ["Pending"; "Confirmed"; "Processing"; "Shipped"; "Delivered"; "Cancelled"; "Returned"].
Definition shipping_methods : list string := ["Standard"; "Express"; "Overnight"].

Definition validate_address (path : string) (a : option Payload.Addr) : Result Address :=
  let a := match a with Some a => a | None => Payload.no_addr end in
  let? s := Schema.required_string (path ++ ".streetAddress") (Payload.streetAddress a) in
  let? c := Schema.required_string (path ++ ".city") (Payload.city a) in
  let? st := Schema.required_string (path ++ ".state") (Payload.state a) in
  let? p := Schema.required_string (path ++ ".postalCode") (Payload.postalCode a) in
  let? k := Schema.required_string (path ++ ".country") (Payload.country a) in
  inr (mkAddress s c st p k).

Definition validate_item (i : Payload.Item) : Result OrderDoc.Item :=
  let? pid := Schema.required_oid "items.productId" (Payload.productId i) in
  let? name :=
    (if JS.truthy_str (Payload.productName i)
     then inr (JS.or_str (Payload.productName i) "")
     else inl (ValidationError "items.productName")) in
  let? q := Schema.required_min "items.quantity" 1 (Payload.quantity i) in
  let? u := Schema.required_min "items.unitPrice" 0 (Payload.unitPrice i) in
  let? t := Schema.required_min "items.totalPrice" 0 (Payload.totalPrice i) in
  inr (OrderDoc.mkItem pid name q u t).

Definition validate_summary (s : option Payload.Summary) : Result OrderDoc.PaymentSummary :=
  let s := match s with Some s => s | None => Payload.no_summary end in
  let? m := Schema.required_enum "payment.method" payment_methods (Payload.method s) in
  let? st := Schema.default_enum "payment.status" payment_statuses "Pending"
               (Payload.status s) in
  inr (OrderDoc.mkPaymentSummary m st
         (Schema.optional_string (Payload.transactionId s)) (Payload.paidAt s)).

(** Casting, defaults and validation of a new document; [orderNumber] is
    still empty when the payload has none. *)
Definition validate (id : ObjectId) (now : Time) (p : Payload.Order) : Result OrderDoc.t :=
  let? c := validate_customer (Payload.customerInfo p) in
  let? sa := validate_address "shippingAddress" (Payload.shippingAddress p) in
  let? ba := validate_address "billingAddress" (Payload.billingAddress p) in
  let? its := Schema.each validate_item
                (match Payload.items p with Some l => l | None => [] end) in
  let? pr := validate_amounts "pricing" (Payload.pricing p) in
  let? pm := validate_summary (Payload.payment p) in
  let? st := Schema.default_enum "status" statuses "Pending" (Payload.order_status p) in
  let? sm := Schema.default_enum "shipping.method" shipping_methods "Standard"
               (Payload.shipping_method p) in
  let? n := Schema.max_length "notes" 500 (Payload.notes p) in
  inr (OrderDoc.mkOrder id (JS.or_str (Payload.orderNumber p) "")
         c sa ba its pr pm st sm n now now).

(** [orderSchema.pre('save')]: number the order after the collection's
    size when it has no number. *)
Definition pre_save (count : nat) (o : OrderDoc.t) : OrderDoc.t :=
  if String.eqb (OrderDoc.orderNumber o) "" then
    OrderDoc.mkOrder (OrderDoc._id o)
      ("ORD-" ++ JS.padStart0 6 (JS.String_of_N (N.of_nat count + 1)))
      (OrderDoc.customerInfo o) (OrderDoc.shippingAddress o)
      (OrderDoc.billingAddress o) (OrderDoc.items o) (OrderDoc.pricing o)
      (OrderDoc.payment o) (OrderDoc.order_status o) (OrderDoc.shipping_method o)
      (OrderDoc.notes o) (OrderDoc.createdAt o) (OrderDoc.updatedAt o)
  else o.

(** The unique index on [orderNumber]. *)
Definition number_taken (n : string) (d : DB) : bool :=
  existsb (fun o => String.eqb (OrderDoc.orderNumber o) n) (orders d).

(** [Order.create(payload)] *)
Definition create (now : Time) (p : Payload.Order) : M OrderDoc.t :=
  let* id := fresh_oid in
  let* doc := lift (validate id now p) in
  let* d := get_db in
  let doc := pre_save (List.length (orders d)) doc in
  if number_taken (OrderDoc.orderNumber doc) d
  then throw (DuplicateKeyError "orderNumber")
  else
    let* _ := put_db (mkDB (orders d ++ [doc]) (payments d)) in
    ret doc.

End Order.

(** ** The Payment model *)
Module Payment.

Definition method_types : list string :=
  ["Credit Card"; "Debit Card"; "PayPal"; "Bank Transfer"; "Cash on Delivery";
   "Digital Wallet"; "Razorpay"].
Definition statuses : list string :=
  ["Pending"; "Processing"; "Completed"; "Failed"; "Cancelled"; "Refunded";
   "Partially Refunded"].
Definition refund_statuses : list string := ["Pending"; "Processed"; "Failed"].

Definition validate_orderId (r : option Payload.OrderRef) : Result ObjectId :=
  match r with
  | Some (Payload.RefId i) => inr i
  | Some (Payload.RefString s) => Schema.required_oid "orderId" (Some s)
  | None => inl (ValidationError "orderId")
  end.

Definition validate_details (d : PaymentDoc.Details) : PaymentDoc.Details :=
  PaymentDoc.mkDetails
    (Schema.optional_string (PaymentDoc.razorpayOrderId d))
    (Schema.optional_string (PaymentDoc.razorpayPaymentId d))
    (Schema.optional_string (PaymentDoc.razorpaySignature d))
    (Schema.optional_string (PaymentDoc.method d))
    (Schema.optional_string (PaymentDoc.bank d))
    (Schema.optional_string (PaymentDoc.wallet d))
    (Schema.optional_string (PaymentDoc.vpa d)).

Definition validate_transaction (t : PaymentDoc.TransactionDetails)
  : Result PaymentDoc.TransactionDetails :=
  let? fee := Schema.required_min "transactionDetails.processingFee" 0
                (Some (PaymentDoc.processingFee t)) in
  inr (PaymentDoc.mkTransactionDetails
         (Schema.optional_string (PaymentDoc.transactionId t))
         (Schema.optional_string (PaymentDoc.gatewayTransactionId t))
         (PaymentDoc.gatewayResponse t)
         (Schema.optional_string (PaymentDoc.gatewayName t))
         fee).

(** [refundDetails] of a document, as the schema constrains it. *)
Definition validate_refund (r : PaymentDoc.RefundDetails)
  : Result PaymentDoc.RefundDetails :=
  let? a := Schema.optional_min "refundDetails.refundAmount" 0
              (PaymentDoc.refundAmount r) in
  let? s :=
    match PaymentDoc.refundStatus r with
    | Some v => if JS.includes refund_statuses v then inr (Some v)
                else inl (ValidationError "refundDetails.refundStatus")
    | None => inr None
    end in
  inr (PaymentDoc.mkRefundDetails
         (Schema.optional_string (PaymentDoc.refundId r)) a
         (Schema.optional_string (PaymentDoc.refundReason r)) s
         (PaymentDoc.refundedAt r)).

(** A new document has no refund yet: only the default of
    [refundDetails.refundStatus] is set. *)
Definition default_refund : PaymentDoc.RefundDetails :=
  PaymentDoc.mkRefundDetails None None None (Some "Pending") None.

Definition default_timestamps (now : Time) (t : PaymentDoc.Timestamps)
  : PaymentDoc.Timestamps :=
  PaymentDoc.mkTimestamps
    (match PaymentDoc.initiatedAt t with Some i => Some i | None => Some now end)
    (PaymentDoc.processedAt t) (PaymentDoc.completedAt t) (PaymentDoc.failedAt t).

Definition validate (id : ObjectId) (now : Time) (p : Payload.Payment)
  : Result PaymentDoc.t :=
  let? oid := validate_orderId (Payload.orderId p) in
  let? onum := Schema.required_string "orderNumber" (Payload.pay_orderNumber p) in
  let? c := validate_customer (Payload.pay_customerInfo p) in
  let? ty := Schema.required_enum "paymentMethod.type" method_types
               (Payload.paymentMethod_type p) in
  let? am := validate_amounts "amount" (Payload.amount p) in
  let? st := Schema.default_enum "status" statuses "Pending" (Payload.pay_status p) in
  let? tr := validate_transaction (Payload.transactionDetails p) in
  let? n := Schema.max_length "notes" 500 (Payload.pay_notes p) in
  inr (PaymentDoc.mkPayment id (JS.or_str (Payload.paymentId p) "") oid onum c ty
         (validate_details (Payload.paymentMethod_details p)) am st tr
         default_refund (default_timestamps now (Payload.timestamps p)) n now now).

Definition with_paymentId (p : PaymentDoc.t) (n : string) : PaymentDoc.t :=
  PaymentDoc.mkPayment (PaymentDoc._id p) n (PaymentDoc.orderId p)
    (PaymentDoc.orderNumber p) (PaymentDoc.customerInfo p)
    (PaymentDoc.paymentMethod_type p) (PaymentDoc.paymentMethod_details p)
    (PaymentDoc.amount p) (PaymentDoc.status p) (PaymentDoc.transactionDetails p)
    (PaymentDoc.refundDetails p) (PaymentDoc.timestamps p) (PaymentDoc.notes p)
    (PaymentDoc.createdAt p) (PaymentDoc.updatedAt p).

(** [paymentSchema.pre('save')] *)
Definition pre_save (count : nat) (p : PaymentDoc.t) : PaymentDoc.t :=
  if String.eqb (PaymentDoc.paymentId p) "" then
    with_paymentId p ("PAY-" ++ JS.padStart0 6 (JS.String_of_N (N.of_nat count + 1)))
  else p.

(** [Payment.findOne({ paymentId })] *)
Definition lookup (pid : string) (d : DB) : option PaymentDoc.t :=
  find (fun p => String.eqb (PaymentDoc.paymentId p) pid) (payments d).

Definition findOne_paymentId (pid : string) : M (option PaymentDoc.t) :=
  let* d := get_db in ret (lookup pid d).

(** [Payment.create(payload)]; the unique index on [paymentId] refuses a
    second document with the same value. *)
Definition create (now : Time) (p : Payload.Payment) : M PaymentDoc.t :=
  let* id := fresh_oid in
  let* doc := lift (validate id now p) in
  let* d := get_db in
  let doc := pre_save (List.length (payments d)) doc in
  match lookup (PaymentDoc.paymentId doc) d with
  | Some _ => throw (DuplicateKeyError "paymentId")
  | None =>
      let* _ := put_db (mkDB (orders d) (payments d ++ [doc])) in
      ret doc
  end.

(** The in-memory assignments of the refund route. *)
Definition set_refundDetails (p : PaymentDoc.t) (r : PaymentDoc.RefundDetails)
  : PaymentDoc.t :=
  PaymentDoc.mkPayment (PaymentDoc._id p) (PaymentDoc.paymentId p) (PaymentDoc.orderId p)
    (PaymentDoc.orderNumber p) (PaymentDoc.customerInfo p)
    (PaymentDoc.paymentMethod_type p) (PaymentDoc.paymentMethod_details p)
    (PaymentDoc.amount p) (PaymentDoc.status p) (PaymentDoc.transactionDetails p)
    r (PaymentDoc.timestamps p) (PaymentDoc.notes p)
    (PaymentDoc.createdAt p) (PaymentDoc.updatedAt p).

Definition set_status (p : PaymentDoc.t) (s : string) : PaymentDoc.t :=
  PaymentDoc.mkPayment (PaymentDoc._id p) (PaymentDoc.paymentId p) (PaymentDoc.orderId p)
    (PaymentDoc.orderNumber p) (PaymentDoc.customerInfo p)
    (PaymentDoc.paymentMethod_type p) (PaymentDoc.paymentMethod_details p)
    (PaymentDoc.amount p) s (PaymentDoc.transactionDetails p)
    (PaymentDoc.refundDetails p) (PaymentDoc.timestamps p) (PaymentDoc.notes p)
    (PaymentDoc.createdAt p) (PaymentDoc.updatedAt p).

Definition set_timestamps (p : PaymentDoc.t) (t : PaymentDoc.Timestamps) : PaymentDoc.t :=
  PaymentDoc.mkPayment (PaymentDoc._id p) (PaymentDoc.paymentId p) (PaymentDoc.orderId p)
    (PaymentDoc.orderNumber p) (PaymentDoc.customerInfo p)
    (PaymentDoc.paymentMethod_type p) (PaymentDoc.paymentMethod_details p)
    (PaymentDoc.amount p) (PaymentDoc.status p) (PaymentDoc.transactionDetails p)
    (PaymentDoc.refundDetails p) t (PaymentDoc.notes p)
    (PaymentDoc.createdAt p) (PaymentDoc.updatedAt p).

Definition touch (now : Time) (p : PaymentDoc.t) : PaymentDoc.t :=
  PaymentDoc.mkPayment (PaymentDoc._id p) (PaymentDoc.paymentId p) (PaymentDoc.orderId p)
    (PaymentDoc.orderNumber p) (PaymentDoc.customerInfo p)
    (PaymentDoc.paymentMethod_type p) (PaymentDoc.paymentMethod_details p)
    (PaymentDoc.amount p) (PaymentDoc.status p) (PaymentDoc.transactionDetails p)
    (PaymentDoc.refundDetails p) (PaymentDoc.timestamps p) (PaymentDoc.notes p)
    (PaymentDoc.createdAt p) now.

(** Replace the stored document that has the identity of [p]. *)
Definition replace (p : PaymentDoc.t) (l : list PaymentDoc.t) : list PaymentDoc.t :=
  map (fun q => if N.eqb (PaymentDoc._id q) (PaymentDoc._id p) then p else q) l.

(** [payment.save()] after the refund route's assignments: the modified
    paths ([refundDetails], [status]) are validated, then the stored
    document is replaced. *)
Definition save (now : Time) (p : PaymentDoc.t) : M unit :=
  let* r := lift (validate_refund (PaymentDoc.refundDetails p)) in
  let* _ := lift (Schema.required_enum "status" statuses (Some (PaymentDoc.status p))) in
  let* d := get_db in
  put_db (mkDB (orders d) (replace (touch now (set_refundDetails p r)) (payments d))).

(** [Payment.findByIdAndUpdate(id, { status, timestamps }, { new: true,
    runValidators: true })] *)
Definition findByIdAndUpdate_status (now : Time) (id : ObjectId) (s : string)
           (t : PaymentDoc.Timestamps) : M (option PaymentDoc.t) :=
  let* _ := lift (Schema.required_enum "status" statuses (Some s)) in
  let* d := get_db in
  match find (fun p => N.eqb (PaymentDoc._id p) id) (payments d) with
  | Some p =>
      let p' := touch now (set_timestamps (set_status p s) t) in
      let* _ := put_db (mkDB (orders d) (replace p' (payments d))) in
      ret (Some p')
  | None => ret None
  end.

End Payment.

(* ===================================================================== *)
(** ** HTTP responses *)
(* ===================================================================== *)

Inductive Data : Type :=
| NoData
| DataIntent (id : string) (amount : Z) (currency receipt status : string) (created_at : N)
| DataVerified (payment : PaymentDoc.t) (razorpay_order_id razorpay_payment_id : string)
               (amount : Q) (currency status : string)
| DataRefund (refund_id : string) (amount : Q) (status : string) (created_at : N)
| DataOrder (order : OrderDoc.t)
| DataPayment (payment : PaymentDoc.t).

(** The [message] of a response: a fixed text, or [error.message] of the
    exception that was caught. *)
Inductive Message : Type :=
| Text (s : string)
| ErrorMessage (e : Exn).

Record Response : Type := mkResponse
  { statusCode : nat; success : bool; error : option string;
    message : Message; data : Data }.

Definition fail (code : nat) (err msg : string) : Response :=
  mkResponse code false (Some err) (Text msg) NoData.

Definition ok (code : nat) (msg : string) (d : Data) : Response :=
  mkResponse code true None (Text msg) d.

(** [try { ... } catch (error) { res.status(500).json(...) }] *)
Definition caught (err : string) (e : Exn) : Response :=
  mkResponse 500 false (Some err) (ErrorMessage e) NoData.

Definition try_catch (body : M Response) (err : string) (w : World) : World * Response :=
  match body w with
  | (w', inr r) => (w', r)
  | (w', inl e) => (w', caught err e)
  end.

(* ===================================================================== *)
(** ** The Razorpay routes *)
(* ===================================================================== *)

(** [orderData] of a verification request. *)
Module Draft.

Record Address : Type := mkAddress
  { street_address : option string; city : option string; state : option string;
    postal_code : option string; country : option string }.

Record Product : Type := mkProduct
  { id : option string; name : option string; quantity : option Q;
    price : option Q; rental_price : option Q }.

Record t : Type := mkDraft
  { customerInfo : option Payload.Customer;
    address : option Address;
    products : option (list Product);
    totalPrice : option Q;
    orderId : option string }.

End Draft.

Module RazorpayRoutes.

(** [a?.f] *)
Definition chain {A B : Type} (a : option A) (f : A -> option B) : option B :=
  match a with
  | Some x => f x
  | None => None
  end.

(** *** POST /create-order *)

Record CreateOrderBody : Type := mkCreateOrderBody
  { co_amount : option Q; co_currency : JS.Field string;
    co_receipt : option string; co_notes : option Notes }.

Definition supportedCurrencies : list string := ["INR"].

(** [Math.round(amount * 100)]: major units to paise. *)
Definition to_paise (amount : Q) : Z := JS.Math_round (JS.mul amount 100).

(** [currency = 'INR'] in the destructuring of the body: [None] is a
    [currency] that is [null]. *)
Definition currency_of (b : CreateOrderBody) : option string :=
  match co_currency b with
  | JS.Undefined => Some "INR"
  | JS.Null => None
  | JS.Value c => Some c
  end.

Definition create_order_body (gw : Razorpay.Service) (b : CreateOrderBody) : M Response :=
  if (negb (JS.truthy_num (co_amount b)) || JS.le0 (co_amount b))%bool then
    ret (fail 400 "Invalid amount" "Amount must be greater than 0")
  else if negb (JS.truthy_str (co_receipt b)) then
    ret (fail 400 "Missing receipt" "Receipt is required")
  else
    match currency_of b with
    | Some currency =>
        if negb (JS.includes supportedCurrencies currency) then
          ret (fail 400 "Unsupported currency"
                 ("Currency " ++ currency ++ " is not supported. Supported currencies: "
                  ++ JS.join ", " supportedCurrencies))
        else
          let options :=
            Razorpay.mkOrderOptions
              (to_paise (JS.or_num (co_amount b) 0))
              currency
              (JS.or_str (co_receipt b) "")
              (match co_notes b with Some n => n | None => [] end) in
          let* razorpayOrder :=
            gateway (Razorpay.CallOrdersCreate options) "orders.create"
                    (Razorpay.orders_create gw options) in
          ret (ok 200 "Razorpay order created successfully"
                  (DataIntent (Razorpay.go_id razorpayOrder)
                              (Razorpay.go_amount razorpayOrder)
                              (Razorpay.go_currency razorpayOrder)
                              (Razorpay.go_receipt razorpayOrder)
                              (Razorpay.go_status razorpayOrder)
                              (Razorpay.go_created_at razorpayOrder)))
    | None =>
        ret (fail 400 "Unsupported currency"
               ("Currency null is not supported. Supported currencies: "
                ++ JS.join ", " supportedCurrencies))
    end.

Definition create_order (gw : Razorpay.Service) (b : CreateOrderBody)
  : World -> World * Response :=
  try_catch (create_order_body gw b) "Failed to create Razorpay order".

(** *** POST /verify-payment *)

Record VerifyBody : Type := mkVerifyBody
  { razorpay_order_id : option string;
    razorpay_payment_id : option string;
    razorpay_signature : option string;
    orderData : option Draft.t }.

Definition expectedSignature (order_id payment_id : string) : string :=
  let body := order_id ++ "|" ++ payment_id in
  Crypto.digest_hex
    (Crypto.update (Crypto.createHmac_sha256 razorpayConfig.test_key_secret) body).

(** [expectedSignature === razorpay_signature] *)
Definition isAuthentic (order_id payment_id signature : string) : bool :=
  String.eqb (expectedSignature order_id payment_id) signature.

Definition customer_of (d : option Draft.t) : Payload.Customer :=
  let c := chain d Draft.customerInfo in
  Payload.mkCustomer
    (Some (JS.or_str (chain c Payload.firstName) "Guest"))
    (Some (JS.or_str (chain c Payload.lastName) "User"))
    (Some (JS.or_str (chain c Payload.email) "guest@example.com"))
    (Some (JS.or_str (chain c Payload.phoneNumber) "0000000000")).

Definition address_of (d : option Draft.t) : Payload.Addr :=
  let a := chain d Draft.address in
  Payload.mkAddr
    (Some (JS.or_str (chain a Draft.street_address) "Address"))
    (Some (JS.or_str (chain a Draft.city) "City"))
    (Some (JS.or_str (chain a Draft.state) "State"))
    (Some (JS.or_str (chain a Draft.postal_code) "000000"))
    (Some (JS.or_str (chain a Draft.country) "India")).

Definition item_of (product : Draft.Product) : Payload.Item :=
  let unit := JS.or_num (Draft.price product) (JS.or_num (Draft.rental_price product) 0) in
  let qty := JS.or_num (Draft.quantity product) 1 in
  Payload.mkItem (Draft.id product) (Draft.name product)
    (Some qty) (Some unit) (Some (JS.mul unit qty)).

Definition orderPayload (payment_id : string) (d : option Draft.t) : Payload.Order :=
  Payload.mkOrder None
    (Some (customer_of d))
    (Some (address_of d))
    (Some (address_of d))
    (Some (match chain d Draft.products with
           | Some l => map item_of l
           | None => []
           end))
    (Some (Payload.mkAmounts
             (Some (JS.or_num (chain d Draft.totalPrice) 0))
             (Some 0) (Some 0) (Some 0)
             (Some (JS.or_num (chain d Draft.totalPrice) 0))))
    (Some (Payload.mkSummary (Some "Razorpay") (Some "Pending") (Some payment_id) None))
    (Some "Pending")
    None None.

Definition captured (payment : Razorpay.GatewayPayment) : bool :=
  String.eqb (Razorpay.gp_status payment) "captured".

(** [payment.amount / 100]: paise to major units. *)
Definition from_paise (a : Z) : Q := JS.div (inject_Z a) 100.

Definition paymentData (now : Time) (order_id payment_id signature : string)
           (d : option Draft.t) (payment : Razorpay.GatewayPayment)
           (newOrder : OrderDoc.t) : Payload.Payment :=
  let amount :=
    JS.or_num (chain d Draft.totalPrice) (from_paise (Razorpay.gp_amount payment)) in
  Payload.mkPayment
    (Some payment_id)
    (Some (OrderDoc.orderNumber newOrder))
    (Some (if JS.truthy_str (chain d Draft.orderId)
           then Payload.RefString (JS.or_str (chain d Draft.orderId) "")
           else Payload.RefId (OrderDoc._id newOrder)))
    (Some (customer_of d))
    (Some "Razorpay")
    (PaymentDoc.mkDetails (Some order_id) (Some payment_id) (Some signature)
       (Razorpay.gp_method payment)
       (JS.or_null (Razorpay.gp_bank payment))
       (JS.or_null (Razorpay.gp_wallet payment))
       (JS.or_null (Razorpay.gp_vpa payment)))
    (Some (Payload.mkAmounts (Some amount) (Some 0) (Some 0) (Some 0) (Some amount)))
    (Some (if captured payment then "Completed" else "Processing"))
    (PaymentDoc.mkTransactionDetails (Some payment_id) (Some payment_id)
       (Some payment) (Some "Razorpay") 0)
    (PaymentDoc.mkTimestamps (Some now) (Some now)
       (if captured payment then Some now else None) None)
    None.

(** [!razorpay_order_id || !razorpay_payment_id || !razorpay_signature] *)
Definition missing (b : VerifyBody) : bool :=
  (negb (JS.truthy_str (razorpay_order_id b))
   || negb (JS.truthy_str (razorpay_payment_id b))
   || negb (JS.truthy_str (razorpay_signature b)))%bool.

(** The three gateway fields of a request that has them. *)
Definition order_id_of (b : VerifyBody) : string := JS.or_str (razorpay_order_id b) "".
Definition payment_id_of (b : VerifyBody) : string := JS.or_str (razorpay_payment_id b) "".
Definition signature_of (b : VerifyBody) : string := JS.or_str (razorpay_signature b) "".

Definition verify_payment_body (gw : Razorpay.Service) (now : Time) (b : VerifyBody)
  : M Response :=
  if missing b then
    ret (fail 400 "Missing payment verification data"
           "razorpay_order_id, razorpay_payment_id, and razorpay_signature are required")
  else
    let order_id := order_id_of b in
    let payment_id := payment_id_of b in
    let signature := signature_of b in
    if negb (isAuthentic order_id payment_id signature) then
      ret (fail 400 "Invalid payment signature" "Payment verification failed")
    else
      let* payment :=
        gateway (Razorpay.CallPaymentsFetch payment_id) "payments.fetch"
                (Razorpay.payments_fetch gw payment_id) in
      let* newOrder := Order.create now (orderPayload payment_id (orderData b)) in
      let* newPayment :=
        Payment.create now
          (paymentData now order_id payment_id signature (orderData b) payment newOrder) in
      ret (ok 200 "Payment verified and recorded successfully"
             (DataVerified newPayment order_id payment_id
                (from_paise (Razorpay.gp_amount payment))
                (Razorpay.gp_currency payment) (Razorpay.gp_status payment))).

Definition verify_payment (gw : Razorpay.Service) (now : Time) (b : VerifyBody)
  : World -> World * Response :=
  try_catch (verify_payment_body gw now b) "Failed to verify payment".

(** The ways a verification request can end: the world it leaves and
    the response it sends. *)
Inductive settlement (gw : Razorpay.Service) (now : Time) (b : VerifyBody) (w : World)
  : World -> Response -> Prop :=
| settle_missing :
    missing b = true ->
    settlement gw now b w w
      (fail 400 "Missing payment verification data"
         "razorpay_order_id, razorpay_payment_id, and razorpay_signature are required")
| settle_forged :
    missing b = false ->
    isAuthentic (order_id_of b) (payment_id_of b) (signature_of b) = false ->
    settlement gw now b w w
      (fail 400 "Invalid payment signature" "Payment verification failed")
| settle_fetch_failed :
    missing b = false ->
    isAuthentic (order_id_of b) (payment_id_of b) (signature_of b) = true ->
    Razorpay.payments_fetch gw (payment_id_of b) = None ->
    settlement gw now b w
      (logged (Razorpay.CallPaymentsFetch (payment_id_of b)) w)
      (caught "Failed to verify payment" (GatewayError "payments.fetch"))
| settle_order_failed (payment : Razorpay.GatewayPayment) (w1 : World) (e : Exn) :
    missing b = false ->
    isAuthentic (order_id_of b) (payment_id_of b) (signature_of b) = true ->
    Razorpay.payments_fetch gw (payment_id_of b) = Some payment ->
    Order.create now (orderPayload (payment_id_of b) (orderData b))
      (logged (Razorpay.CallPaymentsFetch (payment_id_of b)) w) = (w1, inl e) ->
    settlement gw now b w w1 (caught "Failed to verify payment" e)
| settle_payment_failed (payment : Razorpay.GatewayPayment) (w1 w2 : World)
                        (newOrder : OrderDoc.t) (e : Exn) :
    missing b = false ->
    isAuthentic (order_id_of b) (payment_id_of b) (signature_of b) = true ->
    Razorpay.payments_fetch gw (payment_id_of b) = Some payment ->
    Order.create now (orderPayload (payment_id_of b) (orderData b))
      (logged (Razorpay.CallPaymentsFetch (payment_id_of b)) w) = (w1, inr newOrder) ->
    Payment.create now
      (paymentData now (order_id_of b) (payment_id_of b) (signature_of b)
         (orderData b) payment newOrder) w1 = (w2, inl e) ->
    settlement gw now b w w2 (caught "Failed to verify payment" e)
| settle_recorded (payment : Razorpay.GatewayPayment) (w1 w2 : World)
                  (newOrder : OrderDoc.t) (newPayment : PaymentDoc.t) :
    missing b = false ->
    isAuthentic (order_id_of b) (payment_id_of b) (signature_of b) = true ->
    Razorpay.payments_fetch gw (payment_id_of b) = Some payment ->
    Order.create now (orderPayload (payment_id_of b) (orderData b))
      (logged (Razorpay.CallPaymentsFetch (payment_id_of b)) w) = (w1, inr newOrder) ->
    Payment.create now
      (paymentData now (order_id_of b) (payment_id_of b) (signature_of b)
         (orderData b) payment newOrder) w1 = (w2, inr newPayment) ->
    settlement gw now b w w2
      (ok 200 "Payment verified and recorded successfully"
         (DataVerified newPayment (order_id_of b) (payment_id_of b)
            (from_paise (Razorpay.gp_amount payment))
            (Razorpay.gp_currency payment) (Razorpay.gp_status payment))).

(** *** POST /refund *)

Record RefundBody : Type := mkRefundBody
  { payment_id : option string; rf_amount : option Q; rf_notes : option Notes }.

Definition refundOptions (pid : string) (b : RefundBody) : Razorpay.RefundOptions :=
  Razorpay.mkRefundOptions pid
    (match rf_notes b with
     | Some n => n
     | None => [("reason", "Customer request")]
     end)
    (if (JS.truthy_num (rf_amount b) && JS.gt0 (rf_amount b))%bool
     then Some (to_paise (JS.or_num (rf_amount b) 0))
     else None).

(** The assignments made to the document that [findOne] returned. *)
Definition refunded (now : Time) (b : RefundBody) (refund : Razorpay.GatewayRefund)
           (payment : PaymentDoc.t) : PaymentDoc.t :=
  let p :=
    Payment.set_refundDetails payment
      (PaymentDoc.mkRefundDetails
         (Some (Razorpay.gr_id refund))
         (Some (from_paise (Razorpay.gr_amount refund)))
         (Some (JS.or_str (chain (rf_notes b) (notes_get "reason")) "Customer request"))
         (Some (Razorpay.gr_status refund))
         (Some now)) in
  if String.eqb (Razorpay.gr_status refund) "processed" then
    Payment.set_status p
      (if Qeq_bool (inject_Z (Razorpay.gr_amount refund))
                   (JS.mul (total (PaymentDoc.amount payment)) 100)
       then "Refunded" else "Partially Refunded")
  else p.

Definition refund_body (gw : Razorpay.Service) (now : Time) (b : RefundBody) : M Response :=
  if negb (JS.truthy_str (payment_id b)) then
    ret (fail 400 "Missing payment ID" "Payment ID is required for refund")
  else
    let pid := JS.or_str (payment_id b) "" in
    let opts := refundOptions pid b in
    let* refund :=
      gateway (Razorpay.CallPaymentsRefund pid opts) "payments.refund"
              (Razorpay.payments_refund gw pid opts) in
    let* payment := Payment.findOne_paymentId pid in
    let* _ :=
      match payment with
      | Some p => Payment.save now (refunded now b refund p)
      | None => ret tt
      end in
    ret (ok 200 "Refund processed successfully"
           (DataRefund (Razorpay.gr_id refund) (from_paise (Razorpay.gr_amount refund))
                       (Razorpay.gr_status refund) (Razorpay.gr_created_at refund))).

Definition refund (gw : Razorpay.Service) (now : Time) (b : RefundBody)
  : World -> World * Response :=
  try_catch (refund_body gw now b) "Failed to process refund".

End RazorpayRoutes.

(* ===================================================================== *)
(** ** The generic order and payment routes *)
(* ===================================================================== *)

Module OrderRoutes.

(** *** POST /api/orders *)
Definition create_body (now : Time) (orderData : Payload.Order) : M Response :=
  match Payload.customerInfo orderData, Payload.items orderData,
        Payload.pricing orderData with
  | Some _, Some its, Some pricing =>
      if Nat.eqb (List.length its) 0 then
        ret (fail 400 "Invalid items" "At least one item is required")
      else if (negb (JS.truthy_num (Payload.total pricing))
               || JS.le0 (Payload.total pricing))%bool then
        ret (fail 400 "Invalid pricing" "Total amount must be greater than 0")
      else
        let* newOrder := Order.create now orderData in
        ret (ok 201 "Order created successfully" (DataOrder newOrder))
  | _, _, _ =>
      ret (fail 400 "Missing required fields"
             "Customer info, items, and pricing are required")
  end.

Definition create (now : Time) (orderData : Payload.Order) : World -> World * Response :=
  try_catch (create_body now orderData) "Something went wrong!".

End OrderRoutes.

Module PaymentRoutes.

Definition validStatuses : list string :=
  ["Pending"; "Processing"; "Completed"; "Failed"; "Cancelled"; "Refunded";
   "Partially Refunded"].

(** Reading a [const] binding. *)
Definition read {A : Type} (name : string) (b : JS.Binding A) : M A :=
  match b with
  | JS.Initialized a => ret a
  | JS.Uninitialized => throw (ReferenceError name)
  end.

(** *** PUT /api/payments/:id/status

    The statement is
    [const payment = await Payment.findByIdAndUpdate(id, { status,
     timestamps: { ...payment.timestamps, ... } }, ...)]:
    the update document is built before the call is made, and it reads
    [payment], the very binding the statement declares, which is still
    uninitialized at that point. *)
Definition update_status_body (now : Time) (id : string) (status : option string)
  : M Response :=
  let s := match status with Some s => s | None => "" end in
  if negb (match status with Some v => JS.includes validStatuses v | None => false end) then
    ret (fail 400 "Invalid status"
           ("Status must be one of: " ++ JS.join ", " validStatuses))
  else
    let* old := read "payment" (@JS.Uninitialized PaymentDoc.t) in
    let ts := PaymentDoc.timestamps old in
    let update :=
      PaymentDoc.mkTimestamps
        (PaymentDoc.initiatedAt ts)
        (if String.eqb s "Completed" then Some now else PaymentDoc.processedAt ts)
        (if String.eqb s "Completed" then Some now else PaymentDoc.completedAt ts)
        (if String.eqb s "Failed" then Some now else PaymentDoc.failedAt ts) in
    let* oid := lift (Schema.required_oid "_id" (Some id)) in
    let* payment := Payment.findByIdAndUpdate_status now oid s update in
    match payment with
    | None => ret (fail 404 "Payment not found" "No payment found with the provided ID")
    | Some p => ret (ok 200 "Payment status updated successfully" (DataPayment p))
    end.

Definition update_status (now : Time) (id : string) (status : option string)
  : World -> World * Response :=
  try_catch (update_status_body now id status) "Something went wrong!".

End PaymentRoutes.

(* ===================================================================== *)
(** ** Definitions that follow the specification's words *)
(* ===================================================================== *)

Module Spec.

(** Signature Verifier, section 4.2: HMAC-SHA256 over the UTF-8 bytes of
    [gatewayOrderId + "|" + gatewayPaymentId] keyed with [secret],
    hex-encoded and compared with [signature]. *)
Definition verify (gatewayOrderId gatewayPaymentId signature secret : string) : bool :=
  String.eqb signature
    (SHA256.hex
       (Crypto.hmac_sha256 (Crypto.utf8 secret)
          (Crypto.utf8 (gatewayOrderId ++ "|" ++ gatewayPaymentId)))).

(** Banker's rounding (section 4.1): the nearest integer, a tie going to
    the even neighbour. *)
Definition round_half_even (x : Q) : Z :=
  let f := Qfloor x in
  match Qcompare (x - inject_Z f) (1 # 2) with
  | Lt => f
  | Gt => (f + 1)%Z
  | Eq => if Z.even f then f else (f + 1)%Z
  end.

End Spec.

(** The digits of a lower-case hexadecimal string. *)
Definition is_lower_hex (c : ascii) : bool :=
  let n := N_of_ascii c in
  (((48 <=? n) && (n <=? 57)) || ((97 <=? n) && (n <=? 102)))%N.

(* ===================================================================== *)
(** ** A settlement scenario *)
(* ===================================================================== *)

Module Scenario.

(** A gateway that has captured 499.00 INR for every payment id and
    processes every refund, in full when no amount is given. *)
Definition gw : Razorpay.Service :=
  Razorpay.mkService
    (fun o => Some (Razorpay.mkGatewayOrder "order_1" (Razorpay.oo_amount o)
                      (Razorpay.oo_currency o) (Razorpay.oo_receipt o) "created" 1%N))
    (fun _ => Some (Razorpay.mkGatewayPayment 49900 "INR" "captured" (Some "upi")
                      None None (Some "guest@upi")))
    (fun _ o => Some (Razorpay.mkGatewayRefund "rfnd_1"
                        (match Razorpay.ro_amount o with Some a => a | None => 49900%Z end)
                        "processed" 2%N)).

(** A gateway that refuses every call. *)
Definition gw_down : Razorpay.Service :=
  Razorpay.mkService (fun _ => None) (fun _ => None) (fun _ _ => None).

Definition empty : World := mkWorld (mkDB [] []) 1%N [].

Definition suit : Draft.Product :=
  Draft.mkProduct (Some "0123456789abcdef01234567") (Some "Suit")
    (Some 2) (Some (499 # 2)) None.

Definition draft : Draft.t := Draft.mkDraft None None (Some [suit]) (Some 499) None.

(** HMAC-SHA256 of ["order_1|pay_1"] under the configured secret. *)
Definition signature_1 : string :=
  "d9ab39c9d9e72b63ec04e0cbcbde273017d9359bb9fba8deb254a9f4e2fa2359".

Definition callback : RazorpayRoutes.VerifyBody :=
  RazorpayRoutes.mkVerifyBody (Some "order_1") (Some "pay_1") (Some signature_1)
    (Some draft).

(** The same callback with an empty draft. *)
Definition callback_no_draft : RazorpayRoutes.VerifyBody :=
  RazorpayRoutes.mkVerifyBody (Some "order_1") (Some "pay_1") (Some signature_1) None.

(** The same callback whose draft names an order of its own. *)
Definition callback_linked : RazorpayRoutes.VerifyBody :=
  RazorpayRoutes.mkVerifyBody (Some "order_1") (Some "pay_1") (Some signature_1)
    (Some (Draft.mkDraft None None (Some [suit]) (Some 499)
             (Some "0000000000000000000000ff"))).

Definition callback_forged : RazorpayRoutes.VerifyBody :=
  RazorpayRoutes.mkVerifyBody (Some "order_1") (Some "pay_1")
    (Some "00ab39c9d9e72b63ec04e0cbcbde273017d9359bb9fba8deb254a9f4e2fa2359")
    (Some draft).

(** The world after the callback has been settled once. *)
Definition settled : World :=
  fst (RazorpayRoutes.verify_payment gw 1000%N callback empty).

End Scenario.

(* ===================================================================== *)
(** ** Queries of the two models used by the other routes *)
(* ===================================================================== *)

Module Store.

(** [deleteOne] and [findByIdAndDelete]: the first document that matches
    is removed. *)
Fixpoint remove_first {A : Type} (f : A -> bool) (l : list A) : list A :=
  match l with
  | a :: r => if f a then r else a :: remove_first f r
  | [] => []
  end.

Definition order_has_id (i : ObjectId) (o : OrderDoc.t) : bool :=
  N.eqb (OrderDoc._id o) i.

Definition payment_has_id (i : ObjectId) (p : PaymentDoc.t) : bool :=
  N.eqb (PaymentDoc._id p) i.

Definition payment_of_order (i : ObjectId) (p : PaymentDoc.t) : bool :=
  N.eqb (PaymentDoc.orderId p) i.

(** The cast of an id taken from the request; a string that is no
    ObjectId makes the query throw. *)
Definition cast_id (path id : string) : M ObjectId :=
  lift (Schema.required_oid path (Some id)).

(** [Order.findById(id)] *)
Definition Order_findById (id : string) : M (option OrderDoc.t) :=
  let* i := cast_id "_id" id in
  let* d := get_db in
  ret (find (order_has_id i) (orders d)).

(** [Order.findByIdAndDelete(id)] *)
Definition Order_findByIdAndDelete (id : string) : M (option OrderDoc.t) :=
  let* i := cast_id "_id" id in
  let* d := get_db in
  match find (order_has_id i) (orders d) with
  | Some o =>
      let* _ := put_db (mkDB (remove_first (order_has_id i) (orders d)) (payments d)) in
      ret (Some o)
  | None => ret None
  end.

(** [Payment.deleteOne({ orderId: id })] *)
Definition Payment_deleteOne_orderId (id : string) : M unit :=
  let* i := cast_id "orderId" id in
  let* d := get_db in
  put_db (mkDB (orders d) (remove_first (payment_of_order i) (payments d))).

(** [Payment.findByIdAndDelete(id)] *)
Definition Payment_findByIdAndDelete (id : string) : M (option PaymentDoc.t) :=
  let* i := cast_id "_id" id in
  let* d := get_db in
  match find (payment_has_id i) (payments d) with
  | Some p =>
      let* _ := put_db (mkDB (orders d) (remove_first (payment_has_id i) (payments d))) in
      ret (Some p)
  | None => ret None
  end.

(** The update [{ status }] of an order; the route's [timestamps] option
    refreshes [updatedAt]. *)
Definition order_with_status (now : Time) (s : string) (o : OrderDoc.t) : OrderDoc.t :=
  OrderDoc.mkOrder (OrderDoc._id o) (OrderDoc.orderNumber o) (OrderDoc.customerInfo o)
    (OrderDoc.shippingAddress o) (OrderDoc.billingAddress o) (OrderDoc.items o)
    (OrderDoc.pricing o) (OrderDoc.payment o) s (OrderDoc.shipping_method o)
    (OrderDoc.notes o) (OrderDoc.createdAt o) now.

(** The first document with identity [i] is replaced by [f] of it. *)
Fixpoint update_first (i : ObjectId) (f : OrderDoc.t -> OrderDoc.t) (l : list OrderDoc.t)
  : list OrderDoc.t :=
  match l with
  | o :: r => if order_has_id i o then f o :: r else o :: update_first i f r
  | [] => []
  end.

(** [Order.findByIdAndUpdate(id, { status }, { new: true, runValidators:
    true })] *)
Definition Order_findByIdAndUpdate_status (now : Time) (id s : string)
  : M (option OrderDoc.t) :=
  let* i := cast_id "_id" id in
  let* _ := lift (Schema.required_enum "status" Order.statuses (Some s)) in
  let* d := get_db in
  match find (order_has_id i) (orders d) with
  | Some o =>
      let* _ := put_db (mkDB (update_first i (order_with_status now s) (orders d))
                             (payments d)) in
      ret (Some (order_with_status now s o))
  | None => ret None
  end.

End Store.

(* ===================================================================== *)
(** ** The other order routes *)
(* ===================================================================== *)

Module OrderRouter.

Definition validStatuses : list string :=
  ["Pending"; "Confirmed"; "Processing"; "Shipped"; "Delivered"; "Cancelled"; "Returned"].

(** *** PUT /api/orders/:id/status *)
Definition update_status_body (now : Time) (id : string) (status : option string)
  : M Response :=
  match status with
  | Some s =>
      if JS.includes validStatuses s then
        let* order := Store.Order_findByIdAndUpdate_status now id s in
        match order with
        | None => ret (fail 404 "Order not found" "No order found with the provided ID")
        | Some o => ret (ok 200 "Order status updated successfully" (DataOrder o))
        end
      else
        ret (fail 400 "Invalid status"
               ("Status must be one of: " ++ JS.join ", " validStatuses))
  | None =>
      ret (fail 400 "Invalid status"
             ("Status must be one of: " ++ JS.join ", " validStatuses))
  end.

Definition update_status (now : Time) (id : string) (status : option string)
  : World -> World * Response :=
  try_catch (update_status_body now id status) "Something went wrong!".

(** *** DELETE /api/orders/:id *)
Definition delete_body (id : string) : M Response :=
  let* order := Store.Order_findByIdAndDelete id in
  match order with
  | None => ret (fail 404 "Order not found" "No order found with the provided ID")
  | Some _ =>
      let* _ := Store.Payment_deleteOne_orderId id in
      ret (ok 200 "Order deleted successfully" NoData)
  end.

Definition delete (id : string) : World -> World * Response :=
  try_catch (delete_body id) "Something went wrong!".

End OrderRouter.

(* ===================================================================== *)
(** ** The other payment routes *)
(* ===================================================================== *)

Module PaymentRouter.

Definition validPaymentMethods : list string :=
  ["Credit Card"; "Debit Card"; "PayPal"; "Bank Transfer"; "Cash on Delivery";
   "Digital Wallet"; "Razorpay"].

(** [paymentMethod] of a request body. *)
Record Method : Type := mkMethod
  { type : option string; details : PaymentDoc.Details }.

(** The body of a creation request: the paths of the schema a client
    fills in; [transactionDetails], [refundDetails] and [timestamps] are
    left to their defaults. *)
Record Body : Type := mkBody
  { paymentId : option string;
    orderId : option string;
    orderNumber : option string;
    customerInfo : option Payload.Customer;
    paymentMethod : option Method;
    amount : option Payload.Amounts;
    status : option string;
    notes : option string }.

Definition no_details : PaymentDoc.Details :=
  PaymentDoc.mkDetails None None None None None None None.

Definition payload_of (b : Body) : Payload.Payment :=
  Payload.mkPayment (paymentId b) (orderNumber b)
    (option_map Payload.RefString (orderId b))
    (customerInfo b)
    (RazorpayRoutes.chain (paymentMethod b) type)
    (match paymentMethod b with Some m => details m | None => no_details end)
    (amount b) (status b)
    (PaymentDoc.mkTransactionDetails None None None None 0)
    (PaymentDoc.mkTimestamps None None None None)
    (notes b).

(** *** POST /api/payments *)
Definition create_body (now : Time) (paymentData : Body) : M Response :=
  match paymentMethod paymentData, amount paymentData with
  | Some method, Some amt =>
      if negb (JS.truthy_str (orderId paymentData)) then
        ret (fail 400 "Missing required fields"
               "Order ID, payment method, and amount are required")
      else if negb (match type method with
                    | Some t => JS.includes validPaymentMethods t
                    | None => false
                    end) then
        ret (fail 400 "Invalid payment method"
               ("Payment method must be one of: " ++ JS.join ", " validPaymentMethods))
      else if (negb (JS.truthy_num (Payload.subtotal amt))
               || JS.le0 (Payload.subtotal amt))%bool then
        ret (fail 400 "Invalid amount" "Subtotal must be greater than 0")
      else
        let* order := Store.Order_findById (JS.or_str (orderId paymentData) "") in
        match order with
        | None => ret (fail 404 "Order not found" "No order found with the provided ID")
        | Some _ =>
            let* newPayment := Payment.create now (payload_of paymentData) in
            ret (ok 201 "Payment created successfully" (DataPayment newPayment))
        end
  | _, _ =>
      ret (fail 400 "Missing required fields"
             "Order ID, payment method, and amount are required")
  end.

Definition create (now : Time) (paymentData : Body) : World -> World * Response :=
  try_catch (create_body now paymentData) "Something went wrong!".

(** *** DELETE /api/payments/:id *)
Definition delete_body (id : string) : M Response :=
  let* payment := Store.Payment_findByIdAndDelete id in
  match payment with
  | None => ret (fail 404 "Payment not found" "No payment found with the provided ID")
  | Some _ => ret (ok 200 "Payment deleted successfully" NoData)
  end.

Definition delete (id : string) : World -> World * Response :=
  try_catch (delete_body id) "Something went wrong!".

End PaymentRouter.

(* ===================================================================== *)
(** ** GET /api/razorpay/payment/:id *)
(* ===================================================================== *)

Module RazorpayLookup.

(** What the route answers: the gateway's payment with its amount in major
    units, or the stored Payment, or not found. *)
Inductive Answer : Type :=
| FromGateway (razorpay_payment : Razorpay.GatewayPayment) (amount : Q)
| FromStore (payment : PaymentDoc.t)
| NotFound (id : string).

Definition statusCode (a : Answer) : nat :=
  match a with
  | FromGateway _ _ => 200
  | FromStore _ => 200
  | NotFound _ => 404
  end.

(** The gateway is asked first; its rejection is caught and the store is
    asked instead. *)
Definition get_payment (gw : Razorpay.Service) (id : string) (w : World) : World * Answer :=
  let w1 := logged (Razorpay.CallPaymentsFetch id) w in
  match Razorpay.payments_fetch gw id with
  | Some razorpayPayment =>
      (w1, FromGateway razorpayPayment
             (RazorpayRoutes.from_paise (Razorpay.gp_amount razorpayPayment)))
  | None =>
      match Payment.lookup id (db w1) with
      | Some dbPayment => (w1, FromStore dbPayment)
      | None => (w1, NotFound id)
      end
  end.

End RazorpayLookup.

(* ===================================================================== *)
(** ** Generated order and payment numbers *)
(* ===================================================================== *)

Module Numbering.

(** The number the hooks print for the [n]-th document. *)
Definition ordinal (n : N) : string := JS.padStart0 6 (JS.String_of_N n).

Definition order_number (n : N) : string := "ORD-" ++ ordinal n.
Definition payment_number (n : N) : string := "PAY-" ++ ordinal n.

(** Reading an ordinal back: the decimal digits, leading zeros allowed. *)
Definition read_ordinal (s : string) : option N :=
  option_map N.of_uint (NilEmpty.uint_of_string s).

(** Reading a number with its four-character prefix. *)
Definition read_number (prefix s : string) : option N :=
  if String.eqb (substring 0 4 s) prefix
  then read_ordinal (substring 4 (String.length s - 4) s)
  else None.

(** The orders carry the numbers 1, 2, ... in their order of insertion. *)
Definition consecutive (l : list OrderDoc.t) : Prop :=
  forall i o, nth_error l i = Some o ->
              OrderDoc.orderNumber o = order_number (N.of_nat i + 1).

End Numbering.

(** The snapshot the verification route takes of one draft product. *)
Definition snapshot_of (product : Draft.Product) (it : OrderDoc.Item) : Prop :=
  Draft.name product = Some (OrderDoc.productName it)
  /\ OrderDoc.quantity it = JS.or_num (Draft.quantity product) 1
  /\ OrderDoc.unitPrice it
     = JS.or_num (Draft.price product) (JS.or_num (Draft.rental_price product) 0)
  /\ OrderDoc.totalPrice it = JS.mul (OrderDoc.unitPrice it) (OrderDoc.quantity it)
  /\ 1 <= OrderDoc.quantity it /\ 0 <= OrderDoc.unitPrice it.

(* ===================================================================== *)
(** ** Requests and stores used as examples *)
(* ===================================================================== *)

Module Fixtures.

Definition first_id : string := "000000000000000000000001".

Definition customer : Payload.Customer :=
  Payload.mkCustomer (Some "Asha") (Some "Rao") (Some "Asha@Example.com")
    (Some "9000000000").

Definition address : Payload.Addr :=
  Payload.mkAddr (Some "1 Main Road") (Some "Pune") (Some "MH") (Some "411001")
    (Some "India").

(** A body of [POST /api/orders]: two suits at 249.50. *)
Definition order_body : Payload.Order :=
  Payload.mkOrder None (Some customer) (Some address) (Some address)
    (Some [Payload.mkItem (Some "0123456789abcdef01234567") (Some "Suit")
             (Some 2) (Some (499 # 2)) (Some 499)])
    (Some (Payload.mkAmounts (Some 499) None None None (Some 499)))
    (Some (Payload.mkSummary (Some "Cash on Delivery") None None None))
    None None None.

(** A body of [POST /api/payments] for the order with identity 1. *)
Definition payment_body : PaymentRouter.Body :=
  PaymentRouter.mkBody None (Some first_id) (Some "ORD-000001") (Some customer)
    (Some (PaymentRouter.mkMethod (Some "Cash on Delivery") PaymentRouter.no_details))
    (Some (Payload.mkAmounts (Some 499) None None None (Some 499)))
    None None.

(** A store with two orders, created one after the other. *)
Definition two_orders : World :=
  fst (OrderRoutes.create 20%N order_body
         (fst (OrderRoutes.create 10%N order_body Scenario.empty))).

End Fixtures.

(* ===================================================================== *)
(** ** The reading routes of orders and payments *)
(* ===================================================================== *)

(** *** GET /api/orders/:id *)
Module OrderPage.

(** What the route answers.  The products that [populate] puts in the
    place of [items.productId] belong to a collection that is not part of
    this store: the order is given as it is stored. *)
Inductive Answer : Type :=
| Found (order : OrderDoc.t) (payment : option PaymentDoc.t)
| NotFound
| Failed (e : Exn).

Definition statusCode (a : Answer) : nat :=
  match a with
  | Found _ _ => 200
  | NotFound => 404
  | Failed _ => 500
  end.

(** [Payment.findOne({ orderId: id })] *)
Definition Payment_findOne_orderId (id : string) : M (option PaymentDoc.t) :=
  let* i := Store.cast_id "orderId" id in
  let* d := get_db in
  ret (find (Store.payment_of_order i) (payments d)).

Definition get_body (id : string) : M Answer :=
  let* order := Store.Order_findById id in
  match order with
  | None => ret NotFound
  | Some o =>
      let* payment := Payment_findOne_orderId id in
      ret (Found o payment)
  end.

Definition get (id : string) (w : World) : World * Answer :=
  match get_body id w with
  | (w', inr a) => (w', a)
  | (w', inl e) => (w', Failed e)
  end.

End OrderPage.

(** *** GET /api/payments/order/:orderId *)
Module PaymentPage.

(** The payment, with the order that [populate] finds under its
    [orderId] ([null] when there is none); of that order the answer shows
    the selected paths ([orderNumber], [customerInfo], [items],
    [pricing]). *)
Inductive Answer : Type :=
| Found (payment : PaymentDoc.t) (orderId : option OrderDoc.t)
| NotFound
| Failed (e : Exn).

Definition statusCode (a : Answer) : nat :=
  match a with
  | Found _ _ => 200
  | NotFound => 404
  | Failed _ => 500
  end.

(** [.populate('orderId', ...)] *)
Definition populate (d : DB) (p : PaymentDoc.t) : option OrderDoc.t :=
  find (Store.order_has_id (PaymentDoc.orderId p)) (orders d).

Definition by_order_body (orderId : string) : M Answer :=
  let* i := Store.cast_id "orderId" orderId in
  let* d := get_db in
  match find (Store.payment_of_order i) (payments d) with
  | None => ret NotFound
  | Some payment => ret (Found payment (populate d payment))
  end.

Definition by_order (orderId : string) (w : World) : World * Answer :=
  match by_order_body orderId w with
  | (w', inr a) => (w', a)
  | (w', inl e) => (w', Failed e)
  end.

End PaymentPage.

(** A store with one order, and a callback whose draft names it. *)
Module Linked.

Definition one_order : World :=
  fst (OrderRoutes.create 10%N Fixtures.order_body Scenario.empty).

Definition second_id : string := "000000000000000000000002".
Definition third_id : string := "000000000000000000000003".

Definition callback : RazorpayRoutes.VerifyBody :=
  RazorpayRoutes.mkVerifyBody (Some "order_1") (Some "pay_1") (Some Scenario.signature_1)
    (Some (Draft.mkDraft None None (Some [Scenario.suit]) (Some 499)
             (Some Fixtures.first_id))).

End Linked.

(* ===================================================================== *)
(** ** Categories and subcategories ([models/CategoryModel.js],
       [models/SubcategoryModel.js], [routes/subcategory.js]) *)
(* ===================================================================== *)

Module CategoryDoc.

Record t : Type := mkCategory
  { _id : ObjectId; categoryName : string; description : string; isActive : bool;
    order : Q; subcategories : list ObjectId; createdAt : Time; updatedAt : Time }.

End CategoryDoc.

Module SubcategoryDoc.

Record t : Type := mkSubcategory
  { _id : ObjectId; subcategoryName : string; description : string;
    category : ObjectId; isActive : bool; order : Q;
    createdAt : Time; updatedAt : Time }.

End SubcategoryDoc.

(** The two collections of the catalogue, their queries and the steps of a
    handler that works on them. *)
Module Catalog.

Record State : Type := mkState
  { categories : list CategoryDoc.t;
    subcategories : list SubcategoryDoc.t;
    next_id : N }.

(** A step of a handler: it may change the catalogue and returns or
    throws. *)
Definition C (A : Type) : Type := State -> State * Result A.

Definition pure {A : Type} (a : A) : C A := fun s => (s, inr a).

Definition and_then {A B : Type} (m : C A) (k : A -> C B) : C B :=
  fun s =>
    match m s with
    | (s', inl e) => (s', inl e)
    | (s', inr a) => k a s'
    end.

Definition of_result {A : Type} (r : Result A) : C A := fun s => (s, r).

Notation "'let+' x ':=' c 'in' k" := (and_then c (fun x => k))
  (at level 10, x name, c at level 100, k at level 200).

(** The identity a [new Subcategory(...)] gets from the driver. *)
Definition new_id : C ObjectId :=
  fun s => (mkState (categories s) (subcategories s) (N.succ (next_id s)),
            inr (next_id s)).

Definition get_categories : C (list CategoryDoc.t) := fun s => (s, inr (categories s)).

Definition get_subcategories : C (list SubcategoryDoc.t) :=
  fun s => (s, inr (subcategories s)).

Definition put_categories (l : list CategoryDoc.t) : C unit :=
  fun s => (mkState l (subcategories s) (next_id s), inr tt).

Definition put_subcategories (l : list SubcategoryDoc.t) : C unit :=
  fun s => (mkState (categories s) l (next_id s), inr tt).

Definition cast_id (path id : string) : C ObjectId :=
  of_result (Schema.required_oid path (Some id)).

Definition category_has_id (i : ObjectId) (c : CategoryDoc.t) : bool :=
  N.eqb (CategoryDoc._id c) i.

Definition subcategory_has_id (i : ObjectId) (x : SubcategoryDoc.t) : bool :=
  N.eqb (SubcategoryDoc._id x) i.

(** [Category.findById(id)] *)
Definition Category_findById (id : string) : C (option CategoryDoc.t) :=
  let+ i := cast_id "_id" id in
  let+ l := get_categories in
  pure (find (category_has_id i) l).

(** [Subcategory.findById(id)] *)
Definition Subcategory_findById (id : string) : C (option SubcategoryDoc.t) :=
  let+ i := cast_id "_id" id in
  let+ l := get_subcategories in
  pure (find (subcategory_has_id i) l).

(** An update of a category's [subcategories]; the schema's [timestamps]
    option refreshes [updatedAt]. *)
Definition with_subcategories (now : Time) (f : list ObjectId -> list ObjectId)
           (c : CategoryDoc.t) : CategoryDoc.t :=
  CategoryDoc.mkCategory (CategoryDoc._id c) (CategoryDoc.categoryName c)
    (CategoryDoc.description c) (CategoryDoc.isActive c) (CategoryDoc.order c)
    (f (CategoryDoc.subcategories c)) (CategoryDoc.createdAt c) now.

(** [findByIdAndUpdate]: the first category with identity [i] is replaced
    by [f] of it. *)
Fixpoint update_category (i : ObjectId) (f : CategoryDoc.t -> CategoryDoc.t)
         (l : list CategoryDoc.t) : list CategoryDoc.t :=
  match l with
  | c :: r => if category_has_id i c then f c :: r else c :: update_category i f r
  | [] => []
  end.

(** [{ $push: { subcategories: x } }] *)
Definition push (x : ObjectId) (l : list ObjectId) : list ObjectId := (l ++ [x])%list.

(** [{ $pull: { subcategories: x } }]: every occurrence goes. *)
Definition pull (x : ObjectId) (l : list ObjectId) : list ObjectId :=
  filter (fun y => negb (N.eqb y x)) l.

(** [Category.findByIdAndUpdate(category, { $push: { subcategories: x } })] *)
Definition Category_push (now : Time) (category : string) (x : ObjectId) : C unit :=
  let+ i := cast_id "_id" category in
  let+ l := get_categories in
  put_categories (update_category i (with_subcategories now (push x)) l).

(** [Category.findByIdAndUpdate(i, { $pull: { subcategories: id } })] *)
Definition Category_pull (now : Time) (i : ObjectId) (id : string) : C unit :=
  let+ x := cast_id "subcategories" id in
  let+ l := get_categories in
  put_categories (update_category i (with_subcategories now (pull x)) l).

(** [{ type: String, required, maxlength }] on the value a document holds. *)
Definition text (path : string) (n : nat) (v : string) : Result string :=
  if String.eqb v "" then inl (ValidationError path)
  else if Nat.leb (JS.length v) n then inr v
  else inl (ValidationError path).

(** The validators of [subcategorySchema]. *)
Definition validate (x : SubcategoryDoc.t) : Result SubcategoryDoc.t :=
  let? _ := text "subcategoryName" 100 (SubcategoryDoc.subcategoryName x) in
  let? _ := text "description" 500 (SubcategoryDoc.description x) in
  inr x.

(** The unique index on [(subcategoryName, category)]. *)
Definition same_key (name : string) (category : ObjectId) (x : SubcategoryDoc.t) : bool :=
  (String.eqb (SubcategoryDoc.subcategoryName x) name
   && N.eqb (SubcategoryDoc.category x) category)%bool.

Definition name_taken (name : string) (category : ObjectId) (l : list SubcategoryDoc.t)
  : bool :=
  existsb (same_key name category) l.

(** [new Subcategory({ subcategoryName, description, category, order })]:
    the setters trim the two texts; [isActive] takes its default. *)
Definition new_Subcategory (now : Time) (subcategoryName description category : string)
           (order : Q) : C SubcategoryDoc.t :=
  let+ id := new_id in
  let+ c := cast_id "category" category in
  pure (SubcategoryDoc.mkSubcategory id (JS.trim subcategoryName) (JS.trim description)
          c true order now now).

(** [subcategory.save()] of a new document: validation, then the insert,
    which the unique index may refuse. *)
Definition insert (x : SubcategoryDoc.t) : C SubcategoryDoc.t :=
  let+ x := of_result (validate x) in
  let+ l := get_subcategories in
  if name_taken (SubcategoryDoc.subcategoryName x) (SubcategoryDoc.category x) l
  then of_result (inl (DuplicateKeyError "subcategoryName_1_category_1"))
  else
    let+ _ := put_subcategories (l ++ [x]) in
    pure x.

Definition toggled (now : Time) (x : SubcategoryDoc.t) : SubcategoryDoc.t :=
  SubcategoryDoc.mkSubcategory (SubcategoryDoc._id x) (SubcategoryDoc.subcategoryName x)
    (SubcategoryDoc.description x) (SubcategoryDoc.category x)
    (negb (SubcategoryDoc.isActive x)) (SubcategoryDoc.order x)
    (SubcategoryDoc.createdAt x) now.

(** The first subcategory with the identity of [x] is replaced by [x]. *)
Fixpoint replace (x : SubcategoryDoc.t) (l : list SubcategoryDoc.t)
  : list SubcategoryDoc.t :=
  match l with
  | y :: r => if subcategory_has_id (SubcategoryDoc._id x) y then x :: r
              else y :: replace x r
  | [] => []
  end.

(** [subcategory.save()] of a document that was loaded: its paths are
    validated again, then the stored document is updated. *)
Definition save (x : SubcategoryDoc.t) : C unit :=
  let+ x := of_result (validate x) in
  let+ l := get_subcategories in
  put_subcategories (replace x l).

(** [Subcategory.findByIdAndDelete(id)] *)
Definition Subcategory_findByIdAndDelete (id : string) : C (option SubcategoryDoc.t) :=
  let+ i := cast_id "_id" id in
  let+ l := get_subcategories in
  match find (subcategory_has_id i) l with
  | Some x =>
      let+ _ := put_subcategories (Store.remove_first (subcategory_has_id i) l) in
      pure (Some x)
  | None => pure None
  end.

(** What [.populate('category', 'categoryName description')] puts in the
    place of [category]. *)
Record CategoryRef : Type := mkCategoryRef
  { ref_id : ObjectId; ref_categoryName : string; ref_description : string }.

Record Populated : Type := mkPopulated
  { document : SubcategoryDoc.t; populated_category : option CategoryRef }.

Definition populate (l : list CategoryDoc.t) (x : SubcategoryDoc.t) : Populated :=
  mkPopulated x
    (option_map
       (fun c => mkCategoryRef (CategoryDoc._id c) (CategoryDoc.categoryName c)
                   (CategoryDoc.description c))
       (find (category_has_id (SubcategoryDoc.category x)) l)).

(** [Subcategory.findById(i).populate(...)] *)
Definition Subcategory_findById_populated (i : ObjectId) : C (option Populated) :=
  let+ l := get_subcategories in
  let+ cs := get_categories in
  pure (option_map (populate cs) (find (subcategory_has_id i) l)).

(** The links between the two collections are in order: identities are
    distinct, every subcategory is listed once by the category it names, and
    every entry of a category's list is a subcategory of that category. *)
Definition consistent (s : State) : Prop :=
  NoDup (map CategoryDoc._id (categories s))
  /\ NoDup (map SubcategoryDoc._id (subcategories s))
  /\ (forall x, In x (subcategories s) -> (SubcategoryDoc._id x < next_id s)%N)
  /\ (forall c, In c (categories s) -> NoDup (CategoryDoc.subcategories c))
  /\ (forall x, In x (subcategories s) ->
        exists c, In c (categories s)
                  /\ CategoryDoc._id c = SubcategoryDoc.category x
                  /\ In (SubcategoryDoc._id x) (CategoryDoc.subcategories c))
  /\ (forall c i, In c (categories s) -> In i (CategoryDoc.subcategories c) ->
        exists x, In x (subcategories s)
                  /\ SubcategoryDoc._id x = i
                  /\ SubcategoryDoc.category x = CategoryDoc._id c).

(** What the unique index guarantees: no two subcategories of a category
    have the same name. *)
Definition unique_names (l : list SubcategoryDoc.t) : Prop :=
  NoDup (map (fun x => (SubcategoryDoc.subcategoryName x, SubcategoryDoc.category x)) l).

End Catalog.

(** The routes of [/api/subcategories] that create, delete and toggle. *)
Module SubcategoryRouter.

Import Catalog.

Record Reply : Type := mkReply
  { statusCode : nat; success : bool; message : string; error : option Exn;
    data : option Populated }.

Definition refuse (code : nat) (msg : string) : Reply := mkReply code false msg None None.

Definition failed (msg : string) (e : Exn) : Reply := mkReply 500 false msg (Some e) None.

(** The body of a creation request. *)
Record Body : Type := mkBody
  { subcategoryName : option string; description : option string;
    category : option string; order : option Q }.

(** *** POST /api/subcategories *)
Definition create_body (now : Time) (b : Body) : C Reply :=
  if (negb (JS.truthy_str (subcategoryName b)) || negb (JS.truthy_str (description b))
      || negb (JS.truthy_str (category b)))%bool then
    pure (refuse 400 "Subcategory name, description, and category are required")
  else
    let category := JS.or_str (category b) "" in
    let+ categoryExists := Category_findById category in
    match categoryExists with
    | None => pure (refuse 400 "Category not found")
    | Some _ =>
        let+ subcategory :=
          new_Subcategory now (JS.or_str (subcategoryName b) "")
            (JS.or_str (description b) "") category (JS.or_num (order b) 0) in
        let+ savedSubcategory := insert subcategory in
        let+ _ := Category_push now category (SubcategoryDoc._id savedSubcategory) in
        let+ populatedSubcategory :=
          Subcategory_findById_populated (SubcategoryDoc._id savedSubcategory) in
        pure (mkReply 201 true "Subcategory created successfully" None
                populatedSubcategory)
    end.

(** [catch (error)]: a duplicate key ([error.code === 11000]) is answered
    with 400, anything else with 500. *)
Definition create (now : Time) (b : Body) (s : State) : State * Reply :=
  match create_body now b s with
  | (s', inr r) => (s', r)
  | (s', inl (DuplicateKeyError _)) =>
      (s', refuse 400 "Subcategory name already exists in this category")
  | (s', inl e) => (s', failed "Error creating subcategory" e)
  end.

(** *** DELETE /api/subcategories/:id *)
Definition delete_body (now : Time) (id : string) : C Reply :=
  let+ subcategory := Subcategory_findById id in
  match subcategory with
  | None => pure (refuse 404 "Subcategory not found")
  | Some subcategory =>
      let+ _ := Category_pull now (SubcategoryDoc.category subcategory) id in
      let+ _ := Subcategory_findByIdAndDelete id in
      pure (mkReply 200 true "Subcategory deleted successfully" None None)
  end.

Definition delete (now : Time) (id : string) (s : State) : State * Reply :=
  match delete_body now id s with
  | (s', inr r) => (s', r)
  | (s', inl e) => (s', failed "Error deleting subcategory" e)
  end.

(** *** PATCH /api/subcategories/:id/toggle *)
Definition toggle_body (now : Time) (id : string) : C Reply :=
  let+ subcategory := Subcategory_findById id in
  match subcategory with
  | None => pure (refuse 404 "Subcategory not found")
  | Some subcategory =>
      let subcategory := toggled now subcategory in
      let+ _ := save subcategory in
      let+ i := cast_id "_id" id in
      let+ populatedSubcategory := Subcategory_findById_populated i in
      pure (mkReply 200 true
              ("Subcategory "
               ++ (if SubcategoryDoc.isActive subcategory then "activated"
                   else "deactivated")
               ++ " successfully")
              None populatedSubcategory)
  end.

Definition toggle (now : Time) (id : string) (s : State) : State * Reply :=
  match toggle_body now id s with
  | (s', inr r) => (s', r)
  | (s', inl e) => (s', failed "Error toggling subcategory status" e)
  end.

End SubcategoryRouter.

(** A catalogue with one category, and requests on it. *)
Module Shop.

Definition wear : CategoryDoc.t :=
  CategoryDoc.mkCategory 1%N "Wear" "Clothes to rent" true 0 [] 5%N 5%N.

Definition start : Catalog.State := Catalog.mkState [wear] [] 2%N.

Definition suits : SubcategoryRouter.Body :=
  SubcategoryRouter.mkBody (Some " Suits ") (Some "Two and three piece suits")
    (Some Fixtures.first_id) None.

Definition shirts : SubcategoryRouter.Body :=
  SubcategoryRouter.mkBody (Some "Shirts") (Some "Formal shirts")
    (Some Fixtures.first_id) (Some 1).

(** The catalogue after [suits] has been created. *)
Definition stocked : Catalog.State := fst (SubcategoryRouter.create 10%N suits start).

(** Sixty times the letter e with an acute accent (U+00E9, two bytes). *)
Definition accents : string :=
  string_of_list_ascii (List.concat (repeat [ascii_of_nat 195; ascii_of_nat 169] 60)).

Definition accented : SubcategoryRouter.Body :=
  SubcategoryRouter.mkBody (Some accents) (Some "Summer wear")
    (Some Fixtures.first_id) None.

(** A name between a no-break space (U+00A0) and an em space (U+2003). *)
Definition spaced : SubcategoryRouter.Body :=
  SubcategoryRouter.mkBody
    (Some (string_of_list_ascii [ascii_of_nat 194; ascii_of_nat 160]
           ++ "Kurtas"
           ++ string_of_list_ascii [ascii_of_nat 226; ascii_of_nat 128; ascii_of_nat 131]))
    (Some "Long shirts") (Some Fixtures.first_id) None.

End Shop.

(** One step through a chain of validators that ended well. *)
Ltac step_result H :=
  match type of H with
  | rbind ?e _ = inr _ =>
      let E := fresh "E" in
      destruct e eqn:E; cbn [rbind] in H; [discriminate H|]
  end.

(* ===================================================================== *)
(** ** Signature verification *)
(* ===================================================================== *)

Example sha256_abc :
  SHA256.hex (SHA256.sha256 (Crypto.utf8 "abc"))
  = "ba7816bf8f01cfea414140de5dae2223b00361a396177a9cb410ff61f20015ad".
Proof. vm_compute. reflexivity. Qed.

Example hmac_rfc4231_case2 :
  Crypto.digest_hex
    (Crypto.update (Crypto.createHmac_sha256 "Jefe") "what do ya want for nothing?")
  = "5bdcc146bf60754e6a042426089575c75a003f089d2739839dec58b964ec3843".
Proof. vm_compute. reflexivity. Qed.

(** The streaming interface computes the HMAC of what was fed to it. *)
Lemma digest_of_update (key data : string) :
  Crypto.digest_hex (Crypto.update (Crypto.createHmac_sha256 key) data)
  = SHA256.hex (Crypto.hmac_sha256 (Crypto.utf8 key) (Crypto.utf8 data)).
Proof. reflexivity. Qed.

Lemma isAuthentic_refines_verify (order_id payment_id signature : string) :
  RazorpayRoutes.isAuthentic order_id payment_id signature
  = Spec.verify order_id payment_id signature razorpayConfig.test_key_secret.
Proof.
  unfold RazorpayRoutes.isAuthentic, RazorpayRoutes.expectedSignature, Spec.verify.
  rewrite digest_of_update. apply String.eqb_sym.
Qed.

Lemma hex_digit_nibble (b : byte) :
  is_lower_hex (SHA256.hex_digit (Z.shiftr (SHA256.Z_of_byte b) 4)) = true
  /\ is_lower_hex (SHA256.hex_digit (Z.land (SHA256.Z_of_byte b) 0xF)) = true.
Proof. destruct b; split; vm_compute; reflexivity. Qed.

Lemma hex_lower (bs : list byte) :
  forallb is_lower_hex (list_ascii_of_string (SHA256.hex bs)) = true.
Proof.
  induction bs as [|b r IH]; [reflexivity|].
  cbn [SHA256.hex list_ascii_of_string forallb].
  destruct (hex_digit_nibble b) as [-> ->]. exact IH.
Qed.

Lemma hex_length (bs : list byte) : String.length (SHA256.hex bs) = (2 * List.length bs)%nat.
Proof.
  induction bs as [|b r IH]; [reflexivity|].
  cbn [SHA256.hex String.length List.length]. rewrite IH. lia.
Qed.

Lemma sha256_length (msg : list byte) : List.length (SHA256.sha256 msg) = 32%nat.
Proof. reflexivity. Qed.

(** C4. For all gateway order id, gateway payment id and signature, the
    route's check succeeds exactly when the signature is the lower-case
    hexadecimal encoding (64 digits) of HMAC-SHA256, keyed with the
    configured secret, of the UTF-8 string order id, "|", payment id; the
    check is a total boolean function, so every other signature is
    rejected and nothing is thrown. *)
Theorem C4_signature_check (order_id payment_id signature : string) :
  let expected :=
    SHA256.hex
      (Crypto.hmac_sha256 (Crypto.utf8 razorpayConfig.test_key_secret)
         (Crypto.utf8 (order_id ++ "|" ++ payment_id))) in
  (RazorpayRoutes.isAuthentic order_id payment_id signature = true
   <-> signature = expected)
  /\ (RazorpayRoutes.isAuthentic order_id payment_id signature = false
      <-> signature <> expected)
  /\ String.length expected = 64%nat
  /\ forallb is_lower_hex (list_ascii_of_string expected) = true
  /\ RazorpayRoutes.isAuthentic order_id payment_id signature
     = Spec.verify order_id payment_id signature razorpayConfig.test_key_secret.
Proof.
  intro expected.
  assert (E : RazorpayRoutes.isAuthentic order_id payment_id signature
              = String.eqb expected signature) by reflexivity.
  split; [split|split; [split|split; [|split]]].
  - intro H. rewrite E in H. apply String.eqb_eq in H. congruence.
  - intro H. rewrite E, H. apply String.eqb_refl.
  - intros H Heq. rewrite E, Heq, String.eqb_refl in H. discriminate.
  - intro H. rewrite E. apply String.eqb_neq. congruence.
  - unfold expected, Crypto.hmac_sha256. rewrite hex_length, sha256_length. reflexivity.
  - apply hex_lower.
  - apply isAuthentic_refines_verify.
Qed.

Example scenario_signature :
  RazorpayRoutes.expectedSignature "order_1" "pay_1" = Scenario.signature_1.
Proof. vm_compute. reflexivity. Qed.

(* ===================================================================== *)
(** ** The models: what [create] does to the world *)
(* ===================================================================== *)

Import RazorpayRoutes.

Lemma Order_create_inv now p w w' r :
  Order.create now p w = (w', r) ->
  payments (db w') = payments (db w)
  /\ gateway_log w' = gateway_log w
  /\ match r with
     | inr o =>
         orders (db w') = (orders (db w) ++ [o])%list
         /\ exists doc, Order.validate (next_oid w) now p = inr doc
                        /\ o = Order.pre_save (List.length (orders (db w))) doc
     | inl _ => db w' = db w
     end.
Proof.
  unfold Order.create, bind, fresh_oid, lift, get_db, put_db, throw, ret. cbn.
  destruct (Order.validate (next_oid w) now p) as [e|doc] eqn:V.
  - intros H; inversion H; subst; cbn. auto.
  - destruct (Order.number_taken _ _); intros H; inversion H; subst; cbn; auto.
    split; [reflexivity|]. split; [reflexivity|]. split; [reflexivity|].
    exists doc. auto.
Qed.

Lemma Payment_create_inv now p w w' r :
  Payment.create now p w = (w', r) ->
  orders (db w') = orders (db w)
  /\ gateway_log w' = gateway_log w
  /\ match r with
     | inr d =>
         payments (db w') = (payments (db w) ++ [d])%list
         /\ Payment.lookup (PaymentDoc.paymentId d) (db w) = None
         /\ exists doc, Payment.validate (next_oid w) now p = inr doc
                        /\ d = Payment.pre_save (List.length (payments (db w))) doc
     | inl _ => db w' = db w
     end.
Proof.
  unfold Payment.create, bind, fresh_oid, lift, get_db, put_db, throw, ret. cbn.
  destruct (Payment.validate (next_oid w) now p) as [e|doc] eqn:V.
  - intros H; inversion H; subst; cbn. auto.
  - destruct (Payment.lookup _ _) eqn:L; intros H; inversion H; subst; cbn; auto.
    split; [reflexivity|]. split; [reflexivity|]. split; [reflexivity|].
    split; [exact L|]. exists doc. auto.
Qed.

Lemma verify_payment_run gw now b w w' r :
  verify_payment gw now b w = (w', r) -> settlement gw now b w w' r.
Proof.
  unfold verify_payment, try_catch, verify_payment_body.
  destruct (missing b) eqn:Hm.
  { intros H; inversion H; subst. apply settle_missing; assumption. }
  destruct (isAuthentic (order_id_of b) (payment_id_of b) (signature_of b)) eqn:Ha.
  2:{ intros H; inversion H; subst. apply settle_forged; assumption. }
  cbn [negb]. unfold bind at 1. unfold gateway at 1.
  destruct (Razorpay.payments_fetch gw (payment_id_of b)) as [payment|] eqn:Hf.
  2:{ intros H; inversion H; subst. apply settle_fetch_failed; assumption. }
  unfold bind at 1.
  destruct (Order.create now _ _) as [w1 [e|newOrder]] eqn:Ho.
  { intros H; inversion H; subst. eapply settle_order_failed; eassumption. }
  unfold bind at 1.
  destruct (Payment.create now _ w1) as [w2 [e|newPayment]] eqn:Hp.
  { intros H; inversion H; subst. eapply settle_payment_failed; eassumption. }
  intros H; inversion H; subst. eapply settle_recorded; eassumption.
Qed.

Lemma verify_payment_settlement gw now b w :
  settlement gw now b w (fst (verify_payment gw now b w)) (snd (verify_payment gw now b w)).
Proof. apply verify_payment_run. apply surjective_pairing. Qed.

Lemma Order_validate_inv id now p doc :
  Order.validate id now p = inr doc ->
  OrderDoc._id doc = id
  /\ OrderDoc.orderNumber doc = JS.or_str (Payload.orderNumber p) ""
  /\ validate_amounts "pricing" (Payload.pricing p) = inr (OrderDoc.pricing doc)
  /\ Order.validate_summary (Payload.payment p) = inr (OrderDoc.payment doc).
Proof.
  unfold Order.validate. intro H.
  repeat step_result H.
  inversion H; subst; cbn. auto.
Qed.

Lemma Payment_validate_inv id now p doc :
  Payment.validate id now p = inr doc ->
  PaymentDoc._id doc = id
  /\ PaymentDoc.paymentId doc = JS.or_str (Payload.paymentId p) ""
  /\ Payment.validate_orderId (Payload.orderId p) = inr (PaymentDoc.orderId doc)
  /\ validate_amounts "amount" (Payload.amount p) = inr (PaymentDoc.amount doc)
  /\ Schema.default_enum "status" Payment.statuses "Pending" (Payload.pay_status p)
     = inr (PaymentDoc.status doc).
Proof.
  unfold Payment.validate. intro H.
  repeat step_result H.
  inversion H; subst; cbn. auto.
Qed.

Lemma Order_pre_save_fields n o :
  OrderDoc._id (Order.pre_save n o) = OrderDoc._id o
  /\ OrderDoc.pricing (Order.pre_save n o) = OrderDoc.pricing o
  /\ OrderDoc.payment (Order.pre_save n o) = OrderDoc.payment o.
Proof. unfold Order.pre_save. destruct (String.eqb _ _); cbn; auto. Qed.

Lemma Payment_pre_save_fields n p :
  PaymentDoc.orderId (Payment.pre_save n p) = PaymentDoc.orderId p
  /\ PaymentDoc.status (Payment.pre_save n p) = PaymentDoc.status p
  /\ PaymentDoc.amount (Payment.pre_save n p) = PaymentDoc.amount p
  /\ (PaymentDoc.paymentId p <> "" ->
      PaymentDoc.paymentId (Payment.pre_save n p) = PaymentDoc.paymentId p).
Proof.
  unfold Payment.pre_save.
  destruct (String.eqb _ _) eqn:E; cbn; repeat split; auto.
  apply String.eqb_eq in E. congruence.
Qed.

Lemma truthy_or_str s : JS.truthy_str s = true -> JS.or_str s "" <> "" /\ s = Some (JS.or_str s "").
Proof.
  destruct s as [v|]; cbn; [|discriminate].
  destruct (String.eqb v "") eqn:E; [discriminate|].
  intros _. split; [apply String.eqb_neq; exact E|reflexivity].
Qed.

Lemma not_missing b :
  missing b = false ->
  JS.truthy_str (razorpay_order_id b) = true
  /\ JS.truthy_str (razorpay_payment_id b) = true
  /\ JS.truthy_str (razorpay_signature b) = true.
Proof.
  unfold missing. intro H.
  apply orb_false_iff in H. destruct H as [H H3].
  apply orb_false_iff in H. destruct H as [H1 H2].
  apply negb_false_iff in H1, H2, H3. auto.
Qed.

(** A recorded settlement stores its Payment under the gateway payment id. *)
Lemma recorded_paymentId now b payment newOrder w1 w2 newPayment :
  missing b = false ->
  Payment.create now
    (paymentData now (order_id_of b) (payment_id_of b) (signature_of b)
       (orderData b) payment newOrder) w1 = (w2, inr newPayment) ->
  PaymentDoc.paymentId newPayment = payment_id_of b.
Proof.
  intros Hm Hc. apply Payment_create_inv in Hc.
  destruct Hc as (_ & _ & _ & _ & doc & Hv & ->).
  apply Payment_validate_inv in Hv. destruct Hv as (_ & Hid & _).
  cbn in Hid.
  apply not_missing in Hm. destruct Hm as (_ & Hp & _).
  apply truthy_or_str in Hp. destruct Hp as [Hne _].
  assert (Hdoc : PaymentDoc.paymentId doc = payment_id_of b).
  { rewrite Hid. destruct (String.eqb (payment_id_of b) "") eqn:E; [|reflexivity].
    apply String.eqb_eq in E. symmetry. exact E. }
  destruct (Payment_pre_save_fields (List.length (payments (db w1))) doc) as (_ & _ & _ & Hk).
  rewrite Hk; [exact Hdoc|]. rewrite Hdoc. exact Hne.
Qed.

Lemma find_last {A : Type} (f : A -> bool) (l : list A) (x : A) :
  f x = true -> find f (l ++ [x]) <> None.
Proof.
  intros Hx. induction l as [|a l IH]; cbn.
  - rewrite Hx. discriminate.
  - destruct (f a); [discriminate|exact IH].
Qed.

Lemma lookup_same_payments pid d d' :
  payments d' = payments d -> Payment.lookup pid d' = Payment.lookup pid d.
Proof. unfold Payment.lookup. intros ->. reflexivity. Qed.

(** Only a recorded settlement answers with success. *)
Lemma success_recorded gw now b w w' r :
  settlement gw now b w w' r -> success r = true ->
  exists payment w1 newOrder newPayment,
    missing b = false
    /\ Razorpay.payments_fetch gw (payment_id_of b) = Some payment
    /\ Order.create now (orderPayload (payment_id_of b) (orderData b))
         (logged (Razorpay.CallPaymentsFetch (payment_id_of b)) w) = (w1, inr newOrder)
    /\ Payment.create now
         (paymentData now (order_id_of b) (payment_id_of b) (signature_of b)
            (orderData b) payment newOrder) w1 = (w', inr newPayment)
    /\ r = ok 200 "Payment verified and recorded successfully"
             (DataVerified newPayment (order_id_of b) (payment_id_of b)
                (from_paise (Razorpay.gp_amount payment))
                (Razorpay.gp_currency payment) (Razorpay.gp_status payment)).
Proof.
  intros S Hs. destruct S; cbn in Hs; try discriminate.
  exists payment, w1, newOrder, newPayment. auto.
Qed.

(** A recorded settlement appends one order and one payment. *)
Lemma recorded_appends now p q w w1 w2 c newOrder newPayment :
  Order.create now p (logged c w) = (w1, inr newOrder) ->
  Payment.create now q w1 = (w2, inr newPayment) ->
  orders (db w2) = (orders (db w) ++ [newOrder])%list
  /\ payments (db w2) = (payments (db w) ++ [newPayment])%list.
Proof.
  intros Ho Hp.
  apply Order_create_inv in Ho. destruct Ho as (Hpay & _ & Hord & _).
  apply Payment_create_inv in Hp. destruct Hp as (Hord' & _ & Hpay' & _).
  cbn in Hpay, Hord. split; congruence.
Qed.

(** Once a Payment is stored under a gateway payment id, no verification
    request with that id stores another one or succeeds. *)
Lemma settled_id_refused gw now b w w' r :
  Payment.lookup (payment_id_of b) (db w) <> None ->
  settlement gw now b w w' r ->
  payments (db w') = payments (db w) /\ success r = false.
Proof.
  intros Hl S. destruct S as [| | |payment w1 e Hm Ha Hf Ho|payment w1 w2 o e Hm Ha Hf Ho Hp
                              |payment w1 w2 o p Hm Ha Hf Ho Hp]; cbn.
  - auto.
  - auto.
  - auto.
  - apply Order_create_inv in Ho. destruct Ho as (Hpay & _). auto.
  - apply Order_create_inv in Ho. destruct Ho as (Hpay & _).
    apply Payment_create_inv in Hp. destruct Hp as (_ & _ & Hdb).
    rewrite Hdb. auto.
  - exfalso. apply Hl.
    pose proof (recorded_paymentId _ _ _ _ _ _ _ Hm Hp) as Hid.
    apply Order_create_inv in Ho. destruct Ho as (Hpay & _).
    apply Payment_create_inv in Hp. destruct Hp as (_ & _ & _ & Hnone & _).
    rewrite Hid in Hnone. rewrite <- Hnone.
    symmetry. apply lookup_same_payments. exact Hpay.
Qed.

Lemma Order_create_ok now p w doc :
  Order.validate (next_oid w) now p = inr doc ->
  Order.number_taken
    (OrderDoc.orderNumber (Order.pre_save (List.length (orders (db w))) doc)) (db w) = false ->
  Order.create now p w
  = (mkWorld (mkDB (orders (db w) ++ [Order.pre_save (List.length (orders (db w))) doc])
                   (payments (db w)))
             (N.succ (next_oid w)) (gateway_log w),
     inr (Order.pre_save (List.length (orders (db w))) doc)).
Proof.
  intros Hv Ht.
  unfold Order.create, bind, fresh_oid, lift, get_db, put_db, throw, ret. cbn.
  rewrite Hv, Ht. reflexivity.
Qed.

Lemma Payment_create_ok now p w doc :
  Payment.validate (next_oid w) now p = inr doc ->
  Payment.lookup
    (PaymentDoc.paymentId (Payment.pre_save (List.length (payments (db w))) doc)) (db w)
  = None ->
  Payment.create now p w
  = (mkWorld (mkDB (orders (db w))
                   (payments (db w) ++ [Payment.pre_save (List.length (payments (db w))) doc]))
             (N.succ (next_oid w)) (gateway_log w),
     inr (Payment.pre_save (List.length (payments (db w))) doc)).
Proof.
  intros Hv Hl.
  unfold Payment.create, bind, fresh_oid, lift, get_db, put_db, throw, ret. cbn.
  rewrite Hv, Hl. reflexivity.
Qed.

Lemma Order_create_inr now p w w' o :
  Order.create now p w = (w', inr o) ->
  exists doc,
    Order.validate (next_oid w) now p = inr doc
    /\ o = Order.pre_save (List.length (orders (db w))) doc
    /\ Order.number_taken (OrderDoc.orderNumber o) (db w) = false
    /\ w' = mkWorld (mkDB (orders (db w) ++ [o]) (payments (db w)))
                    (N.succ (next_oid w)) (gateway_log w).
Proof.
  unfold Order.create, bind, fresh_oid, lift, get_db, put_db, throw, ret. cbn.
  destruct (Order.validate (next_oid w) now p) as [e|doc] eqn:V;
    [intros H; inversion H|].
  destruct (Order.number_taken _ _) eqn:T; intros H; inversion H; subst.
  exists doc. auto.
Qed.

Lemma Payment_create_inr now p w w' d :
  Payment.create now p w = (w', inr d) ->
  exists doc,
    Payment.validate (next_oid w) now p = inr doc
    /\ d = Payment.pre_save (List.length (payments (db w))) doc
    /\ Payment.lookup (PaymentDoc.paymentId d) (db w) = None.
Proof.
  unfold Payment.create, bind, fresh_oid, lift, get_db, put_db, throw, ret. cbn.
  destruct (Payment.validate (next_oid w) now p) as [e|doc] eqn:V;
    [intros H; inversion H|].
  destruct (Payment.lookup _ _) eqn:L; intros H; inversion H; subst.
  exists doc. auto.
Qed.

(** When the verification route records a settlement: exactly when the
    three fields are there, the signature matches, the gateway knows the
    payment, both documents pass their schema, the next order number is
    free and no Payment is stored under the gateway payment id yet. *)
Lemma settle_success_iff gw now b w :
  success (snd (verify_payment gw now b w)) = true
  <-> (missing b = false
       /\ isAuthentic (order_id_of b) (payment_id_of b) (signature_of b) = true
       /\ exists gp odoc pdoc,
           Razorpay.payments_fetch gw (payment_id_of b) = Some gp
           /\ Order.validate (next_oid w) now (orderPayload (payment_id_of b) (orderData b))
              = inr odoc
           /\ Order.number_taken
                (OrderDoc.orderNumber (Order.pre_save (List.length (orders (db w))) odoc))
                (db w) = false
           /\ Payment.validate (N.succ (next_oid w)) now
                (paymentData now (order_id_of b) (payment_id_of b) (signature_of b)
                   (orderData b) gp (Order.pre_save (List.length (orders (db w))) odoc))
              = inr pdoc
           /\ Payment.lookup (payment_id_of b) (db w) = None).
Proof.
  split.
  - intros Hs.
    pose proof (verify_payment_settlement gw now b w) as S.
    destruct S as [| | | | |payment w1 w2 o p Hm Ha Hf Ho Hp]; try discriminate Hs.
    split; [exact Hm|]. split; [exact Ha|].
    pose proof (recorded_paymentId _ _ _ _ _ _ _ Hm Hp) as Hpid.
    apply Order_create_inr in Ho. destruct Ho as (odoc & Hov & Eo & Hnt & Ew).
    cbn [logged db next_oid gateway_log] in Hov, Eo, Hnt, Ew.
    apply Payment_create_inr in Hp. destruct Hp as (pdoc & Hpv & _ & Hl).
    rewrite Hpid in Hl. subst w1. cbn [db next_oid payments] in Hpv, Hl.
    exists payment, odoc, pdoc. subst o.
    split; [exact Hf|]. split; [exact Hov|]. split; [exact Hnt|].
    split; [exact Hpv|exact Hl].
  - intros (Hm & Ha & gp & odoc & pdoc & Hf & Hov & Hnt & Hpv & Hl).
    unfold verify_payment, try_catch, verify_payment_body.
    rewrite Hm, Ha. cbn [negb].
    unfold bind at 1. unfold gateway. rewrite Hf.
    unfold bind at 1.
    rewrite (Order_create_ok now _ (logged _ w) odoc Hov Hnt).
    unfold bind at 1.
    erewrite Payment_create_ok; [reflexivity|exact Hpv|].
    cbn [db payments].
    apply Payment_validate_inv in Hpv. destruct Hpv as (_ & Hid & _).
    apply not_missing in Hm. destruct Hm as (_ & Hp & _).
    apply truthy_or_str in Hp. destruct Hp as [Hne _]. fold (payment_id_of b) in Hne.
    assert (Hdoc : PaymentDoc.paymentId pdoc = payment_id_of b).
    { rewrite Hid. cbn. destruct (String.eqb (payment_id_of b) "") eqn:E; [|reflexivity].
      apply String.eqb_eq in E. symmetry. exact E. }
    change (db (logged (Razorpay.CallPaymentsFetch (payment_id_of b)) w)) with (db w).
    destruct (Payment_pre_save_fields (List.length (payments (db w))) pdoc)
      as (_ & _ & _ & Hk).
    rewrite Hk; [|rewrite Hdoc; exact Hne]. rewrite Hdoc.
    rewrite <- Hl. apply lookup_same_payments. reflexivity.
Qed.

(* ===================================================================== *)
(** ** Settlement: forged signatures *)
(* ===================================================================== *)

(** C3. For every callback that carries the three gateway fields and whose
    signature does not match the expected value, the verification route
    answers with the invalid-signature client error and leaves the world as
    it was: no Order, no Payment, no change to a stored record and no call
    to the gateway. *)
Theorem C3_forged_signature_no_writes gw now b w :
  JS.truthy_str (razorpay_order_id b) = true ->
  JS.truthy_str (razorpay_payment_id b) = true ->
  JS.truthy_str (razorpay_signature b) = true ->
  isAuthentic (order_id_of b) (payment_id_of b) (signature_of b) = false ->
  verify_payment gw now b w
  = (w, fail 400 "Invalid payment signature" "Payment verification failed").
Proof.
  intros H1 H2 H3 Ha.
  unfold verify_payment, try_catch, verify_payment_body, missing.
  rewrite H1, H2, H3, Ha. reflexivity.
Qed.

Lemma C3_forged_signature_no_writes_witness :
  verify_payment Scenario.gw 2000%N Scenario.callback_forged Scenario.settled
  = (Scenario.settled, fail 400 "Invalid payment signature" "Payment verification failed").
Proof.
  apply C3_forged_signature_no_writes; vm_compute; reflexivity.
Defined.

(** Whatever is missing or wrong in the gateway fields, a request whose
    signature check does not pass writes nothing. *)
Lemma unverified_no_writes gw now b w :
  (missing b || negb (isAuthentic (order_id_of b) (payment_id_of b) (signature_of b)))%bool
  = true ->
  fst (verify_payment gw now b w) = w
  /\ statusCode (snd (verify_payment gw now b w)) = 400%nat.
Proof.
  intros H. unfold verify_payment, try_catch, verify_payment_body.
  destruct (missing b); [split; reflexivity|].
  destruct (isAuthentic (order_id_of b) (payment_id_of b) (signature_of b));
    [discriminate H|split; reflexivity].
Qed.

(* ===================================================================== *)
(** ** Settlement: what a successful call creates *)
(* ===================================================================== *)

(** C2 (as amended). Whenever the verification route answers with success
    (matching signature, gateway fetch and both inserts accepted), it has
    appended exactly one Order and exactly one Payment, the Payment is the
    one returned, and its [orderId] is the new Order's id unless the draft
    carries an [orderId] of its own, in which case it is that one. *)
Theorem C2_success_creates_one_pair gw now b w :
  success (snd (verify_payment gw now b w)) = true ->
  exists (o : OrderDoc.t) (p : PaymentDoc.t) (gp : Razorpay.GatewayPayment),
    orders (db (fst (verify_payment gw now b w))) = (orders (db w) ++ [o])%list
    /\ payments (db (fst (verify_payment gw now b w))) = (payments (db w) ++ [p])%list
    /\ data (snd (verify_payment gw now b w))
       = DataVerified p (order_id_of b) (payment_id_of b)
           (from_paise (Razorpay.gp_amount gp)) (Razorpay.gp_currency gp)
           (Razorpay.gp_status gp)
    /\ PaymentDoc.paymentId p = payment_id_of b
    /\ (JS.truthy_str (chain (orderData b) Draft.orderId) = false ->
        PaymentDoc.orderId p = OrderDoc._id o)
    /\ (JS.truthy_str (chain (orderData b) Draft.orderId) = true ->
        Schema.castObjectId (JS.or_str (chain (orderData b) Draft.orderId) "")
        = Some (PaymentDoc.orderId p)).
Proof.
  intros Hs.
  pose proof (verify_payment_settlement gw now b w) as S.
  destruct (success_recorded _ _ _ _ _ _ S Hs)
    as (payment & w1 & o & p & Hm & Hf & Ho & Hp & Hr).
  exists o, p, payment.
  destruct (recorded_appends _ _ _ _ _ _ _ _ _ Ho Hp) as [Hord Hpay].
  split; [exact Hord|]. split; [exact Hpay|].
  split; [rewrite Hr; reflexivity|].
  split; [eapply recorded_paymentId; eassumption|].
  apply Payment_create_inv in Hp. destruct Hp as (_ & _ & _ & _ & doc & Hv & ->).
  apply Payment_validate_inv in Hv. destruct Hv as (_ & _ & Hoid & _).
  destruct (Payment_pre_save_fields (List.length (payments (db w1))) doc) as (-> & _).
  cbn in Hoid.
  split; intros Ht; rewrite Ht in Hoid; cbn in Hoid.
  - inversion Hoid; reflexivity.
  - unfold Schema.required_oid in Hoid.
    destruct (Schema.castObjectId _) as [i|]; [|discriminate].
    inversion Hoid; reflexivity.
Qed.

Lemma C2_success_creates_one_pair_witness :
  exists (o : OrderDoc.t) (p : PaymentDoc.t) (gp : Razorpay.GatewayPayment),
    orders (db (fst (verify_payment Scenario.gw 1000%N Scenario.callback Scenario.empty)))
    = (orders (db Scenario.empty) ++ [o])%list
    /\ payments (db (fst (verify_payment Scenario.gw 1000%N Scenario.callback Scenario.empty)))
       = (payments (db Scenario.empty) ++ [p])%list
    /\ data (snd (verify_payment Scenario.gw 1000%N Scenario.callback Scenario.empty))
       = DataVerified p (order_id_of Scenario.callback) (payment_id_of Scenario.callback)
           (from_paise (Razorpay.gp_amount gp)) (Razorpay.gp_currency gp)
           (Razorpay.gp_status gp)
    /\ PaymentDoc.paymentId p = payment_id_of Scenario.callback
    /\ (JS.truthy_str (chain (orderData Scenario.callback) Draft.orderId) = false ->
        PaymentDoc.orderId p = OrderDoc._id o)
    /\ (JS.truthy_str (chain (orderData Scenario.callback) Draft.orderId) = true ->
        Schema.castObjectId (JS.or_str (chain (orderData Scenario.callback) Draft.orderId) "")
        = Some (PaymentDoc.orderId p)).
Proof.
  apply C2_success_creates_one_pair. vm_compute. reflexivity.
Defined.

(** The draft's [orderId] wins over the id of the Order just created: the
    Payment of this settlement references order [0xff], the Order created
    with it has id 1. *)
Lemma C2_counterexample :
  let r := verify_payment Scenario.gw 1000%N Scenario.callback_linked Scenario.empty in
  isAuthentic (order_id_of Scenario.callback_linked) (payment_id_of Scenario.callback_linked)
    (signature_of Scenario.callback_linked) = true
  /\ success (snd r) = true
  /\ map OrderDoc._id (orders (db (fst r))) = [1%N]
  /\ map PaymentDoc.orderId (payments (db (fst r))) = [255%N]
  /\ ~ (forall o p, In o (orders (db (fst r))) -> In p (payments (db (fst r))) ->
        PaymentDoc.orderId p = OrderDoc._id o).
Proof.
  cbv zeta.
  split; [vm_compute; reflexivity|].
  split; [vm_compute; reflexivity|].
  split; [vm_compute; reflexivity|].
  split; [vm_compute; reflexivity|].
  intros H.
  assert (Ho : exists o, In o (orders (db (fst (verify_payment Scenario.gw 1000%N
                 Scenario.callback_linked Scenario.empty)))) /\ OrderDoc._id o = 1%N).
  { vm_compute. eexists. split; [left; reflexivity|reflexivity]. }
  assert (Hp : exists p, In p (payments (db (fst (verify_payment Scenario.gw 1000%N
                 Scenario.callback_linked Scenario.empty)))) /\ PaymentDoc.orderId p = 255%N).
  { vm_compute. eexists. split; [left; reflexivity|reflexivity]. }
  destruct Ho as (o & Io & Eo). destruct Hp as (p & Ip & Ep).
  specialize (H o p Io Ip). rewrite Eo, Ep in H. clear - H. discriminate H.
Qed.

(* ===================================================================== *)
(** ** Settlement: repeated callbacks *)
(* ===================================================================== *)

(** What a verification request does to the Payment collection: nothing
    when it fails, one more Payment under the gateway payment id when it
    succeeds. *)
Lemma settle_payment_outcomes gw now b w :
  let r := verify_payment gw now b w in
  (payments (db (fst r)) = payments (db w) /\ success (snd r) = false)
  \/ (exists p, payments (db (fst r)) = (payments (db w) ++ [p])%list
                /\ PaymentDoc.paymentId p = payment_id_of b
                /\ success (snd r) = true).
Proof.
  cbv zeta.
  destruct (verify_payment_settlement gw now b w)
    as [| | |payment w1 e Hm Ha Hf Ho|payment w1 w2 o e Hm Ha Hf Ho Hp
        |payment w1 w2 o p Hm Ha Hf Ho Hp].
  - left; auto.
  - left; auto.
  - left; auto.
  - left. apply Order_create_inv in Ho. destruct Ho as (Hpay & _). auto.
  - left. apply Order_create_inv in Ho. destruct Ho as (Hpay & _).
    apply Payment_create_inv in Hp. destruct Hp as (_ & _ & Hdb).
    rewrite Hdb. auto.
  - right. exists p.
    destruct (recorded_appends _ _ _ _ _ _ _ _ _ Ho Hp) as [_ Hpay].
    split; [exact Hpay|]. split; [|reflexivity].
    eapply recorded_paymentId; eassumption.
Qed.

(** C1 (as amended). For every pair of settlement callbacks that carry the
    same gateway payment id, run one after the other from any world, at most
    one Payment is created; and once the first call has been recorded (its
    Payment is stored under that id), the second call stores no Payment,
    whatever the gateway answers, because the unique index on [paymentId]
    refuses the insert.  The route makes no check of its own before it
    creates records, and the second call then answers with an error, not
    with the first call's result. *)
Theorem C1_same_payment_id_one_payment gw1 gw2 now1 now2 b1 b2 w :
  razorpay_payment_id b2 = razorpay_payment_id b1 ->
  (exists l, payments (db (fst (verify_payment gw2 now2 b2
                                  (fst (verify_payment gw1 now1 b1 w)))))
             = (payments (db w) ++ l)%list
             /\ (List.length l <= 1)%nat
             /\ Forall (fun p => PaymentDoc.paymentId p = payment_id_of b1) l)
  /\ (success (snd (verify_payment gw1 now1 b1 w)) = true ->
      payments (db (fst (verify_payment gw2 now2 b2 (fst (verify_payment gw1 now1 b1 w)))))
      = payments (db (fst (verify_payment gw1 now1 b1 w)))
      /\ success (snd (verify_payment gw2 now2 b2 (fst (verify_payment gw1 now1 b1 w))))
         = false).
Proof.
  intros Hid.
  assert (Hpid : payment_id_of b2 = payment_id_of b1).
  { unfold payment_id_of. rewrite Hid. reflexivity. }
  assert (Hsecond :
            success (snd (verify_payment gw1 now1 b1 w)) = true ->
            payments (db (fst (verify_payment gw2 now2 b2 (fst (verify_payment gw1 now1 b1 w)))))
            = payments (db (fst (verify_payment gw1 now1 b1 w)))
            /\ success (snd (verify_payment gw2 now2 b2 (fst (verify_payment gw1 now1 b1 w))))
               = false).
  { intros Hs.
    destruct (settle_payment_outcomes gw1 now1 b1 w) as [[_ Hf]|(p & Hpay & Hp & _)];
      [congruence|].
    apply settled_id_refused with (gw := gw2) (now := now2) (b := b2).
    - rewrite Hpid. unfold Payment.lookup. rewrite Hpay. apply find_last.
      rewrite Hp. apply String.eqb_refl.
    - apply verify_payment_settlement. }
  split; [|exact Hsecond].
  destruct (settle_payment_outcomes gw1 now1 b1 w) as [[Hpay1 _]|(p & Hpay1 & Hp & Hs)].
  - destruct (settle_payment_outcomes gw2 now2 b2 (fst (verify_payment gw1 now1 b1 w)))
      as [[Hpay2 _]|(q & Hpay2 & Hq & _)].
    + exists []. rewrite Hpay2, Hpay1, app_nil_r.
      split; [reflexivity|]. split; [cbn; lia|constructor].
    + exists [q]. rewrite Hpay2, Hpay1.
      split; [reflexivity|]. split; [cbn; lia|].
      constructor; [congruence|constructor].
  - destruct (Hsecond Hs) as [Hpay2 _].
    exists [p]. rewrite Hpay2, Hpay1.
    split; [reflexivity|]. split; [cbn; lia|].
    constructor; [exact Hp|constructor].
Qed.

Lemma C1_same_payment_id_one_payment_witness :
  (exists l, payments (db (fst (verify_payment Scenario.gw 2000%N Scenario.callback
                                  (fst (verify_payment Scenario.gw 1000%N Scenario.callback
                                          Scenario.empty)))))
             = (payments (db Scenario.empty) ++ l)%list
             /\ (List.length l <= 1)%nat
             /\ Forall (fun p => PaymentDoc.paymentId p = payment_id_of Scenario.callback) l)
  /\ payments (db (fst (verify_payment Scenario.gw 2000%N Scenario.callback
                          (fst (verify_payment Scenario.gw 1000%N Scenario.callback
                                  Scenario.empty)))))
     = payments (db (fst (verify_payment Scenario.gw 1000%N Scenario.callback
                            Scenario.empty)))
  /\ success (snd (verify_payment Scenario.gw 2000%N Scenario.callback
                     (fst (verify_payment Scenario.gw 1000%N Scenario.callback
                             Scenario.empty)))) = false.
Proof.
  destruct (C1_same_payment_id_one_payment
              Scenario.gw Scenario.gw 1000%N 2000%N Scenario.callback Scenario.callback
              Scenario.empty eq_refl) as [H1 H2].
  split; [exact H1|].
  apply H2. vm_compute. reflexivity.
Defined.

(** The scenario's callback sent twice: the second call adds a second
    Order, no Payment, and answers with the duplicate-key error instead of
    the first call's result. *)
Lemma C1_counterexample :
  let r1 := verify_payment Scenario.gw 1000%N Scenario.callback Scenario.empty in
  let r2 := verify_payment Scenario.gw 2000%N Scenario.callback (fst r1) in
  success (snd r1) = true
  /\ List.length (orders (db (fst r1))) = 1%nat
  /\ List.length (orders (db (fst r2))) = 2%nat
  /\ List.length (payments (db (fst r2))) = 1%nat
  /\ snd r2 = caught "Failed to verify payment" (DuplicateKeyError "paymentId")
  /\ snd r2 <> snd r1.
Proof.
  cbv zeta.
  split; [vm_compute; reflexivity|].
  split; [vm_compute; reflexivity|].
  split; [vm_compute; reflexivity|].
  split; [vm_compute; reflexivity|].
  split; [vm_compute; reflexivity|].
  intros H. apply (f_equal statusCode) in H. vm_compute in H. discriminate H.
Qed.

(* ===================================================================== *)
(** ** Settlement: the Order's payment summary *)
(* ===================================================================== *)

Lemma validate_summary_settle pid s :
  Order.validate_summary
    (Some (Payload.mkSummary (Some "Razorpay") (Some "Pending") (Some pid) None)) = inr s ->
  OrderDoc.status s = "Pending" /\ OrderDoc.paidAt s = None /\ OrderDoc.method s = "Razorpay".
Proof. cbn. intros H; inversion H; subst; cbn. auto. Qed.

(** C10. After every successful settlement the Order just created carries
    an embedded payment summary with status "Pending" and no [paidAt], while
    the Payment created with it has status "Completed" when the gateway
    reports the payment as captured ("Processing" otherwise): the route
    never writes "Paid" into the Order. *)
Theorem C10_order_summary_stays_pending gw now b w :
  success (snd (verify_payment gw now b w)) = true ->
  exists (o : OrderDoc.t) (p : PaymentDoc.t) (gp : Razorpay.GatewayPayment),
    orders (db (fst (verify_payment gw now b w))) = (orders (db w) ++ [o])%list
    /\ payments (db (fst (verify_payment gw now b w))) = (payments (db w) ++ [p])%list
    /\ Razorpay.payments_fetch gw (payment_id_of b) = Some gp
    /\ OrderDoc.status (OrderDoc.payment o) = "Pending"
    /\ OrderDoc.paidAt (OrderDoc.payment o) = None
    /\ PaymentDoc.status p = (if captured gp then "Completed" else "Processing").
Proof.
  intros Hs.
  pose proof (verify_payment_settlement gw now b w) as S.
  destruct (success_recorded _ _ _ _ _ _ S Hs)
    as (payment & w1 & o & p & Hm & Hf & Ho & Hp & Hr).
  exists o, p, payment.
  destruct (recorded_appends _ _ _ _ _ _ _ _ _ Ho Hp) as [Hord Hpay].
  split; [exact Hord|]. split; [exact Hpay|]. split; [exact Hf|].
  apply Order_create_inv in Ho. destruct Ho as (_ & _ & _ & odoc & Hov & ->).
  apply Order_validate_inv in Hov. destruct Hov as (_ & _ & _ & Hsum).
  destruct (Order_pre_save_fields (List.length (orders (db (logged
              (Razorpay.CallPaymentsFetch (payment_id_of b)) w)))) odoc) as (_ & _ & ->).
  apply validate_summary_settle in Hsum. destruct Hsum as (Hst & Hpa & _).
  split; [exact Hst|]. split; [exact Hpa|].
  apply Payment_create_inv in Hp. destruct Hp as (_ & _ & _ & _ & doc & Hv & ->).
  apply Payment_validate_inv in Hv. destruct Hv as (_ & _ & _ & _ & Hstat).
  destruct (Payment_pre_save_fields (List.length (payments (db w1))) doc) as (_ & -> & _).
  cbn in Hstat. destruct (captured payment); cbn in Hstat; inversion Hstat; reflexivity.
Qed.

Lemma C10_order_summary_stays_pending_witness :
  exists (o : OrderDoc.t) (p : PaymentDoc.t) (gp : Razorpay.GatewayPayment),
    orders (db (fst (verify_payment Scenario.gw 1000%N Scenario.callback Scenario.empty)))
    = (orders (db Scenario.empty) ++ [o])%list
    /\ payments (db (fst (verify_payment Scenario.gw 1000%N Scenario.callback Scenario.empty)))
       = (payments (db Scenario.empty) ++ [p])%list
    /\ Razorpay.payments_fetch Scenario.gw (payment_id_of Scenario.callback) = Some gp
    /\ OrderDoc.status (OrderDoc.payment o) = "Pending"
    /\ OrderDoc.paidAt (OrderDoc.payment o) = None
    /\ PaymentDoc.status p = (if captured gp then "Completed" else "Processing").
Proof.
  apply C10_order_summary_stays_pending. vm_compute. reflexivity.
Defined.

(** In the scenario the gateway has captured the payment: the Payment is
    completed, the Order's own summary still says pending. *)
Example scenario_statuses :
  map PaymentDoc.status (payments (db Scenario.settled)) = ["Completed"]
  /\ map (fun o => OrderDoc.status (OrderDoc.payment o)) (orders (db Scenario.settled))
     = ["Pending"]
  /\ map (fun o => OrderDoc.paidAt (OrderDoc.payment o)) (orders (db Scenario.settled))
     = [None].
Proof. split; [|split]; vm_compute; reflexivity. Qed.

(* ===================================================================== *)
(** ** Order totals *)
(* ===================================================================== *)

Lemma required_min_inv path m x q :
  Schema.required_min path m x = inr q -> x = Some q /\ m <= q.
Proof.
  unfold Schema.required_min. destruct x as [v|]; [|discriminate].
  destruct (Qle_bool m v) eqn:E; [|discriminate].
  intros H; inversion H; subst. split; [reflexivity|].
  apply Qle_bool_iff. exact E.
Qed.

Lemma validate_amounts_inv path a m :
  validate_amounts path a = inr m ->
  exists pr, a = Some pr /\ Payload.total pr = Some (total m) /\ 0 <= total m.
Proof.
  unfold validate_amounts. intro H.
  repeat step_result H. inversion H; subst; cbn.
  match goal with E : Schema.required_min (path ++ ".total") _ _ = _ |- _ =>
    apply required_min_inv in E; destruct E as [Et Hle] end.
  destruct a as [pr|].
  - exists pr. auto.
  - cbn in Et. discriminate Et.
Qed.

Lemma positive_total x :
  (negb (JS.truthy_num x) || JS.le0 x)%bool = false -> exists q, x = Some q /\ 0 < q.
Proof.
  destruct x as [q|]; cbn; [|discriminate].
  intros H. apply orb_false_iff in H. destruct H as [_ H].
  exists q. split; [reflexivity|].
  apply Qnot_le_lt. intros Hle. apply Qle_bool_iff in Hle. congruence.
Qed.

(** The outcomes of the generic order-creation route. *)
Lemma generic_create_outcomes now p w :
  let r := OrderRoutes.create now p w in
  (fst r = w /\ statusCode (snd r) = 400%nat)
  \/ (exists q, chain (Payload.pricing p) Payload.total = Some q /\ 0 < q
                /\ ((db (fst r) = db w /\ statusCode (snd r) = 500%nat)
                    \/ exists o, orders (db (fst r)) = (orders (db w) ++ [o])%list
                                 /\ payments (db (fst r)) = payments (db w)
                                 /\ total (OrderDoc.pricing o) = q
                                 /\ snd r = ok 201 "Order created successfully" (DataOrder o))).
Proof.
  cbv zeta. unfold OrderRoutes.create, try_catch, OrderRoutes.create_body.
  destruct (Payload.customerInfo p); [|left; cbn; auto].
  destruct (Payload.items p) as [its|]; [|left; cbn; auto].
  destruct (Payload.pricing p) as [pr|] eqn:Hpr; [|left; cbn; auto].
  destruct (Nat.eqb _ _); [left; cbn; auto|].
  destruct (negb (JS.truthy_num (Payload.total pr)) || JS.le0 (Payload.total pr))%bool eqn:Ht;
    [left; cbn; auto|].
  apply positive_total in Ht. destruct Ht as (q & Hq & Hpos).
  right. exists q. split; [exact Hq|]. split; [exact Hpos|].
  unfold bind.
  destruct (Order.create now p w) as [w1 [e|o]] eqn:Ho; cbn [fst snd].
  - left. apply Order_create_inv in Ho. destruct Ho as (_ & _ & Hdb). auto.
  - right. exists o.
    apply Order_create_inv in Ho. destruct Ho as (Hpay & _ & Hord & doc & Hv & ->).
    split; [exact Hord|]. split; [exact Hpay|]. split; [|reflexivity].
    apply Order_validate_inv in Hv. destruct Hv as (_ & _ & Hpricing & _).
    destruct (Order_pre_save_fields (List.length (orders (db w))) doc) as (_ & -> & _).
    apply validate_amounts_inv in Hpricing. destruct Hpricing as (pr' & E & Htot & _).
    rewrite Hpr in E. inversion E; subst pr'. congruence.
Qed.

(** The orders a verification request can leave behind. *)
Lemma settle_order_outcomes gw now b w :
  let r := verify_payment gw now b w in
  db (fst r) = db w
  \/ exists o, orders (db (fst r)) = (orders (db w) ++ [o])%list
               /\ total (OrderDoc.pricing o) = JS.or_num (chain (orderData b) Draft.totalPrice) 0
               /\ 0 <= total (OrderDoc.pricing o).
Proof.
  cbv zeta.
  assert (created : forall w1 o,
             Order.create now (orderPayload (payment_id_of b) (orderData b))
               (logged (Razorpay.CallPaymentsFetch (payment_id_of b)) w) = (w1, inr o) ->
             orders (db w1) = (orders (db w) ++ [o])%list
             /\ total (OrderDoc.pricing o) = JS.or_num (chain (orderData b) Draft.totalPrice) 0
             /\ 0 <= total (OrderDoc.pricing o)).
  { intros w1 o Ho.
    apply Order_create_inv in Ho. destruct Ho as (_ & _ & Hord & doc & Hv & ->).
    split; [exact Hord|].
    apply Order_validate_inv in Hv. destruct Hv as (_ & _ & Hpricing & _).
    destruct (Order_pre_save_fields
                (List.length (orders (db (logged (Razorpay.CallPaymentsFetch (payment_id_of b)) w))))
                doc) as (_ & -> & _).
    apply validate_amounts_inv in Hpricing. destruct Hpricing as (pr & E & Htot & Hle).
    cbn in E. inversion E; subst pr. cbn in Htot. inversion Htot as [Hq].
    split; [reflexivity|]. rewrite <- Hq in Hle. exact Hle. }
  destruct (verify_payment_settlement gw now b w)
    as [| | |payment w1 e Hm Ha Hf Ho|payment w1 w2 o e Hm Ha Hf Ho Hp
        |payment w1 w2 o p Hm Ha Hf Ho Hp].
  - left; reflexivity.
  - left; reflexivity.
  - left; reflexivity.
  - left. apply Order_create_inv in Ho. destruct Ho as (_ & _ & Hdb). exact Hdb.
  - right. exists o. destruct (created _ _ Ho) as (Hord & Ht & Hle).
    apply Payment_create_inv in Hp. destruct Hp as (_ & _ & Hdb).
    rewrite Hdb. auto.
  - right. exists o. destruct (created _ _ Ho) as (Hord & Ht & Hle).
    apply Payment_create_inv in Hp. destruct Hp as (Hord' & _).
    rewrite Hord'. auto.
Qed.

(** C8 (as amended). An Order persisted through the generic creation route
    has [pricing.total] strictly greater than 0: the route either rejects
    the request with a client error and leaves the world as it was, or the
    request carries a positive total, and then the route either fails
    without persisting anything or appends one Order with that total.  An
    Order persisted through the verification route has [pricing.total]
    greater than or equal to 0: it is the draft's total price, 0 when the
    draft has none, and a negative one is refused by the schema, nothing
    being persisted. *)
Theorem C8_persisted_order_totals gw now p b w :
  (let r := OrderRoutes.create now p w in
   (fst r = w /\ statusCode (snd r) = 400%nat)
   \/ (exists q, chain (Payload.pricing p) Payload.total = Some q /\ 0 < q
                 /\ ((db (fst r) = db w /\ statusCode (snd r) = 500%nat)
                     \/ exists o, orders (db (fst r)) = (orders (db w) ++ [o])%list
                                  /\ payments (db (fst r)) = payments (db w)
                                  /\ total (OrderDoc.pricing o) = q
                                  /\ snd r = ok 201 "Order created successfully" (DataOrder o))))
  /\ (let r := verify_payment gw now b w in
      db (fst r) = db w
      \/ exists o, orders (db (fst r)) = (orders (db w) ++ [o])%list
                   /\ total (OrderDoc.pricing o)
                      = JS.or_num (chain (orderData b) Draft.totalPrice) 0
                   /\ 0 <= total (OrderDoc.pricing o)).
Proof.
  split; [apply generic_create_outcomes|apply settle_order_outcomes].
Qed.

(** A verified callback without a draft persists an Order whose total
    is 0. *)
Lemma C8_counterexample :
  let r := verify_payment Scenario.gw 1000%N Scenario.callback_no_draft Scenario.empty in
  success (snd r) = true
  /\ exists o, orders (db (fst r)) = [o] /\ ~ 0 < total (OrderDoc.pricing o).
Proof.
  cbv zeta. split; [vm_compute; reflexivity|].
  eexists. split; [vm_compute; reflexivity|].
  cbn. intros H. discriminate H.
Qed.

(* ===================================================================== *)
(** ** Money at the gateway boundary *)
(* ===================================================================== *)

(** [Math.round] gives the nearest integer, a tie going up. *)
Lemma Math_round_nearest (x : Q) :
  x - (1 # 2) < inject_Z (JS.Math_round x) /\ inject_Z (JS.Math_round x) <= x + (1 # 2).
Proof.
  unfold JS.Math_round.
  pose proof (Qfloor_le (x + (1 # 2))) as Hle.
  pose proof (Qlt_floor (x + (1 # 2))) as Hlt.
  rewrite inject_Z_plus in Hlt.
  change (inject_Z 1) with 1 in Hlt.
  split; lra.
Qed.

Lemma Qfloor_unique (x : Q) (n : Z) :
  inject_Z n <= x -> x < inject_Z (n + 1) -> Qfloor x = n.
Proof.
  intros Hle Hlt.
  assert (H1 : (n <= Qfloor x)%Z).
  { rewrite <- (Qfloor_Z n). apply Qfloor_resp_le. exact Hle. }
  assert (H2 : (Qfloor x < n + 1)%Z).
  { rewrite Zlt_Qlt. eapply Qle_lt_trans; [apply Qfloor_le|exact Hlt]. }
  lia.
Qed.

(** [Math.round] and banker's rounding part only on a tie whose lower
    neighbour is even. *)
Lemma Math_round_vs_half_even (x : Q) :
  JS.Math_round x = Spec.round_half_even x
  \/ (x == inject_Z (Qfloor x) + (1 # 2) /\ Z.even (Qfloor x) = true
      /\ JS.Math_round x = (Qfloor x + 1)%Z /\ Spec.round_half_even x = Qfloor x).
Proof.
  unfold Spec.round_half_even, JS.Math_round.
  pose proof (Qfloor_le x) as Hle.
  pose proof (Qlt_floor x) as Hlt.
  rewrite inject_Z_plus in Hlt. change (inject_Z 1) with 1 in Hlt.
  destruct (Qcompare (x - inject_Z (Qfloor x)) (1 # 2)) eqn:C.
  - apply Qeq_alt in C.
    assert (E : Qfloor (x + (1 # 2)) = (Qfloor x + 1)%Z).
    { apply Qfloor_unique; repeat rewrite inject_Z_plus;
        change (inject_Z 1) with 1; lra. }
    destruct (Z.even (Qfloor x)) eqn:Ev.
    + right. repeat split; [lra|exact E].
    + left. exact E.
  - apply Qlt_alt in C. left.
    apply Qfloor_unique; repeat rewrite inject_Z_plus;
      change (inject_Z 1) with 1; lra.
  - apply Qgt_alt in C. left.
    apply Qfloor_unique; repeat rewrite inject_Z_plus;
      change (inject_Z 1) with 1; lra.
Qed.

Lemma positive_amount (a : Q) :
  0 < a -> JS.truthy_num (Some a) = true /\ JS.le0 (Some a) = false /\ JS.gt0 (Some a) = true
           /\ JS.or_num (Some a) 0 = a.
Proof.
  intros Hpos. cbn.
  assert (E1 : Qeq_bool a 0 = false).
  { destruct (Qeq_bool a 0) eqn:E; [|reflexivity].
    apply Qeq_bool_iff in E. lra. }
  assert (E2 : Qle_bool a 0 = false).
  { destruct (Qle_bool a 0) eqn:E; [|reflexivity].
    apply Qle_bool_iff in E. lra. }
  rewrite E1, E2. auto.
Qed.

Lemma save_keeps_log now p w w' r :
  Payment.save now p w = (w', r) -> gateway_log w' = gateway_log w.
Proof.
  unfold Payment.save, bind, lift, get_db, put_db.
  destruct (Payment.validate_refund _); [intros H; inversion H; reflexivity|].
  destruct (Schema.required_enum _ _ _); intros H; inversion H; reflexivity.
Qed.

(** The refund route, step by step, for a request that names a payment. *)
Lemma refund_run gw now b w pid :
  payment_id b = Some pid -> pid <> "" ->
  refund gw now b w
  = let w0 := logged (Razorpay.CallPaymentsRefund pid (refundOptions pid b)) w in
    match Razorpay.payments_refund gw pid (refundOptions pid b) with
    | None => (w0, caught "Failed to process refund" (GatewayError "payments.refund"))
    | Some rf =>
        let done :=
          ok 200 "Refund processed successfully"
            (DataRefund (Razorpay.gr_id rf) (from_paise (Razorpay.gr_amount rf))
               (Razorpay.gr_status rf) (Razorpay.gr_created_at rf)) in
        match Payment.lookup pid (db w) with
        | None => (w0, done)
        | Some p =>
            match Payment.save now (refunded now b rf p) w0 with
            | (w', inl e) => (w', caught "Failed to process refund" e)
            | (w', inr _) => (w', done)
            end
        end
    end.
Proof.
  intros Hp Hne. unfold refund, try_catch, refund_body.
  rewrite Hp. cbn [JS.truthy_str JS.or_str].
  apply String.eqb_neq in Hne. rewrite Hne. cbn [negb].
  cbv beta iota zeta delta [bind gateway Payment.findOne_paymentId get_db ret].
  destruct (Razorpay.payments_refund gw pid (refundOptions pid b)) as [rf|]; [|reflexivity].
  cbv beta iota. cbn [db logged].
  destruct (Payment.lookup pid (db w)) as [p|]; [|reflexivity].
  destruct (Payment.save now _ _) as [w' [e|u]]; reflexivity.
Qed.

Lemma refund_log gw now b w pid :
  payment_id b = Some pid -> pid <> "" ->
  gateway_log (fst (refund gw now b w))
  = (gateway_log w ++ [Razorpay.CallPaymentsRefund pid (refundOptions pid b)])%list.
Proof.
  intros Hp Hne. rewrite (refund_run gw now b w pid Hp Hne). cbv zeta.
  destruct (Razorpay.payments_refund gw pid (refundOptions pid b)) as [rf|]; [|reflexivity].
  destruct (Payment.lookup pid (db w)) as [p|]; [|reflexivity].
  destruct (Payment.save now _ _) as [w' [e|u]] eqn:Hs;
    apply save_keeps_log in Hs; cbn [fst]; rewrite Hs; reflexivity.
Qed.

(* ===================================================================== *)
(** ** Doubles *)
(* ===================================================================== *)

Lemma pow2_pos (e : Z) : 0 < JS.pow2 e.
Proof. unfold JS.pow2. apply Qpower_0_lt. reflexivity. Qed.

Lemma pow2_plus (a b : Z) : JS.pow2 (a + b) == JS.pow2 a * JS.pow2 b.
Proof. unfold JS.pow2. apply Qpower_plus. discriminate. Qed.

Lemma pow2_le (a b : Z) : (a <= b)%Z -> JS.pow2 a <= JS.pow2 b.
Proof. intros H. unfold JS.pow2. apply Qpower_le_compat_l; [exact H|]. discriminate. Qed.

Lemma pow2_Z (a : Z) : (0 <= a)%Z -> JS.pow2 a == inject_Z (2 ^ a).
Proof. intros H. unfold JS.pow2. rewrite Zpower_Qpower by exact H. reflexivity. Qed.

(** The exponent that [ilog2] gives brackets its argument. *)
Lemma ilog2_spec (q : Q) :
  0 < q -> JS.pow2 (JS.ilog2 q) <= q /\ q < JS.pow2 (JS.ilog2 q + 1).
Proof.
  intros Hq. destruct q as [n d].
  assert (Hn : (0 < n)%Z).
  { unfold Qlt in Hq. cbn in Hq. lia. }
  unfold JS.ilog2. cbn [Qnum Qden].
  set (a := Z.log2 n). set (b := Z.log2 (Z.pos d)).
  destruct (Z.log2_spec n Hn) as [Ha1 Ha2]. fold a in Ha1, Ha2.
  destruct (Z.log2_spec (Z.pos d) (Pos2Z.is_pos d)) as [Hb1 Hb2]. fold b in Hb1, Hb2.
  assert (Ha0 : (0 <= a)%Z) by apply Z.log2_nonneg.
  assert (Hb0 : (0 <= b)%Z) by apply Z.log2_nonneg.
  assert (Eq : n # d == inject_Z n / inject_Z (Z.pos d)) by apply Qmake_Qdiv.
  assert (HD : 0 < inject_Z (Z.pos d)).
  { unfold Qlt. cbn. lia. }
  assert (HA1 : JS.pow2 a <= inject_Z n).
  { rewrite pow2_Z by exact Ha0. rewrite <- Zle_Qle. exact Ha1. }
  assert (HA2 : inject_Z n < JS.pow2 (a + 1)).
  { rewrite pow2_Z by lia. rewrite <- Zlt_Qlt. replace (a + 1)%Z with (Z.succ a) by lia.
    exact Ha2. }
  assert (HB1 : JS.pow2 b <= inject_Z (Z.pos d)).
  { rewrite pow2_Z by exact Hb0. rewrite <- Zle_Qle. exact Hb1. }
  assert (HB2 : inject_Z (Z.pos d) < JS.pow2 (b + 1)).
  { rewrite pow2_Z by lia. rewrite <- Zlt_Qlt. replace (b + 1)%Z with (Z.succ b) by lia.
    exact Hb2. }
  assert (HN : 0 < inject_Z n).
  { unfold Qlt. cbn. lia. }
  pose proof (pow2_pos b) as Pb. pose proof (pow2_pos (a - b)) as Pk.
  pose proof (pow2_pos (a - b - 1)) as Pk1. pose proof (pow2_pos (a - b + 1)) as Pk2.
  (* q * d = n *)
  assert (Hqd : (n # d) * inject_Z (Z.pos d) == inject_Z n).
  { rewrite Eq. field. intros H. rewrite H in HD. apply (Qlt_irrefl 0). exact HD. }
  (* upper bounds *)
  assert (Up : n # d < JS.pow2 (a - b + 1)).
  { assert (E : JS.pow2 (a + 1) == JS.pow2 (a - b + 1) * JS.pow2 b).
    { rewrite <- pow2_plus. replace (a - b + 1 + b)%Z with (a + 1)%Z by lia. reflexivity. }
    destruct (Qlt_le_dec (n # d) (JS.pow2 (a - b + 1))) as [H|H]; [exact H|exfalso].
    assert (H1 : JS.pow2 (a - b + 1) * JS.pow2 b <= (n # d) * inject_Z (Z.pos d)).
    { apply Qle_trans with ((n # d) * JS.pow2 b).
      - apply Qmult_le_compat_r; [exact H|apply Qlt_le_weak; exact Pb].
      - rewrite (Qmult_comm (n # d)), (Qmult_comm (n # d)).
        apply Qmult_le_compat_r; [exact HB1|apply Qlt_le_weak; exact Hq]. }
    rewrite <- E, Hqd in H1. apply (Qlt_irrefl (inject_Z n)).
    eapply Qlt_le_trans; [exact HA2|exact H1]. }
  assert (Low : JS.pow2 (a - b - 1) <= n # d).
  { assert (E : JS.pow2 a == JS.pow2 (a - b - 1) * JS.pow2 (b + 1)).
    { rewrite <- pow2_plus. replace (a - b - 1 + (b + 1))%Z with a by lia. reflexivity. }
    destruct (Qlt_le_dec (n # d) (JS.pow2 (a - b - 1))) as [H|H]; [exfalso|exact H].
    assert (H1 : (n # d) * inject_Z (Z.pos d) < JS.pow2 (a - b - 1) * JS.pow2 (b + 1)).
    { apply Qle_lt_trans with ((n # d) * JS.pow2 (b + 1)).
      - rewrite (Qmult_comm (n # d)), (Qmult_comm (n # d)).
        apply Qmult_le_compat_r; [apply Qlt_le_weak; exact HB2|apply Qlt_le_weak; exact Hq].
      - apply Qmult_lt_compat_r; [apply pow2_pos|exact H]. }
    rewrite <- E, Hqd in H1. apply (Qlt_irrefl (inject_Z n)).
    eapply Qlt_le_trans; [exact H1|exact HA1]. }
  destruct (Qle_bool (JS.pow2 (a - b)) (n # d)) eqn:E.
  - apply Qle_bool_iff in E. split; [exact E|exact Up].
  - split; [exact Low|].
    replace (a - b - 1 + 1)%Z with (a - b)%Z by lia.
    destruct (Qlt_le_dec (n # d) (JS.pow2 (a - b))) as [H|H]; [exact H|].
    apply Qle_bool_iff in H. rewrite H in E. discriminate E.
Qed.

Lemma ilog2_lower (q : Q) (k : Z) : 0 < q -> JS.pow2 k <= q -> (k <= JS.ilog2 q)%Z.
Proof.
  intros Hq Hk. destruct (ilog2_spec q Hq) as [_ Hu].
  destruct (Z_le_gt_dec k (JS.ilog2 q)) as [H|H]; [exact H|exfalso].
  assert (JS.pow2 (JS.ilog2 q + 1) <= JS.pow2 k) by (apply pow2_le; lia).
  apply (Qlt_irrefl q). eapply Qlt_le_trans; [exact Hu|].
  eapply Qle_trans; [eassumption|exact Hk].
Qed.

Lemma round_ties_even_near (x : Q) :
  x - (1 # 2) <= inject_Z (JS.round_ties_even x) <= x + (1 # 2).
Proof.
  unfold JS.round_ties_even.
  pose proof (Qfloor_le x) as Hle.
  pose proof (Qlt_floor x) as Hlt.
  rewrite inject_Z_plus in Hlt. change (inject_Z 1) with 1 in Hlt.
  destruct (Qcompare (x - inject_Z (Qfloor x)) (1 # 2)) eqn:C.
  - apply Qeq_alt in C. destruct (Z.even (Qfloor x));
      [|rewrite inject_Z_plus; change (inject_Z 1) with 1]; split; lra.
  - apply Qlt_alt in C. split; lra.
  - apply Qgt_alt in C. rewrite inject_Z_plus. change (inject_Z 1) with 1. split; lra.
Qed.

Lemma round_ties_even_nonneg (x : Q) : 0 <= x -> (0 <= JS.round_ties_even x)%Z.
Proof.
  intros Hx. unfold JS.round_ties_even.
  assert (H0 : (0 <= Qfloor x)%Z).
  { rewrite <- (Qfloor_Z 0). apply Qfloor_resp_le. exact Hx. }
  destruct (Qcompare _ _); [destruct (Z.even _)| |]; lia.
Qed.

(** [fl] by its exponent. *)
Lemma fl_eq (x : Q) :
  ~ x == 0 ->
  JS.fl x == inject_Z (JS.round_ties_even
                         (x / JS.pow2 (Z.max (JS.ilog2 (Qabs x) - 52) (-1074))))
             * JS.pow2 (Z.max (JS.ilog2 (Qabs x) - 52) (-1074)).
Proof.
  intros Hx. unfold JS.fl.
  destruct (Qeq_bool x 0) eqn:E.
  - apply Qeq_bool_iff in E. contradiction.
  - apply Qred_correct.
Qed.

Lemma fl_nonneg (x : Q) : 0 <= x -> 0 <= JS.fl x.
Proof.
  intros Hx. unfold JS.fl. destruct (Qeq_bool x 0); [apply Qle_refl|].
  rewrite Qred_correct.
  set (e := Z.max _ _). pose proof (pow2_pos e) as Pe.
  apply Qmult_le_0_compat; [|apply Qlt_le_weak; exact Pe].
  change 0 with (inject_Z 0). rewrite <- Zle_Qle. apply round_ties_even_nonneg.
  apply Qle_shift_div_l; [exact Pe|]. rewrite Qmult_0_l. exact Hx.
Qed.

Lemma Qabs_pos_eq (x : Q) : 0 <= x -> Qabs x = x.
Proof.
  destruct x as [n d]. unfold Qle, Qabs. cbn. intros H.
  rewrite Z.abs_eq by lia. reflexivity.
Qed.

(** The relative error of rounding, for a number in the normal range. *)
Lemma fl_error (x : Q) :
  0 < x -> JS.pow2 (-1022) <= x ->
  Qabs (JS.fl x - x) <= x * (1 # 2 ^ 53).
Proof.
  intros Hx Hn.
  assert (Hx0 : ~ x == 0) by (intros H; rewrite H in Hx; apply (Qlt_irrefl 0); exact Hx).
  rewrite (fl_eq x Hx0).
  rewrite (Qabs_pos_eq x) by (apply Qlt_le_weak; exact Hx).
  pose proof (ilog2_lower x (-1022) Hx Hn) as HL.
  rewrite Z.max_l by lia.
  set (L := JS.ilog2 x) in *.
  destruct (ilog2_spec x Hx) as [Hlo _]. fold L in Hlo.
  pose proof (pow2_pos (L - 52)) as Pe.
  pose proof (round_ties_even_near (x / JS.pow2 (L - 52))) as [N1 N2].
  set (m := inject_Z (JS.round_ties_even (x / JS.pow2 (L - 52)))) in *.
  assert (Ey : x / JS.pow2 (L - 52) * JS.pow2 (L - 52) == x).
  { field. intros H. rewrite H in Pe. apply (Qlt_irrefl 0). exact Pe. }
  assert (EL : JS.pow2 L == JS.pow2 (L - 52) * inject_Z (2 ^ 52)).
  { rewrite <- pow2_Z by lia. rewrite <- pow2_plus.
    replace (L - 52 + 52)%Z with L by lia. reflexivity. }
  set (y := x / JS.pow2 (L - 52)) in *.
  set (p := JS.pow2 (L - 52)) in *.
  assert (B1 : (y - (1 # 2)) * p <= m * p) by (apply Qmult_le_compat_r; [exact N1|lra]).
  assert (B2 : m * p <= (y + (1 # 2)) * p) by (apply Qmult_le_compat_r; [exact N2|lra]).
  change (inject_Z (2 ^ 52)) with (4503599627370496 # 1) in EL.
  change (1 # 2 ^ 53) with (1 # 9007199254740992).
  apply Qabs_Qle_condition. split; nra.
Qed.

Lemma Qabs_bounds (a b : Q) : Qabs a <= b -> - b <= a /\ a <= b.
Proof. intros H. apply Qabs_Qle_condition in H. exact H. Qed.

(** Paise to major units and back: both steps round, and the integer
    comes back all the same. *)
Lemma to_paise_from_paise (n : Z) :
  (0 <= n < 2 ^ 51)%Z -> to_paise (from_paise n) = n.
Proof.
  intros [H0 H1].
  destruct (Z.eq_dec n 0) as [->|Hn]; [vm_compute; reflexivity|].
  assert (HN1 : 1 <= inject_Z n).
  { change 1 with (inject_Z 1). rewrite <- Zle_Qle. lia. }
  assert (HN2 : inject_Z n <= inject_Z (2 ^ 51 - 1)).
  { rewrite <- Zle_Qle. lia. }
  change (inject_Z (2 ^ 51 - 1)) with (2251799813685247 # 1) in HN2.
  unfold to_paise, from_paise, JS.mul, JS.div, JS.Math_round.
  set (N := inject_Z n) in *.
  assert (Ex : N / 100 * 100 == N) by field.
  assert (P7 : JS.pow2 (-1022) <= 1 # 128).
  { assert (E : JS.pow2 (-7) == 1 # 128) by reflexivity.
    rewrite <- E. apply pow2_le. lia. }
  assert (Hx : 0 < N / 100).
  { apply Qlt_shift_div_l; [reflexivity|]. lra. }
  assert (Hxn : JS.pow2 (-1022) <= N / 100).
  { eapply Qle_trans; [exact P7|]. apply Qle_shift_div_l; [reflexivity|]. lra. }
  pose proof (Qabs_bounds _ _ (fl_error (N / 100) Hx Hxn)) as [Y1 Y2].
  set (x := N / 100) in *. set (y := JS.fl x) in *.
  change (1 # 2 ^ 53) with (1 # 9007199254740992) in Y1, Y2.
  assert (Hp : 0 < y * 100) by lra.
  assert (Hpn : JS.pow2 (-1022) <= y * 100) by lra.
  pose proof (Qabs_bounds _ _ (fl_error (y * 100) Hp Hpn)) as [Z1 Z2].
  set (z := JS.fl (y * 100)) in *.
  change (1 # 2 ^ 53) with (1 # 9007199254740992) in Z1, Z2.
  apply Qfloor_unique.
  - fold N. lra.
  - rewrite inject_Z_plus. fold N. change (inject_Z 1) with 1. lra.
Qed.

Lemma pow2_lt (a b : Z) : (a < b)%Z -> JS.pow2 a < JS.pow2 b.
Proof.
  intros H.
  assert (E : JS.pow2 b == JS.pow2 a * JS.pow2 (b - a)).
  { rewrite <- pow2_plus. replace (a + (b - a))%Z with b by lia. reflexivity. }
  assert (H1 : 2 <= JS.pow2 (b - a)).
  { assert (E2 : JS.pow2 1 == 2) by reflexivity.
    rewrite <- E2. apply pow2_le. lia. }
  pose proof (pow2_pos a) as Pa.
  rewrite E. nra.
Qed.

Lemma ilog2_unique (q : Q) (k : Z) :
  JS.pow2 k <= q -> q < JS.pow2 (k + 1) -> JS.ilog2 q = k.
Proof.
  intros H1 H2.
  assert (Hq : 0 < q) by (eapply Qlt_le_trans; [apply (pow2_pos k)|exact H1]).
  destruct (ilog2_spec q Hq) as [L1 L2].
  destruct (Z.lt_trichotomy (JS.ilog2 q) k) as [H|[H|H]]; [exfalso|exact H|exfalso].
  - assert (JS.pow2 (JS.ilog2 q + 1) <= JS.pow2 k) by (apply pow2_le; lia). lra.
  - assert (JS.pow2 (k + 1) <= JS.pow2 (JS.ilog2 q)) by (apply pow2_le; lia). lra.
Qed.

Lemma ilog2_compat (x y : Q) : 0 < x -> x == y -> JS.ilog2 x = JS.ilog2 y.
Proof.
  intros Hx E. destruct (ilog2_spec x Hx) as [L1 L2].
  symmetry. apply ilog2_unique; rewrite <- E; assumption.
Qed.

Lemma round_ties_even_compat (x y : Q) :
  x == y -> JS.round_ties_even x = JS.round_ties_even y.
Proof.
  intros E. unfold JS.round_ties_even.
  rewrite (Qfloor_comp x y E).
  assert (C : Qcompare (x - inject_Z (Qfloor y)) (1 # 2)
              = Qcompare (y - inject_Z (Qfloor y)) (1 # 2)).
  { apply Qcompare_comp; [rewrite E; reflexivity|reflexivity]. }
  rewrite C. reflexivity.
Qed.

(** [fl] is a function of the number, not of the fraction that denotes it. *)
Lemma fl_compat (x y : Q) : x == y -> JS.fl x = JS.fl y.
Proof.
  intros E. unfold JS.fl.
  assert (E0 : Qeq_bool x 0 = Qeq_bool y 0).
  { destruct (Qeq_bool x 0) eqn:A, (Qeq_bool y 0) eqn:B; try reflexivity.
    - apply Qeq_bool_iff in A. rewrite E in A. apply Qeq_bool_iff in A. congruence.
    - apply Qeq_bool_iff in B. rewrite <- E in B. apply Qeq_bool_iff in B. congruence. }
  rewrite <- E0. destruct (Qeq_bool x 0) eqn:A; [reflexivity|].
  assert (Hx : 0 < Qabs x).
  { destruct (Qlt_le_dec 0 (Qabs x)) as [H|H]; [exact H|exfalso].
    pose proof (Qabs_nonneg x) as Hn.
    assert (Hz : Qabs x == 0) by lra.
    assert (Hx0 : x == 0).
    { pose proof (Qle_Qabs x) as U. pose proof (Qle_Qabs (- x)) as V.
      rewrite Qabs_opp in V. lra. }
    apply Qeq_bool_iff in Hx0. congruence. }
  assert (Ea : Qabs x == Qabs y) by (rewrite E; reflexivity).
  rewrite <- (ilog2_compat (Qabs x) (Qabs y) Hx Ea).
  set (e := Z.max _ _).
  apply Qred_complete.
  rewrite (round_ties_even_compat (x / JS.pow2 e) (y / JS.pow2 e)) by (rewrite E; reflexivity).
  reflexivity.
Qed.

Lemma to_paise_compat (x y : Q) : x == y -> to_paise x = to_paise y.
Proof.
  intros E. unfold to_paise, JS.mul.
  rewrite (fl_compat (x * 100) (y * 100)) by (rewrite E; reflexivity).
  reflexivity.
Qed.

Lemma round_ties_even_Z (m : Z) : JS.round_ties_even (inject_Z m) = m.
Proof.
  unfold JS.round_ties_even. rewrite Qfloor_Z.
  assert (C : Qcompare (inject_Z m - inject_Z m) (1 # 2) = Lt).
  { apply Qlt_alt. assert (Z0 : inject_Z m - inject_Z m == 0) by ring.
    rewrite Z0. reflexivity. }
  rewrite C. reflexivity.
Qed.

(** An integer below [2^53] is a double. *)
Lemma fl_Z (k : Z) : (0 <= k < 2 ^ 53)%Z -> JS.fl (inject_Z k) == inject_Z k.
Proof.
  intros [H0 H1].
  destruct (Z.eq_dec k 0) as [->|Hk]; [reflexivity|].
  assert (Hx : 0 < inject_Z k).
  { change 0 with (inject_Z 0). rewrite <- Zlt_Qlt. lia. }
  assert (Hx0 : ~ inject_Z k == 0) by lra.
  rewrite (fl_eq _ Hx0).
  rewrite (Qabs_pos_eq (inject_Z k)) by lra.
  destruct (ilog2_spec _ Hx) as [L1 L2].
  assert (HL0 : (0 <= JS.ilog2 (inject_Z k))%Z).
  { apply ilog2_lower; [exact Hx|].
    assert (E : JS.pow2 0 == 1) by reflexivity. rewrite E.
    change 1 with (inject_Z 1). rewrite <- Zle_Qle. lia. }
  assert (HL1 : (JS.ilog2 (inject_Z k) <= 52)%Z).
  { destruct (Z_le_gt_dec (JS.ilog2 (inject_Z k)) 52) as [H|H]; [exact H|exfalso].
    assert (B : JS.pow2 53 <= JS.pow2 (JS.ilog2 (inject_Z k))) by (apply pow2_le; lia).
    assert (U : inject_Z k < JS.pow2 53).
    { rewrite pow2_Z by lia. rewrite <- Zlt_Qlt. exact H1. }
    lra. }
  set (L := JS.ilog2 (inject_Z k)) in *.
  rewrite Z.max_l by lia.
  pose proof (pow2_pos (L - 52)) as Pe.
  assert (P1 : JS.pow2 (L - 52) * JS.pow2 (52 - L) == 1).
  { rewrite <- pow2_plus. replace (L - 52 + (52 - L))%Z with 0%Z by lia. reflexivity. }
  assert (P2 : JS.pow2 (52 - L) == inject_Z (2 ^ (52 - L))) by (apply pow2_Z; lia).
  set (p := JS.pow2 (L - 52)) in *. set (q := JS.pow2 (52 - L)) in *.
  assert (Hp : ~ p == 0) by lra.
  assert (Ed : inject_Z k / p == inject_Z (k * 2 ^ (52 - L))).
  { rewrite inject_Z_mult, <- P2.
    transitivity (inject_Z k * (p * q) / p); [rewrite P1; field; exact Hp|field; exact Hp]. }
  rewrite (round_ties_even_compat _ _ Ed), round_ties_even_Z.
  rewrite inject_Z_mult, <- P2.
  transitivity (inject_Z k * (p * q)); [ring|rewrite P1; ring].
Qed.

Lemma Math_round_compat (x y : Q) : x == y -> JS.Math_round x = JS.Math_round y.
Proof. intros E. unfold JS.Math_round. apply Qfloor_comp. rewrite E. reflexivity. Qed.

Lemma Math_round_Z (k : Z) : JS.Math_round (inject_Z k) = k.
Proof.
  unfold JS.Math_round. apply Qfloor_unique.
  - lra.
  - rewrite inject_Z_plus. change (inject_Z 1) with 1. lra.
Qed.

(** An amount whose hundredfold is an integer below [2^53]. *)
Lemma to_paise_exact (a : Q) (k : Z) :
  (0 <= k < 2 ^ 53)%Z -> a * 100 == inject_Z k -> to_paise a = k.
Proof.
  intros Hk E. unfold to_paise, JS.mul.
  rewrite (fl_compat _ _ E).
  rewrite (Math_round_compat _ _ (fl_Z k Hk)). apply Math_round_Z.
Qed.

Lemma from_paise_exact (a : Q) (k : Z) :
  JS.double a = true -> a * 100 == inject_Z k -> from_paise k == a.
Proof.
  intros Hd E. unfold from_paise, JS.div.
  assert (Ea : inject_Z k / 100 == a) by (rewrite <- E; field).
  rewrite (fl_compat _ _ Ea).
  unfold JS.double in Hd. apply andb_true_iff in Hd. destruct Hd as [Hd _].
  apply Qeq_bool_iff in Hd. exact Hd.
Qed.

(** Beyond [2^52] the round trip can lose a paisa. *)
Example to_paise_from_paise_large :
  to_paise (from_paise 8000000000000024) = 8000000000000023%Z.
Proof. vm_compute. reflexivity. Qed.

(** The products that exact arithmetic would round otherwise: the double
    nearest to 1.005 is sent as 100 paise and the double nearest to 0.015
    as 2, where the exact hundredfolds are just below 100.5 and 1.5. *)
Example double_products :
  to_paise (JS.fl (1005 # 1000)) = 100%Z
  /\ to_paise (JS.fl (15 # 1000)) = 2%Z
  /\ JS.mul (JS.fl (1 # 10)) 3 = 1351079888211149 # 4503599627370496.
Proof. repeat split; vm_compute; reflexivity. Qed.

(* ===================================================================== *)
(** ** Minor units *)
(* ===================================================================== *)

(** C9 (as amended). For every major-unit amount that crosses the gateway
    boundary (the amount of an accepted create-order request, the amount of
    a partial refund), the amount sent to the gateway is
    [Math.round(amount * 100)], the product being the one of doubles: the
    integer nearest to that product, a tie being rounded up (towards
    +infinity), not to the even neighbour.  For an amount of two decimals,
    the double nearest to [k / 100], this is [k]. *)
Theorem C9_minor_units_round_half_up gw now cb rb w a1 a2 pid :
  co_amount cb = Some a1 -> 0 < a1 ->
  JS.double a1 = true -> JS.finite (a1 * 100) = true ->
  JS.truthy_str (co_receipt cb) = true ->
  co_currency cb = JS.Value "INR" \/ co_currency cb = JS.Undefined ->
  payment_id rb = Some pid -> pid <> "" ->
  rf_amount rb = Some a2 -> 0 < a2 ->
  JS.double a2 = true -> JS.finite (a2 * 100) = true ->
  (exists opts,
      gateway_log (fst (create_order gw cb w))
      = (gateway_log w ++ [Razorpay.CallOrdersCreate opts])%list
      /\ Razorpay.oo_amount opts = JS.Math_round (JS.mul a1 100)
      /\ JS.mul a1 100 - (1 # 2) < inject_Z (Razorpay.oo_amount opts)
         <= JS.mul a1 100 + (1 # 2)
      /\ (forall k, (0 <= k < 2 ^ 51)%Z -> a1 == from_paise k ->
                    Razorpay.oo_amount opts = k))
  /\ (exists opts n,
         gateway_log (fst (refund gw now rb w))
         = (gateway_log w ++ [Razorpay.CallPaymentsRefund pid opts])%list
         /\ Razorpay.ro_amount opts = Some n
         /\ n = JS.Math_round (JS.mul a2 100)
         /\ JS.mul a2 100 - (1 # 2) < inject_Z n <= JS.mul a2 100 + (1 # 2)
         /\ (forall k, (0 <= k < 2 ^ 51)%Z -> a2 == from_paise k -> n = k)).
Proof.
  intros Ha1 Hpos1 _ _ Hrec Hcur Hpid Hne Ha2 Hpos2 _ _.
  destruct (positive_amount a1 Hpos1) as (T1 & L1 & _ & O1).
  destruct (positive_amount a2 Hpos2) as (T2 & _ & G2 & O2).
  split.
  - unfold create_order, try_catch, create_order_body.
    rewrite Ha1, T1, L1, Hrec, O1. cbn [negb orb].
    assert (Hc : currency_of cb = Some "INR").
    { unfold currency_of. destruct Hcur as [-> | ->]; reflexivity. }
    rewrite Hc. cbn [JS.includes supportedCurrencies existsb String.eqb Ascii.eqb
                     Bool.eqb orb negb].
    unfold bind, gateway.
    eexists. split.
    + destruct (Razorpay.orders_create gw _); reflexivity.
    + cbn [Razorpay.oo_amount]. split; [reflexivity|].
      split; [apply Math_round_nearest|].
      intros k Hk E. rewrite (to_paise_compat _ _ E).
      apply to_paise_from_paise. exact Hk.
  - exists (refundOptions pid rb), (JS.Math_round (JS.mul a2 100)).
    split; [apply refund_log; assumption|].
    split.
    + unfold refundOptions. rewrite Ha2, T2, G2, O2. reflexivity.
    + split; [reflexivity|]. split; [apply Math_round_nearest|].
      intros k Hk E. change (to_paise a2 = k). rewrite (to_paise_compat _ _ E).
      apply to_paise_from_paise. exact Hk.
Qed.

Lemma C9_minor_units_round_half_up_witness :
  (exists opts,
      gateway_log (fst (create_order Scenario.gw
                          (mkCreateOrderBody (Some 499) (JS.Value "INR") (Some "R-1") None)
                          Scenario.settled))
      = (gateway_log Scenario.settled ++ [Razorpay.CallOrdersCreate opts])%list
      /\ Razorpay.oo_amount opts = JS.Math_round (JS.mul 499 100)
      /\ JS.mul 499 100 - (1 # 2) < inject_Z (Razorpay.oo_amount opts)
         <= JS.mul 499 100 + (1 # 2)
      /\ (forall k, (0 <= k < 2 ^ 51)%Z -> 499 == from_paise k ->
                    Razorpay.oo_amount opts = k))
  /\ (exists opts n,
         gateway_log (fst (refund Scenario.gw 3000%N
                             (mkRefundBody (Some "pay_1") (Some 200) None) Scenario.settled))
         = (gateway_log Scenario.settled ++ [Razorpay.CallPaymentsRefund "pay_1" opts])%list
         /\ Razorpay.ro_amount opts = Some n
         /\ n = JS.Math_round (JS.mul 200 100)
         /\ JS.mul 200 100 - (1 # 2) < inject_Z n <= JS.mul 200 100 + (1 # 2)
         /\ (forall k, (0 <= k < 2 ^ 51)%Z -> 200 == from_paise k -> n = k)).
Proof.
  apply (C9_minor_units_round_half_up Scenario.gw 3000%N
           (mkCreateOrderBody (Some 499) (JS.Value "INR") (Some "R-1") None)
           (mkRefundBody (Some "pay_1") (Some 200) None)
           Scenario.settled 499 200 "pay_1").
  - reflexivity.
  - reflexivity.
  - vm_compute. reflexivity.
  - vm_compute. reflexivity.
  - reflexivity.
  - left; reflexivity.
  - reflexivity.
  - discriminate.
  - reflexivity.
  - reflexivity.
  - vm_compute. reflexivity.
  - vm_compute. reflexivity.
Defined.

(** An amount of 0.125 is sent as 13 paise; banker's rounding of 12.5 is
    12.  Both 0.125 and 12.5 are doubles, and the product is exact. *)
Lemma C9_counterexample :
  gateway_log (fst (create_order Scenario.gw
                      (mkCreateOrderBody (Some (1 # 8)) JS.Undefined (Some "R-1") None)
                      Scenario.empty))
  = [Razorpay.CallOrdersCreate (Razorpay.mkOrderOptions 13 "INR" "R-1" [])]
  /\ gateway_log (fst (refund Scenario.gw 3000%N
                         (mkRefundBody (Some "pay_1") (Some (1 # 8)) None) Scenario.empty))
     = [Razorpay.CallPaymentsRefund "pay_1"
          (Razorpay.mkRefundOptions "pay_1" [("reason", "Customer request")] (Some 13%Z))]
  /\ JS.double (1 # 8) = true
  /\ JS.mul (1 # 8) 100 == (1 # 8) * 100
  /\ Spec.round_half_even ((1 # 8) * 100) = 12%Z
  /\ 13%Z <> Spec.round_half_even ((1 # 8) * 100).
Proof.
  split; [vm_compute; reflexivity|].
  split; [vm_compute; reflexivity|].
  split; [vm_compute; reflexivity|].
  split; [vm_compute; reflexivity|].
  split; [vm_compute; reflexivity|].
  vm_compute. intros H. discriminate H.
Qed.

(* ===================================================================== *)
(** ** Refunds *)
(* ===================================================================== *)

(** C6 (as amended). For every refund request whose gateway payment id has
    no Payment record, the refund call is still sent to the gateway, nothing
    is written to the store, and the route answers with the gateway's
    outcome: success with the gateway's refund when the gateway accepts, a
    server error when it refuses.  No not-found error is raised. *)
Theorem C6_refund_without_payment_record gw now b w pid :
  payment_id b = Some pid -> pid <> "" ->
  Payment.lookup pid (db w) = None ->
  db (fst (refund gw now b w)) = db w
  /\ gateway_log (fst (refund gw now b w))
     = (gateway_log w ++ [Razorpay.CallPaymentsRefund pid (refundOptions pid b)])%list
  /\ snd (refund gw now b w)
     = match Razorpay.payments_refund gw pid (refundOptions pid b) with
       | Some rf =>
           ok 200 "Refund processed successfully"
             (DataRefund (Razorpay.gr_id rf) (from_paise (Razorpay.gr_amount rf))
                (Razorpay.gr_status rf) (Razorpay.gr_created_at rf))
       | None => caught "Failed to process refund" (GatewayError "payments.refund")
       end.
Proof.
  intros Hp Hne Hl. rewrite (refund_run gw now b w pid Hp Hne). cbv zeta.
  rewrite Hl.
  destruct (Razorpay.payments_refund gw pid (refundOptions pid b)); auto.
Qed.

Lemma C6_refund_without_payment_record_witness :
  db (fst (refund Scenario.gw 3000%N (mkRefundBody (Some "pay_404") None None)
             Scenario.settled)) = db Scenario.settled
  /\ gateway_log (fst (refund Scenario.gw 3000%N (mkRefundBody (Some "pay_404") None None)
                         Scenario.settled))
     = (gateway_log Scenario.settled
        ++ [Razorpay.CallPaymentsRefund "pay_404"
              (refundOptions "pay_404" (mkRefundBody (Some "pay_404") None None))])%list
  /\ snd (refund Scenario.gw 3000%N (mkRefundBody (Some "pay_404") None None)
            Scenario.settled)
     = match Razorpay.payments_refund Scenario.gw "pay_404"
               (refundOptions "pay_404" (mkRefundBody (Some "pay_404") None None)) with
       | Some rf =>
           ok 200 "Refund processed successfully"
             (DataRefund (Razorpay.gr_id rf) (from_paise (Razorpay.gr_amount rf))
                (Razorpay.gr_status rf) (Razorpay.gr_created_at rf))
       | None => caught "Failed to process refund" (GatewayError "payments.refund")
       end.
Proof.
  apply (C6_refund_without_payment_record Scenario.gw 3000%N
           (mkRefundBody (Some "pay_404") None None) Scenario.settled "pay_404").
  - reflexivity.
  - discriminate.
  - vm_compute; reflexivity.
Defined.

(** No Payment is stored under ["pay_404"]; the refund is sent to the
    gateway all the same and the route answers with success. *)
Lemma C6_counterexample :
  let r := refund Scenario.gw 3000%N (mkRefundBody (Some "pay_404") None None)
             Scenario.settled in
  Payment.lookup "pay_404" (db Scenario.settled) = None
  /\ success (snd r) = true
  /\ statusCode (snd r) = 200%nat
  /\ In (Razorpay.CallPaymentsRefund "pay_404"
           (Razorpay.mkRefundOptions "pay_404" [("reason", "Customer request")] None))
        (gateway_log (fst r)).
Proof.
  cbv zeta.
  split; [vm_compute; reflexivity|].
  split; [vm_compute; reflexivity|].
  split; [vm_compute; reflexivity|].
  vm_compute. right. left. reflexivity.
Qed.

(** A refund that the gateway reports as ["processed"] is never saved:
    that word is not one of the values of [refundDetails.refundStatus]. *)
Lemma processed_refund_not_saved gw now b w pid rf p :
  payment_id b = Some pid -> pid <> "" ->
  Razorpay.payments_refund gw pid (refundOptions pid b) = Some rf ->
  Razorpay.gr_status rf = "processed" ->
  Payment.lookup pid (db w) = Some p ->
  db (fst (refund gw now b w)) = db w
  /\ statusCode (snd (refund gw now b w)) = 500%nat
  /\ PaymentDoc.status (refunded now b rf p)
     = (if Qeq_bool (inject_Z (Razorpay.gr_amount rf))
             (JS.mul (total (PaymentDoc.amount p)) 100)
        then "Refunded" else "Partially Refunded").
Proof.
  intros Hp Hne Hrf Hst Hl. rewrite (refund_run gw now b w pid Hp Hne). cbv zeta.
  rewrite Hrf, Hl.
  unfold Payment.save, bind, lift, refunded. rewrite Hst.
  cbn [String.eqb Ascii.eqb Bool.eqb andb].
  unfold Payment.validate_refund, Payment.set_status, Payment.set_refundDetails;
    cbn [PaymentDoc.refundDetails PaymentDoc.refundAmount PaymentDoc.refundStatus
         PaymentDoc.status].
  destruct (Schema.optional_min _ _ _); cbn; auto.
Qed.

(** A refund the gateway refuses leaves the store as it was. *)
Lemma refused_refund_no_writes gw now b w :
  (forall pid o, Razorpay.payments_refund gw pid o = None) ->
  db (fst (refund gw now b w)) = db w /\ success (snd (refund gw now b w)) = false.
Proof.
  intros Hgw. unfold refund, try_catch, refund_body.
  destruct (JS.truthy_str (payment_id b)); cbn [negb]; [|auto].
  unfold bind at 1. unfold gateway. rewrite Hgw. auto.
Qed.

(** C5. The code at the failing input: against the settled Payment of
    499.00, the gateway confirms ("processed") a full refund of 49900 paise
    and a partial refund of 20000 paise.  In both cases the route assigns the
    new status in memory, but saving is refused because "processed" is not
    among the values of [refundDetails.refundStatus] ("Pending",
    "Processed", "Failed"): the stored Payment keeps status "Completed" and
    the route answers with a server error. *)
Theorem C5_processed_refund_leaves_status :
  let full := mkRefundBody (Some "pay_1") None None in
  let part := mkRefundBody (Some "pay_1") (Some 200) None in
  map PaymentDoc.status (payments (db Scenario.settled)) = ["Completed"]
  /\ map (fun p => total (PaymentDoc.amount p)) (payments (db Scenario.settled)) = [499]
  /\ Razorpay.payments_refund Scenario.gw "pay_1" (refundOptions "pay_1" full)
     = Some (Razorpay.mkGatewayRefund "rfnd_1" 49900 "processed" 2%N)
  /\ Razorpay.payments_refund Scenario.gw "pay_1" (refundOptions "pay_1" part)
     = Some (Razorpay.mkGatewayRefund "rfnd_1" 20000 "processed" 2%N)
  /\ db (fst (refund Scenario.gw 3000%N full Scenario.settled)) = db Scenario.settled
  /\ snd (refund Scenario.gw 3000%N full Scenario.settled)
     = caught "Failed to process refund" (ValidationError "refundDetails.refundStatus")
  /\ db (fst (refund Scenario.gw 3000%N part Scenario.settled)) = db Scenario.settled
  /\ snd (refund Scenario.gw 3000%N part Scenario.settled)
     = caught "Failed to process refund" (ValidationError "refundDetails.refundStatus").
Proof.
  cbv zeta.
  split; [vm_compute; reflexivity|].
  split; [vm_compute; reflexivity|].
  split; [vm_compute; reflexivity|].
  split; [vm_compute; reflexivity|].
  split; [vm_compute; reflexivity|].
  split; [vm_compute; reflexivity|].
  split; [vm_compute; reflexivity|].
  vm_compute; reflexivity.
Qed.

(* ===================================================================== *)
(** ** Payment status updates *)
(* ===================================================================== *)

(** C7. The code on every status-update request: a status that is not
    recognized is rejected with a client error; a recognized one always ends
    in a server error, because the update document reads the binding
    [payment] that the same statement declares.  In both cases the world is
    left as it was: no Payment is updated, no timestamp is set. *)
Theorem C7_status_update_never_updates now id status w :
  PaymentRoutes.update_status now id status w
  = (w,
     if match status with
        | Some v => JS.includes PaymentRoutes.validStatuses v
        | None => false
        end
     then caught "Something went wrong!" (ReferenceError "payment")
     else fail 400 "Invalid status"
            ("Status must be one of: " ++ JS.join ", " PaymentRoutes.validStatuses)).
Proof.
  unfold PaymentRoutes.update_status, try_catch, PaymentRoutes.update_status_body.
  destruct (match status with
            | Some v => JS.includes PaymentRoutes.validStatuses v
            | None => false
            end); reflexivity.
Qed.

Example status_update_completed :
  PaymentRoutes.update_status 4000%N "000000000000000000000002" (Some "Completed")
    Scenario.settled
  = (Scenario.settled, caught "Something went wrong!" (ReferenceError "payment")).
Proof. reflexivity. Qed.

(** When the gateway is unreachable nothing is written. *)
Example gateway_unreachable :
  db (fst (verify_payment Scenario.gw_down 1000%N Scenario.callback Scenario.empty))
  = db Scenario.empty
  /\ snd (verify_payment Scenario.gw_down 1000%N Scenario.callback Scenario.empty)
     = caught "Failed to verify payment" (GatewayError "payments.fetch")
  /\ db (fst (refund Scenario.gw_down 3000%N (mkRefundBody (Some "pay_1") None None)
                Scenario.settled))
     = db Scenario.settled
  /\ snd (refund Scenario.gw_down 3000%N (mkRefundBody (Some "pay_1") None None)
            Scenario.settled)
     = caught "Failed to process refund" (GatewayError "payments.refund").
Proof.
  split; [vm_compute; reflexivity|].
  split; [vm_compute; reflexivity|].
  split; [vm_compute; reflexivity|].
  vm_compute; reflexivity.
Qed.

(* ===================================================================== *)
(** ** Generated numbers can be read back *)
(* ===================================================================== *)

Lemma uint_of_zeros (k : nat) (s : string) :
  NilEmpty.uint_of_string (string_of_list_ascii (repeat "0"%char k) ++ s)
  = option_map (Nat.iter k Decimal.D0) (NilEmpty.uint_of_string s).
Proof.
  induction k as [|k IH]; cbn [repeat string_of_list_ascii String.append Nat.iter].
  - destruct (NilEmpty.uint_of_string s); reflexivity.
  - cbn [NilEmpty.uint_of_string]. rewrite IH.
    destruct (NilEmpty.uint_of_string s); reflexivity.
Qed.

Lemma of_uint_zeros (k : nat) (d : Decimal.uint) :
  N.of_uint (Nat.iter k Decimal.D0 d) = N.of_uint d.
Proof. induction k as [|k IH]; [reflexivity|]. cbn [Nat.iter]. exact IH. Qed.

Lemma read_ordinal_ordinal (n : N) :
  Numbering.read_ordinal (Numbering.ordinal n) = Some n.
Proof.
  unfold Numbering.read_ordinal, Numbering.ordinal, JS.padStart0, JS.String_of_N.
  rewrite uint_of_zeros, NilEmpty.usu. cbn [option_map].
  rewrite of_uint_zeros, Unsigned.of_to. reflexivity.
Qed.

Lemma substring_all (s : string) : substring 0 (String.length s) s = s.
Proof. induction s as [|c s IH]; [reflexivity|]. cbn. rewrite IH. reflexivity. Qed.

Lemma substring_none (s : string) : substring 0 0 s = "".
Proof. destruct s; reflexivity. Qed.

Lemma read_number_ORD (x : string) :
  Numbering.read_number "ORD-" ("ORD-" ++ x) = Numbering.read_ordinal x.
Proof.
  unfold Numbering.read_number.
  change (substring 0 4 ("ORD-" ++ x)) with ("ORD-" ++ substring 0 0 x).
  change (substring 4 (String.length ("ORD-" ++ x) - 4) ("ORD-" ++ x))
    with (substring 0 (String.length x - 0) x).
  rewrite substring_none, Nat.sub_0_r, substring_all. reflexivity.
Qed.

Lemma read_number_PAY (x : string) :
  Numbering.read_number "PAY-" ("PAY-" ++ x) = Numbering.read_ordinal x.
Proof.
  unfold Numbering.read_number.
  change (substring 0 4 ("PAY-" ++ x)) with ("PAY-" ++ substring 0 0 x).
  change (substring 4 (String.length ("PAY-" ++ x) - 4) ("PAY-" ++ x))
    with (substring 0 (String.length x - 0) x).
  rewrite substring_none, Nat.sub_0_r, substring_all. reflexivity.
Qed.

Lemma order_number_injective (n m : N) :
  Numbering.order_number n = Numbering.order_number m -> n = m.
Proof.
  intros H. apply (f_equal (Numbering.read_number "ORD-")) in H.
  unfold Numbering.order_number in H.
  rewrite !read_number_ORD, !read_ordinal_ordinal in H. congruence.
Qed.

(** X1. The number a hook prints can be read back: an order created
    without a number gets "ORD-" followed by digits that denote the size of
    the collection plus one, and a payment created without an id gets "PAY-"
    and the size of its collection plus one, with or without padding. *)
Theorem created_numbers_read_back now po pp w :
  JS.truthy_str (Payload.orderNumber po) = false ->
  JS.truthy_str (Payload.paymentId pp) = false ->
  match snd (Order.create now po w) with
  | inr o =>
      Numbering.read_number "ORD-" (OrderDoc.orderNumber o)
      = Some (N.of_nat (List.length (orders (db w))) + 1)%N
  | inl _ => True
  end
  /\ match snd (Payment.create now pp w) with
     | inr p =>
         Numbering.read_number "PAY-" (PaymentDoc.paymentId p)
         = Some (N.of_nat (List.length (payments (db w))) + 1)%N
     | inl _ => True
     end.
Proof.
  intros Ho Hp. split.
  - destruct (Order.create now po w) as [w' [e|o]] eqn:Hc; cbn [snd]; [exact I|].
    apply Order_create_inr in Hc. destruct Hc as (doc & Hv & -> & _).
    apply Order_validate_inv in Hv. destruct Hv as (_ & Hn & _).
    assert (E : OrderDoc.orderNumber doc = "").
    { rewrite Hn. destruct (Payload.orderNumber po) as [s|]; [|reflexivity].
      cbn in *. destruct (String.eqb s "") eqn:E; [reflexivity|discriminate Ho]. }
    unfold Order.pre_save. rewrite E.
    cbn [String.eqb OrderDoc.orderNumber].
    fold (Numbering.ordinal (N.of_nat (List.length (orders (db w))) + 1)).
    rewrite read_number_ORD. apply read_ordinal_ordinal.
  - destruct (Payment.create now pp w) as [w' [e|p]] eqn:Hc; cbn [snd]; [exact I|].
    apply Payment_create_inr in Hc. destruct Hc as (doc & Hv & -> & _).
    apply Payment_validate_inv in Hv. destruct Hv as (_ & Hn & _).
    assert (E : PaymentDoc.paymentId doc = "").
    { rewrite Hn. destruct (Payload.paymentId pp) as [s|]; [|reflexivity].
      cbn in *. destruct (String.eqb s "") eqn:E; [reflexivity|discriminate Hp]. }
    unfold Payment.pre_save. rewrite E.
    cbn [String.eqb PaymentDoc.paymentId Payment.with_paymentId].
    fold (Numbering.ordinal (N.of_nat (List.length (payments (db w))) + 1)).
    rewrite read_number_PAY. apply read_ordinal_ordinal.
Qed.

Lemma created_numbers_read_back_witness :
  match snd (Order.create 10%N Fixtures.order_body Scenario.settled) with
  | inr o =>
      Numbering.read_number "ORD-" (OrderDoc.orderNumber o)
      = Some (N.of_nat (List.length (orders (db Scenario.settled))) + 1)%N
  | inl _ => True
  end
  /\ match snd (Payment.create 10%N (PaymentRouter.payload_of Fixtures.payment_body)
                  Scenario.settled) with
     | inr p =>
         Numbering.read_number "PAY-" (PaymentDoc.paymentId p)
         = Some (N.of_nat (List.length (payments (db Scenario.settled))) + 1)%N
     | inl _ => True
     end.
Proof.
  apply (created_numbers_read_back 10%N Fixtures.order_body
           (PaymentRouter.payload_of Fixtures.payment_body) Scenario.settled);
    reflexivity.
Defined.

(** In the settled store the next order is ORD-000002 and a payment
    created without an id is PAY-000002. *)
Example next_numbers :
  match snd (Order.create 10%N Fixtures.order_body Scenario.settled),
        snd (Payment.create 10%N (PaymentRouter.payload_of Fixtures.payment_body)
               Scenario.settled) with
  | inr o, inr p =>
      OrderDoc.orderNumber o = "ORD-000002" /\ PaymentDoc.paymentId p = "PAY-000002"
  | _, _ => False
  end.
Proof. vm_compute. split; reflexivity. Qed.

(* ===================================================================== *)
(** ** Numbering invariant *)
(* ===================================================================== *)

Lemma pre_save_unnumbered count doc :
  OrderDoc.orderNumber doc = "" ->
  OrderDoc.orderNumber (Order.pre_save count doc)
  = Numbering.order_number (N.of_nat count + 1).
Proof. intros H. unfold Order.pre_save. rewrite H. reflexivity. Qed.

Lemma validate_unnumbered id now p doc :
  JS.truthy_str (Payload.orderNumber p) = false ->
  Order.validate id now p = inr doc ->
  OrderDoc.orderNumber doc = "".
Proof.
  intros Hn Hv. apply Order_validate_inv in Hv. destruct Hv as (_ & -> & _).
  destruct (Payload.orderNumber p) as [s|]; [|reflexivity].
  cbn in *. destruct (String.eqb s "") eqn:E; [reflexivity|discriminate Hn].
Qed.

Lemma consecutive_free (l : list OrderDoc.t) (d : DB) :
  orders d = l -> Numbering.consecutive l ->
  Order.number_taken (Numbering.order_number (N.of_nat (List.length l) + 1)) d = false.
Proof.
  intros Hd Hc. unfold Order.number_taken. rewrite Hd.
  destruct (existsb _ l) eqn:E; [|reflexivity].
  apply existsb_exists in E. destruct E as (o & Hin & He).
  apply String.eqb_eq in He.
  apply In_nth_error in Hin. destruct Hin as (i & Hi).
  pose proof (Hc i o Hi) as Hnum. rewrite Hnum in He.
  apply order_number_injective in He.
  assert (i < List.length l)%nat by (apply nth_error_Some; congruence).
  lia.
Qed.

Lemma consecutive_snoc (l : list OrderDoc.t) (o : OrderDoc.t) :
  Numbering.consecutive l ->
  OrderDoc.orderNumber o = Numbering.order_number (N.of_nat (List.length l) + 1) ->
  Numbering.consecutive (l ++ [o]).
Proof.
  intros Hc Ho i x Hi.
  destruct (Nat.lt_ge_cases i (List.length l)) as [Hlt|Hge].
  - rewrite nth_error_app1 in Hi by exact Hlt. apply Hc. exact Hi.
  - rewrite nth_error_app2 in Hi by exact Hge.
    destruct (i - List.length l)%nat as [|k] eqn:Ek; cbn in Hi.
    + inversion Hi; subst x. rewrite Ho. f_equal. lia.
    + destruct k; discriminate Hi.
Qed.

(** X2. In a store whose orders carry the numbers 1, 2, ... in order of
    insertion, creating an order without a number, with a payload that
    passes the schema, always succeeds: the unique index never refuses it,
    the order gets the next number, and the numbering stays consecutive. *)
Theorem create_keeps_numbering now p w doc :
  Numbering.consecutive (orders (db w)) ->
  JS.truthy_str (Payload.orderNumber p) = false ->
  Order.validate (next_oid w) now p = inr doc ->
  exists o,
    snd (Order.create now p w) = inr o
    /\ orders (db (fst (Order.create now p w))) = (orders (db w) ++ [o])%list
    /\ OrderDoc.orderNumber o
       = Numbering.order_number (N.of_nat (List.length (orders (db w))) + 1)
    /\ Numbering.consecutive (orders (db (fst (Order.create now p w)))).
Proof.
  intros Hc Hn Hv.
  pose proof (validate_unnumbered _ _ _ _ Hn Hv) as Hdoc.
  pose proof (pre_save_unnumbered (List.length (orders (db w))) doc Hdoc) as Hnum.
  assert (Hfree : Order.number_taken
                    (OrderDoc.orderNumber (Order.pre_save (List.length (orders (db w))) doc))
                    (db w) = false).
  { rewrite Hnum. apply consecutive_free; [reflexivity|exact Hc]. }
  rewrite (Order_create_ok now p w doc Hv Hfree). cbn [fst snd db orders].
  exists (Order.pre_save (List.length (orders (db w))) doc).
  split; [reflexivity|]. split; [reflexivity|]. split; [exact Hnum|].
  apply consecutive_snoc; assumption.
Qed.

Lemma create_keeps_numbering_witness :
  exists o,
    snd (Order.create 10%N Fixtures.order_body Scenario.empty) = inr o
    /\ orders (db (fst (Order.create 10%N Fixtures.order_body Scenario.empty)))
       = (orders (db Scenario.empty) ++ [o])%list
    /\ OrderDoc.orderNumber o
       = Numbering.order_number (N.of_nat (List.length (orders (db Scenario.empty))) + 1)
    /\ Numbering.consecutive
         (orders (db (fst (Order.create 10%N Fixtures.order_body Scenario.empty)))).
Proof.
  destruct (Order.validate (next_oid Scenario.empty) 10%N Fixtures.order_body)
    as [e|doc] eqn:Hv.
  - exfalso. vm_compute in Hv. discriminate Hv.
  - apply (create_keeps_numbering 10%N Fixtures.order_body Scenario.empty doc).
    + intros i o H. destruct i; discriminate H.
    + reflexivity.
    + exact Hv.
Defined.

(* ===================================================================== *)
(** ** DELETE /api/orders/:id *)
(* ===================================================================== *)

Lemma delete_run id i w :
  Schema.castObjectId id = Some i ->
  OrderRouter.delete id w
  = match find (Store.order_has_id i) (orders (db w)) with
    | None => (w, fail 404 "Order not found" "No order found with the provided ID")
    | Some _ =>
        (mkWorld (mkDB (Store.remove_first (Store.order_has_id i) (orders (db w)))
                       (Store.remove_first (Store.payment_of_order i) (payments (db w))))
                 (next_oid w) (gateway_log w),
         ok 200 "Order deleted successfully" NoData)
    end.
Proof.
  intros Hc.
  unfold OrderRouter.delete, try_catch, OrderRouter.delete_body,
    Store.Order_findByIdAndDelete, Store.Payment_deleteOne_orderId, Store.cast_id,
    Schema.required_oid.
  rewrite Hc.
  cbv beta iota zeta delta [bind lift get_db put_db ret].
  destruct (find (Store.order_has_id i) (orders (db w))); [|destruct w; reflexivity].
  reflexivity.
Qed.

Lemma remove_first_app_found {A : Type} (f : A -> bool) (l r : list A) :
  find f l <> None ->
  Store.remove_first f (l ++ r) = (Store.remove_first f l ++ r)%list
  /\ S (List.length (Store.remove_first f l)) = List.length l.
Proof.
  induction l as [|a l IH]; cbn; [congruence|].
  destruct (f a); [auto|].
  intros H. destruct (IH H) as [E L]. cbn. rewrite E, L. auto.
Qed.

(** A creation that needs a number already taken persists nothing. *)
Lemma create_collides now p w :
  JS.truthy_str (Payload.orderNumber p) = false ->
  Order.number_taken
    (Numbering.order_number (N.of_nat (List.length (orders (db w))) + 1)) (db w) = true ->
  db (fst (Order.create now p w)) = db w
  /\ exists e, snd (Order.create now p w) = inl e.
Proof.
  intros Hn Ht.
  destruct (Order.create now p w) as [w' [e|o]] eqn:Hc.
  - apply Order_create_inv in Hc. destruct Hc as (_ & _ & Hdb). cbn. eauto.
  - exfalso. apply Order_create_inr in Hc.
    destruct Hc as (doc & Hv & -> & Hfree & _).
    rewrite (pre_save_unnumbered _ _ (validate_unnumbered _ _ _ _ Hn Hv)) in Hfree.
    congruence.
Qed.

Lemma find_app_found {A : Type} (f : A -> bool) (l r : list A) :
  find f l <> None -> find f (l ++ r) = find f l.
Proof.
  induction l as [|a l IH]; cbn; [congruence|].
  destruct (f a); auto.
Qed.

(** After the deletion of an order that is not the last one, the number
    the next order would get is the number of the last order. *)
Lemma deleted_number_taken id i w os olast :
  Numbering.consecutive (orders (db w)) ->
  orders (db w) = (os ++ [olast])%list ->
  Schema.castObjectId id = Some i ->
  find (Store.order_has_id i) os <> None ->
  success (snd (OrderRouter.delete id w)) = true
  /\ gateway_log (fst (OrderRouter.delete id w)) = gateway_log w
  /\ Order.number_taken
       (Numbering.order_number
          (N.of_nat (List.length (orders (db (fst (OrderRouter.delete id w))))) + 1))
       (db (fst (OrderRouter.delete id w))) = true.
Proof.
  intros Hc Hos Hid Hfound.
  rewrite (delete_run id i w Hid).
  assert (Hf : find (Store.order_has_id i) (orders (db w)) <> None).
  { rewrite Hos, (find_app_found _ os [olast] Hfound). exact Hfound. }
  destruct (find (Store.order_has_id i) (orders (db w))) as [o|]; [|congruence].
  cbn [fst snd db orders gateway_log]. split; [reflexivity|]. split; [reflexivity|].
  rewrite Hos.
  destruct (remove_first_app_found (Store.order_has_id i) os [olast] Hfound) as [E L].
  rewrite E. unfold Order.number_taken. cbn [orders].
  apply existsb_exists. exists olast. split; [apply in_or_app; right; left; reflexivity|].
  apply String.eqb_eq.
  rewrite (Hc (List.length os) olast).
  - f_equal. rewrite length_app. cbn [List.length]. lia.
  - rewrite Hos, nth_error_app2 by lia. rewrite Nat.sub_diag. reflexivity.
Qed.

(** X3. Order numbers are derived from the size of the collection.  In
    a consecutively numbered store, once an order other than the last one
    has been deleted, the next number is the number of the last order, which
    the unique index refuses.  A request to the generic creation route
    (without a number) or to the verification route that comes next persists
    nothing and does not succeed, whatever it carries and whatever the
    gateway answers. *)
Theorem delete_then_create_collides gw now id i p b w os olast :
  Numbering.consecutive (orders (db w)) ->
  orders (db w) = (os ++ [olast])%list ->
  Schema.castObjectId id = Some i ->
  find (Store.order_has_id i) os <> None ->
  JS.truthy_str (Payload.orderNumber p) = false ->
  success (snd (OrderRouter.delete id w)) = true
  /\ (db (fst (OrderRoutes.create now p (fst (OrderRouter.delete id w))))
      = db (fst (OrderRouter.delete id w))
      /\ success (snd (OrderRoutes.create now p (fst (OrderRouter.delete id w)))) = false)
  /\ (db (fst (verify_payment gw now b (fst (OrderRouter.delete id w))))
      = db (fst (OrderRouter.delete id w))
      /\ success (snd (verify_payment gw now b (fst (OrderRouter.delete id w)))) = false).
Proof.
  intros Hc Hos Hid Hfound Hn.
  destruct (deleted_number_taken id i w os olast Hc Hos Hid Hfound) as (Hs & _ & Ht).
  split; [exact Hs|].
  set (w1 := fst (OrderRouter.delete id w)) in *.
  split.
  - destruct (create_collides now p w1 Hn Ht) as [Hdb [e He]].
    unfold OrderRoutes.create, try_catch, OrderRoutes.create_body.
    destruct (Payload.customerInfo p); [|auto].
    destruct (Payload.items p); [|auto].
    destruct (Payload.pricing p); [|auto].
    destruct (Nat.eqb _ _); [auto|].
    destruct (negb _ || _)%bool; [auto|].
    unfold bind. destruct (Order.create now p w1) as [w2 [e'|o']]; cbn in *.
    + auto.
    + discriminate He.
  - assert (blocked : forall c w' o,
               Order.create now (orderPayload (payment_id_of b) (orderData b)) (logged c w1)
               <> (w', inr o)).
    { intros c w' o Ho.
      destruct (create_collides now (orderPayload (payment_id_of b) (orderData b))
                  (logged c w1) eq_refl Ht) as [_ [e He]].
      rewrite Ho in He. discriminate He. }
    destruct (verify_payment_settlement gw now b w1)
      as [| | |payment w2 e Hm Ha Hf Ho|payment w2 w3 o e Hm Ha Hf Ho Hp
          |payment w2 w3 o q Hm Ha Hf Ho Hp].
    + auto.
    + auto.
    + auto.
    + apply Order_create_inv in Ho. destruct Ho as (_ & _ & Hdb). auto.
    + exfalso. exact (blocked _ _ _ Ho).
    + exfalso. exact (blocked _ _ _ Ho).
Qed.

Lemma two_orders_shape :
  exists o1 o2,
    orders (db Fixtures.two_orders) = [o1; o2]
    /\ OrderDoc.orderNumber o1 = Numbering.order_number 1
    /\ OrderDoc.orderNumber o2 = Numbering.order_number 2
    /\ Store.order_has_id 1%N o1 = true.
Proof.
  vm_compute. do 2 eexists.
  split; [reflexivity|]. split; [reflexivity|]. split; reflexivity.
Defined.

Lemma delete_then_create_collides_witness :
  success (snd (OrderRouter.delete Fixtures.first_id Fixtures.two_orders)) = true
  /\ (db (fst (OrderRoutes.create 30%N Fixtures.order_body
                 (fst (OrderRouter.delete Fixtures.first_id Fixtures.two_orders))))
      = db (fst (OrderRouter.delete Fixtures.first_id Fixtures.two_orders))
      /\ success (snd (OrderRoutes.create 30%N Fixtures.order_body
                         (fst (OrderRouter.delete Fixtures.first_id Fixtures.two_orders))))
         = false)
  /\ (db (fst (verify_payment Scenario.gw 30%N Scenario.callback
                 (fst (OrderRouter.delete Fixtures.first_id Fixtures.two_orders))))
      = db (fst (OrderRouter.delete Fixtures.first_id Fixtures.two_orders))
      /\ success (snd (verify_payment Scenario.gw 30%N Scenario.callback
                         (fst (OrderRouter.delete Fixtures.first_id Fixtures.two_orders))))
         = false).
Proof.
  destruct two_orders_shape as (o1 & o2 & E & N1 & N2 & I1).
  apply (delete_then_create_collides Scenario.gw 30%N Fixtures.first_id 1%N
           Fixtures.order_body Scenario.callback Fixtures.two_orders [o1] o2).
  - rewrite E. intros i o H.
    destruct i as [|[|i]]; cbn in H.
    + inversion H; subst o. exact N1.
    + inversion H; subst o. exact N2.
    + destruct i; discriminate H.
  - exact E.
  - reflexivity.
  - cbn [find]. rewrite I1. discriminate.
  - reflexivity.
Defined.

(* ===================================================================== *)
(** ** Settle, then delete *)
(* ===================================================================== *)

Lemma find_fresh_last {A : Type} (f : A -> bool) (l : list A) (x : A) :
  (forall a, In a l -> f a = false) -> f x = true ->
  find f (l ++ [x]) = Some x /\ Store.remove_first f (l ++ [x]) = l.
Proof.
  intros Hl Hx. induction l as [|a l IH]; cbn.
  - rewrite Hx. auto.
  - rewrite (Hl a (or_introl eq_refl)).
    destruct IH as [E1 E2]; [intros b Hb; apply Hl; right; exact Hb|].
    rewrite E1, E2. auto.
Qed.

(** X4. A settlement followed by the deletion of the order it created
    gives back the two collections as they were: the Order goes, and the
    cascade removes the Payment created with it.  The draft must not name an
    order of its own, and the identity handed to the new order must be
    fresh. *)
Theorem settle_then_delete_restores gw now b w id :
  success (snd (verify_payment gw now b w)) = true ->
  JS.truthy_str (chain (orderData b) Draft.orderId) = false ->
  Schema.castObjectId id = Some (next_oid w) ->
  (forall o, In o (orders (db w)) -> OrderDoc._id o <> next_oid w) ->
  (forall p, In p (payments (db w)) -> PaymentDoc.orderId p <> next_oid w) ->
  success (snd (OrderRouter.delete id (fst (verify_payment gw now b w)))) = true
  /\ db (fst (OrderRouter.delete id (fst (verify_payment gw now b w)))) = db w.
Proof.
  intros Hs Hdraft Hid Hfo Hfp.
  pose proof (verify_payment_settlement gw now b w) as S.
  destruct (success_recorded _ _ _ _ _ _ S Hs)
    as (payment & w1 & o & p & Hm & Hf & Ho & Hp & Hr).
  destruct (recorded_appends _ _ _ _ _ _ _ _ _ Ho Hp) as [Hord Hpay].
  assert (Hoid : OrderDoc._id o = next_oid w).
  { apply Order_create_inr in Ho. destruct Ho as (doc & Hv & -> & _).
    apply Order_validate_inv in Hv. destruct Hv as (Hi & _).
    destruct (Order_pre_save_fields
                (List.length (orders (db (logged (Razorpay.CallPaymentsFetch (payment_id_of b)) w))))
                doc) as (-> & _).
    exact Hi. }
  assert (Hpoid : PaymentDoc.orderId p = next_oid w).
  { apply Payment_create_inr in Hp. destruct Hp as (doc & Hv & -> & _).
    apply Payment_validate_inv in Hv. destruct Hv as (_ & _ & Hv & _).
    destruct (Payment_pre_save_fields (List.length (payments (db w1))) doc) as (-> & _).
    cbn in Hv. rewrite Hdraft in Hv. cbn in Hv. inversion Hv. congruence. }
  rewrite (delete_run id (next_oid w) _ Hid). rewrite Hord, Hpay.
  destruct (find_fresh_last (Store.order_has_id (next_oid w)) (orders (db w)) o) as [E1 E2].
  { intros a Ha. apply N.eqb_neq. apply Hfo. exact Ha. }
  { apply N.eqb_eq. exact Hoid. }
  destruct (find_fresh_last (Store.payment_of_order (next_oid w)) (payments (db w)) p)
    as [_ E3].
  { intros a Ha. apply N.eqb_neq. apply Hfp. exact Ha. }
  { apply N.eqb_eq. exact Hpoid. }
  rewrite E1, E2, E3. cbn. split; [reflexivity|]. destruct (db w); reflexivity.
Qed.

Lemma settle_then_delete_restores_witness :
  success (snd (OrderRouter.delete Fixtures.first_id
                  (fst (verify_payment Scenario.gw 1000%N Scenario.callback Scenario.empty))))
  = true
  /\ db (fst (OrderRouter.delete Fixtures.first_id
                (fst (verify_payment Scenario.gw 1000%N Scenario.callback Scenario.empty))))
     = db Scenario.empty.
Proof.
  apply (settle_then_delete_restores Scenario.gw 1000%N Scenario.callback Scenario.empty
           Fixtures.first_id).
  - vm_compute. reflexivity.
  - reflexivity.
  - reflexivity.
  - intros o H. destruct H.
  - intros p H. destruct H.
Defined.

(* ===================================================================== *)
(** ** PUT /api/orders/:id/status *)
(* ===================================================================== *)

Lemma update_first_find i f l o :
  find (Store.order_has_id i) l = Some o ->
  (forall x, OrderDoc._id (f x) = OrderDoc._id x) ->
  find (Store.order_has_id i) (Store.update_first i f l) = Some (f o)
  /\ (forall j, j <> i ->
        find (Store.order_has_id j) (Store.update_first i f l)
        = find (Store.order_has_id j) l)
  /\ List.length (Store.update_first i f l) = List.length l.
Proof.
  intros Hfind Hf. induction l as [|a l IH]; cbn in *; [discriminate|].
  destruct (Store.order_has_id i a) eqn:Ea.
  - inversion Hfind; subst a. cbn.
    unfold Store.order_has_id in *. rewrite Hf, Ea.
    split; [reflexivity|]. split; [|reflexivity].
    intros j Hj.
    apply N.eqb_eq in Ea. rewrite Ea.
    destruct (N.eqb i j) eqn:E; [apply N.eqb_eq in E; congruence|reflexivity].
  - destruct (IH Hfind) as (H1 & H2 & H3). cbn. rewrite Ea.
    split; [exact H1|]. split; [|rewrite H3; reflexivity].
    intros j Hj. rewrite (H2 j Hj). reflexivity.
Qed.

(** X5. The status route of orders checks the new status against the list
    of recognized values and nothing else: for every stored order and every
    recognized status, whatever the order's present status, the route
    succeeds; afterwards the order found under that id is the old one with
    the new status and a new [updatedAt], every other order is found as
    before, and no payment is touched. *)
Theorem order_status_update_unconstrained now id i s w o :
  Schema.castObjectId id = Some i ->
  JS.includes OrderRouter.validStatuses s = true ->
  find (Store.order_has_id i) (orders (db w)) = Some o ->
  let r := OrderRouter.update_status now id (Some s) w in
  snd r = ok 200 "Order status updated successfully"
            (DataOrder (Store.order_with_status now s o))
  /\ find (Store.order_has_id i) (orders (db (fst r)))
     = Some (Store.order_with_status now s o)
  /\ (forall j, j <> i ->
        find (Store.order_has_id j) (orders (db (fst r)))
        = find (Store.order_has_id j) (orders (db w)))
  /\ List.length (orders (db (fst r))) = List.length (orders (db w))
  /\ payments (db (fst r)) = payments (db w)
  /\ OrderDoc.order_status (Store.order_with_status now s o) = s
  /\ OrderDoc.pricing (Store.order_with_status now s o) = OrderDoc.pricing o
  /\ OrderDoc.payment (Store.order_with_status now s o) = OrderDoc.payment o
  /\ OrderDoc.items (Store.order_with_status now s o) = OrderDoc.items o.
Proof.
  intros Hid Hs Hfind. cbv zeta.
  unfold OrderRouter.update_status, try_catch, OrderRouter.update_status_body.
  rewrite Hs.
  unfold Store.Order_findByIdAndUpdate_status, Store.cast_id, Schema.required_oid.
  rewrite Hid.
  assert (He : Schema.required_enum "status" Order.statuses (Some s) = inr s).
  { unfold Schema.required_enum.
    change Order.statuses with OrderRouter.validStatuses. rewrite Hs. reflexivity. }
  rewrite He.
  cbv beta iota zeta delta [bind lift get_db put_db ret].
  rewrite Hfind. cbn [fst snd db orders payments].
  destruct (update_first_find i (Store.order_with_status now s) (orders (db w)) o Hfind)
    as (H1 & H2 & H3); [reflexivity|].
  repeat (split; [first [reflexivity|assumption]|]). reflexivity.
Qed.

Lemma order_status_update_unconstrained_witness :
  exists o,
    find (Store.order_has_id 1%N) (orders (db Scenario.settled)) = Some o
    /\ snd (OrderRouter.update_status 30%N Fixtures.first_id (Some "Delivered")
              Scenario.settled)
       = ok 200 "Order status updated successfully"
           (DataOrder (Store.order_with_status 30%N "Delivered" o))
    /\ find (Store.order_has_id 1%N)
         (orders (db (fst (OrderRouter.update_status 30%N Fixtures.first_id
                             (Some "Delivered") Scenario.settled))))
       = Some (Store.order_with_status 30%N "Delivered" o)
    /\ payments (db (fst (OrderRouter.update_status 30%N Fixtures.first_id
                            (Some "Delivered") Scenario.settled)))
       = payments (db Scenario.settled).
Proof.
  destruct (find (Store.order_has_id 1%N) (orders (db Scenario.settled))) as [o|] eqn:Hf.
  - exists o. split; [reflexivity|].
    destruct (order_status_update_unconstrained 30%N Fixtures.first_id 1%N "Delivered"
                Scenario.settled o eq_refl eq_refl Hf)
      as (H1 & H2 & _ & _ & H5 & _).
    split; [exact H1|]. split; [exact H2|exact H5].
  - exfalso. vm_compute in Hf. discriminate Hf.
Defined.

(** X6. A status update of an order that does not succeed (unrecognized
    status, malformed or unknown id) leaves the world as it was. *)
Lemma order_status_failure_no_writes now id status w :
  success (snd (OrderRouter.update_status now id status w)) = false ->
  fst (OrderRouter.update_status now id status w) = w.
Proof.
  unfold OrderRouter.update_status, try_catch, OrderRouter.update_status_body.
  destruct status as [s|]; [|reflexivity].
  destruct (JS.includes OrderRouter.validStatuses s); [|reflexivity].
  unfold Store.Order_findByIdAndUpdate_status, Store.cast_id.
  destruct (Schema.required_oid "_id" (Some id)) as [e|i]; [reflexivity|].
  destruct (Schema.required_enum "status" Order.statuses (Some s)) as [e|u]; [reflexivity|].
  cbv beta iota zeta delta [bind lift get_db put_db ret].
  destruct (find (Store.order_has_id i) (orders (db w))); cbn; [discriminate|reflexivity].
Qed.

Lemma order_status_failure_no_writes_witness :
  fst (OrderRouter.update_status 30%N Fixtures.first_id (Some "Lost") Scenario.settled)
  = Scenario.settled.
Proof.
  apply order_status_failure_no_writes. reflexivity.
Defined.

(* ===================================================================== *)
(** ** POST /api/payments *)
(* ===================================================================== *)

Lemma positive_subtotal x :
  (negb (JS.truthy_num x) || JS.le0 x)%bool = false -> exists q, x = Some q /\ 0 < q.
Proof. apply positive_total. Qed.

Lemma validate_amounts_subtotal path a m :
  validate_amounts path a = inr m ->
  exists pr, a = Some pr /\ Payload.subtotal pr = Some (subtotal m).
Proof.
  unfold validate_amounts. intro H.
  repeat step_result H. inversion H; subst; cbn.
  match goal with E : Schema.required_min (path ++ ".subtotal") _ _ = _ |- _ =>
    apply required_min_inv in E; destruct E as [Et _] end.
  destruct a as [pr|].
  - exists pr. auto.
  - cbn in Et. discriminate Et.
Qed.

Lemma Payment_validate_type id now p doc :
  Payment.validate id now p = inr doc ->
  Payload.paymentMethod_type p = Some (PaymentDoc.paymentMethod_type doc)
  /\ JS.includes Payment.method_types (PaymentDoc.paymentMethod_type doc) = true.
Proof.
  unfold Payment.validate. intro H.
  repeat step_result H. inversion H; subst; cbn.
  match goal with E : Schema.required_enum "paymentMethod.type" _ _ = _ |- _ =>
    unfold Schema.required_enum in E;
    destruct (Payload.paymentMethod_type p) as [v|]; [|discriminate E];
    destruct (JS.includes Payment.method_types v) eqn:Ev; [|discriminate E];
    inversion E; subst end.
  auto.
Qed.

Lemma Payment_pre_save_type n p :
  PaymentDoc.paymentMethod_type (Payment.pre_save n p) = PaymentDoc.paymentMethod_type p.
Proof. unfold Payment.pre_save. destruct (String.eqb _ _); reflexivity. Qed.

(** X7. The generic payment creation route either leaves the store as it
    was and does not succeed, or appends exactly one Payment: one whose
    [orderId] is the identity of an order that was stored, whose subtotal is
    strictly positive and whose method type is one of the seven recognized
    ones.  It does not look for another payment of the same order. *)
Theorem payment_creation_outcomes now b w :
  let r := PaymentRouter.create now b w in
  (db (fst r) = db w /\ success (snd r) = false)
  \/ (exists p i q,
         payments (db (fst r)) = (payments (db w) ++ [p])%list
         /\ orders (db (fst r)) = orders (db w)
         /\ snd r = ok 201 "Payment created successfully" (DataPayment p)
         /\ PaymentDoc.orderId p = i
         /\ find (Store.order_has_id i) (orders (db w)) <> None
         /\ subtotal (PaymentDoc.amount p) = q /\ 0 < q
         /\ JS.includes PaymentRouter.validPaymentMethods (PaymentDoc.paymentMethod_type p)
            = true).
Proof.
  cbv zeta. unfold PaymentRouter.create, try_catch, PaymentRouter.create_body.
  destruct (PaymentRouter.paymentMethod b) as [m|] eqn:Hm; [|left; cbn; auto].
  destruct (PaymentRouter.amount b) as [amt|] eqn:Hamt; [|left; cbn; auto].
  destruct (negb (JS.truthy_str (PaymentRouter.orderId b))) eqn:Hoid; [left; cbn; auto|].
  destruct (negb match PaymentRouter.type m with
                 | Some t => JS.includes PaymentRouter.validPaymentMethods t
                 | None => false
                 end); [left; cbn; auto|].
  destruct (negb (JS.truthy_num (Payload.subtotal amt)) || JS.le0 (Payload.subtotal amt))%bool
    eqn:Hsub; [left; cbn; auto|].
  apply positive_subtotal in Hsub. destruct Hsub as (q & Hq & Hpos).
  apply negb_false_iff in Hoid. apply truthy_or_str in Hoid. destruct Hoid as [_ Hsome].
  unfold bind at 1. unfold Store.Order_findById, Store.cast_id, Schema.required_oid.
  destruct (Schema.castObjectId (JS.or_str (PaymentRouter.orderId b) "")) as [i|] eqn:Hcast;
    [|left; cbn; auto].
  cbv beta iota zeta delta [bind lift get_db ret].
  destruct (find (Store.order_has_id i) (orders (db w))) as [o|] eqn:Hfind;
    [|left; cbn; auto].
  destruct (Payment.create now (PaymentRouter.payload_of b) w) as [w1 [e|p]] eqn:Hc.
  - left. apply Payment_create_inv in Hc. destruct Hc as (_ & _ & Hdb). cbn. auto.
  - right. exists p, i, q. cbn [fst snd].
    pose proof Hc as Hc'. apply Payment_create_inv in Hc'.
    destruct Hc' as (Hord & _ & Hpay & _).
    apply Payment_create_inr in Hc. destruct Hc as (doc & Hv & -> & _).
    pose proof (Payment_validate_type _ _ _ _ Hv) as [_ Hty].
    apply Payment_validate_inv in Hv. destruct Hv as (_ & _ & Hvo & Hva & _).
    destruct (Payment_pre_save_fields (List.length (payments (db w))) doc)
      as (Eo & _ & Ea & _).
    rewrite Eo, Ea, Payment_pre_save_type.
    split; [exact Hpay|]. split; [exact Hord|]. split; [reflexivity|].
    split.
    { unfold PaymentRouter.payload_of in Hvo. cbn [Payload.orderId] in Hvo.
      rewrite Hsome in Hvo. cbn [option_map Payment.validate_orderId] in Hvo.
      unfold Schema.required_oid in Hvo. rewrite Hcast in Hvo. inversion Hvo. reflexivity. }
    split; [congruence|].
    split.
    { apply validate_amounts_subtotal in Hva. destruct Hva as (pr & E & Hs).
      unfold PaymentRouter.payload_of in E. cbn [Payload.amount] in E.
      rewrite Hamt in E. inversion E; subst pr. congruence. }
    split; [exact Hpos|exact Hty].
Qed.

(* ===================================================================== *)
(** ** GET /api/razorpay/payment/:id *)
(* ===================================================================== *)

(** X8. Once a settlement has been recorded, looking the payment up by
    its gateway payment id never answers not-found and never writes: the
    answer is the gateway's payment, with its amount in major units, when the
    gateway has one, and the stored Payment when the gateway is unreachable
    or does not know the id. *)
Theorem lookup_after_settlement gw gw' now b w :
  success (snd (verify_payment gw now b w)) = true ->
  db (fst (RazorpayLookup.get_payment gw' (payment_id_of b)
             (fst (verify_payment gw now b w))))
  = db (fst (verify_payment gw now b w))
  /\ match Razorpay.payments_fetch gw' (payment_id_of b) with
     | Some gp =>
         snd (RazorpayLookup.get_payment gw' (payment_id_of b)
                (fst (verify_payment gw now b w)))
         = RazorpayLookup.FromGateway gp (from_paise (Razorpay.gp_amount gp))
     | None =>
         exists p,
           snd (RazorpayLookup.get_payment gw' (payment_id_of b)
                  (fst (verify_payment gw now b w)))
           = RazorpayLookup.FromStore p
           /\ PaymentDoc.paymentId p = payment_id_of b
           /\ In p (payments (db (fst (verify_payment gw now b w))))
     end.
Proof.
  intros Hs.
  destruct (settle_payment_outcomes gw now b w) as [[_ Hf]|(p & Hpay & Hp & _)];
    [congruence|].
  unfold RazorpayLookup.get_payment.
  destruct (Razorpay.payments_fetch gw' (payment_id_of b)) as [gp|].
  - cbn. split; reflexivity.
  - cbn [logged db].
    destruct (Payment.lookup (payment_id_of b) (db (fst (verify_payment gw now b w))))
      as [q|] eqn:Hl.
    + cbn. split; [reflexivity|].
      exists q. split; [reflexivity|].
      unfold Payment.lookup in Hl. apply find_some in Hl. destruct Hl as [Hin Hl].
      apply String.eqb_eq in Hl. split; [exact Hl|exact Hin].
    + exfalso. unfold Payment.lookup in Hl. rewrite Hpay in Hl.
      revert Hl. apply find_last. rewrite Hp. apply String.eqb_refl.
Qed.

Lemma lookup_after_settlement_witness :
  db (fst (RazorpayLookup.get_payment Scenario.gw_down (payment_id_of Scenario.callback)
             (fst (verify_payment Scenario.gw 1000%N Scenario.callback Scenario.empty))))
  = db (fst (verify_payment Scenario.gw 1000%N Scenario.callback Scenario.empty))
  /\ match Razorpay.payments_fetch Scenario.gw_down (payment_id_of Scenario.callback) with
     | Some gp =>
         snd (RazorpayLookup.get_payment Scenario.gw_down (payment_id_of Scenario.callback)
                (fst (verify_payment Scenario.gw 1000%N Scenario.callback Scenario.empty)))
         = RazorpayLookup.FromGateway gp (from_paise (Razorpay.gp_amount gp))
     | None =>
         exists p,
           snd (RazorpayLookup.get_payment Scenario.gw_down
                  (payment_id_of Scenario.callback)
                  (fst (verify_payment Scenario.gw 1000%N Scenario.callback
                          Scenario.empty)))
           = RazorpayLookup.FromStore p
           /\ PaymentDoc.paymentId p = payment_id_of Scenario.callback
           /\ In p (payments (db (fst (verify_payment Scenario.gw 1000%N
                                         Scenario.callback Scenario.empty))))
     end.
Proof.
  apply (lookup_after_settlement Scenario.gw Scenario.gw_down 1000%N Scenario.callback
           Scenario.empty).
  vm_compute. reflexivity.
Defined.

(* ===================================================================== *)
(** ** POST /api/razorpay/create-order *)
(* ===================================================================== *)

Lemma Math_round_nonneg (x : Q) : 0 <= x -> (0 <= JS.Math_round x)%Z.
Proof.
  intros Hx. unfold JS.Math_round.
  rewrite <- (Qfloor_Z 0). apply Qfloor_resp_le.
  change (inject_Z 0) with 0. lra.
Qed.

Lemma to_paise_nonneg (a : Q) : 0 <= a -> (0 <= to_paise a)%Z.
Proof.
  intros Ha. unfold to_paise, JS.mul. apply Math_round_nonneg.
  apply fl_nonneg. nra.
Qed.

(** X9. The create-order route never writes to the store, and what it
    does is decided by three tests.  A request with a positive amount, a
    receipt that is not empty and a currency that is INR or not given makes
    one gateway call, [orders.create], in INR, with that receipt, the notes
    and [Math.round(amount * 100)] paise (never negative), and is answered
    200, or 500 when the gateway rejects the call.  Every other request (no
    amount, an amount that is not positive, no receipt, another currency, a
    currency that is [null]) is answered 400, and neither the store nor the
    gateway is touched. *)
Theorem create_order_gateway_calls gw b w :
  (forall a, co_amount b = Some a -> JS.double a = true /\ JS.finite (a * 100) = true) ->
  let r := create_order gw b w in
  if (JS.gt0 (co_amount b) && JS.truthy_str (co_receipt b)
      && match co_currency b with
         | JS.Undefined => true
         | JS.Null => false
         | JS.Value c => String.eqb c "INR"
         end)%bool
  then
    exists a receipt,
      let opts := Razorpay.mkOrderOptions (to_paise a) "INR" receipt
                    (match co_notes b with Some n => n | None => [] end) in
      co_amount b = Some a /\ 0 < a
      /\ co_receipt b = Some receipt /\ receipt <> ""
      /\ (0 <= to_paise a)%Z
      /\ fst r = logged (Razorpay.CallOrdersCreate opts) w
      /\ statusCode (snd r)
         = match Razorpay.orders_create gw opts with
           | Some _ => 200%nat
           | None => 500%nat
           end
  else fst r = w /\ statusCode (snd r) = 400%nat.
Proof.
  intros _. cbv zeta. unfold create_order, try_catch, create_order_body, currency_of.
  destruct (negb (JS.truthy_num (co_amount b)) || JS.le0 (co_amount b))%bool eqn:Ha.
  { assert (G : JS.gt0 (co_amount b) = false).
    { destruct (co_amount b) as [a|]; [|reflexivity].
      cbn [JS.truthy_num JS.le0 JS.gt0] in Ha |- *.
      destruct (Qle_bool a 0) eqn:Hle; [reflexivity|].
      destruct (Qeq_bool a 0) eqn:He; [|discriminate Ha].
      apply Qeq_bool_iff in He.
      assert (Hl : a <= 0) by lra. apply Qle_bool_iff in Hl. congruence. }
    rewrite G. cbn. auto. }
  apply positive_total in Ha. destruct Ha as (a & Ha & Hpos).
  destruct (positive_amount a Hpos) as (_ & _ & G & Hor).
  rewrite Ha, G, Hor. cbn [andb].
  destruct (JS.truthy_str (co_receipt b)) eqn:Hr; cbn [negb andb]; [|cbn; auto].
  apply truthy_or_str in Hr. destruct Hr as [Hne Hsome].
  destruct (co_currency b) as [| |c]; [| cbn; auto |].
  - cbn [JS.includes supportedCurrencies existsb String.eqb Ascii.eqb Bool.eqb orb negb].
    unfold bind, gateway.
    exists a, (JS.or_str (co_receipt b) ""). cbv zeta.
    split; [reflexivity|]. split; [exact Hpos|]. split; [exact Hsome|].
    split; [exact Hne|]. split; [apply to_paise_nonneg; lra|].
    destruct (Razorpay.orders_create gw _); split; reflexivity.
  - assert (Hi : JS.includes supportedCurrencies c = String.eqb c "INR").
    { unfold JS.includes, supportedCurrencies. cbn [existsb]. apply orb_false_r. }
    destruct (String.eqb c "INR") eqn:Hc.
    2:{ rewrite Hi. cbn. auto. }
    apply String.eqb_eq in Hc. subst c.
    unfold bind, gateway.
    exists a, (JS.or_str (co_receipt b) ""). cbv zeta.
    split; [reflexivity|]. split; [exact Hpos|]. split; [exact Hsome|].
    split; [exact Hne|]. split; [apply to_paise_nonneg; lra|].
    destruct (Razorpay.orders_create gw _); split; reflexivity.
Qed.

Lemma create_order_gateway_calls_witness :
  let b := mkCreateOrderBody (Some 499) JS.Undefined (Some "R-1") None in
  let r := create_order Scenario.gw b Scenario.empty in
  exists a receipt,
    let opts := Razorpay.mkOrderOptions (to_paise a) "INR" receipt
                  (match co_notes b with Some n => n | None => [] end) in
    co_amount b = Some a /\ 0 < a
    /\ co_receipt b = Some receipt /\ receipt <> ""
    /\ (0 <= to_paise a)%Z
    /\ fst r = logged (Razorpay.CallOrdersCreate opts) Scenario.empty
    /\ statusCode (snd r)
       = match Razorpay.orders_create Scenario.gw opts with
         | Some _ => 200%nat
         | None => 500%nat
         end.
Proof.
  apply (create_order_gateway_calls Scenario.gw
           (mkCreateOrderBody (Some 499) JS.Undefined (Some "R-1") None) Scenario.empty).
  intros a H. injection H as <-. split; vm_compute; reflexivity.
Defined.

(** The three ways of giving no usable currency: none is INR by default,
    [null] and another currency are refused. *)
Example create_order_currencies :
  statusCode (snd (create_order Scenario.gw
                     (mkCreateOrderBody (Some 499) JS.Undefined (Some "R-1") None)
                     Scenario.empty)) = 200%nat
  /\ statusCode (snd (create_order Scenario.gw
                        (mkCreateOrderBody (Some 499) JS.Null (Some "R-1") None)
                        Scenario.empty)) = 400%nat
  /\ statusCode (snd (create_order Scenario.gw
                        (mkCreateOrderBody (Some 499) (JS.Value "USD") (Some "R-1") None)
                        Scenario.empty)) = 400%nat.
Proof. repeat split; vm_compute; reflexivity. Qed.

(* ===================================================================== *)
(** ** POST /api/razorpay/refund *)
(* ===================================================================== *)

(** X10. A refund request whose amount is absent, zero or negative is
    sent to the gateway without an amount, that is as a full refund of the
    payment it names. *)
Theorem refund_without_positive_amount_is_full gw now b w pid :
  payment_id b = Some pid -> pid <> "" ->
  (forall a, rf_amount b = Some a -> a <= 0) ->
  exists opts,
    gateway_log (fst (refund gw now b w))
    = (gateway_log w ++ [Razorpay.CallPaymentsRefund pid opts])%list
    /\ Razorpay.ro_payment_id opts = pid
    /\ Razorpay.ro_amount opts = None.
Proof.
  intros Hp Hne Ha. exists (refundOptions pid b).
  split; [apply refund_log; assumption|]. split; [reflexivity|].
  unfold refundOptions. cbn [Razorpay.ro_amount].
  destruct (rf_amount b) as [a|]; [|reflexivity].
  cbn. specialize (Ha a eq_refl). apply Qle_bool_iff in Ha. rewrite Ha.
  rewrite andb_false_r. reflexivity.
Qed.

Lemma refund_without_positive_amount_is_full_witness :
  exists opts,
    gateway_log (fst (refund Scenario.gw 3000%N (mkRefundBody (Some "pay_1") (Some 0) None)
                        Scenario.empty))
    = (gateway_log Scenario.empty ++ [Razorpay.CallPaymentsRefund "pay_1" opts])%list
    /\ Razorpay.ro_payment_id opts = "pay_1"
    /\ Razorpay.ro_amount opts = None.
Proof.
  apply (refund_without_positive_amount_is_full Scenario.gw 3000%N
           (mkRefundBody (Some "pay_1") (Some 0) None) Scenario.empty "pay_1").
  - reflexivity.
  - discriminate.
  - intros a H. inversion H. apply Qle_refl.
Defined.

Lemma nodup_ids_unique (l : list PaymentDoc.t) (p q : PaymentDoc.t) :
  NoDup (map PaymentDoc._id l) -> In p l -> In q l ->
  PaymentDoc._id q = PaymentDoc._id p -> q = p.
Proof.
  induction l as [|a l IH]; cbn; [tauto|].
  intros Hnd Hp Hq E. inversion Hnd as [|x xs Hnot Hnd']; subst.
  destruct Hp as [->|Hp], Hq as [->|Hq].
  - reflexivity.
  - exfalso. apply Hnot. rewrite <- E. apply in_map. exact Hq.
  - exfalso. apply Hnot. rewrite E. apply in_map. exact Hp.
  - apply IH; assumption.
Qed.

Lemma replace_same_on (g : PaymentDoc.t -> string) (p p' : PaymentDoc.t)
      (l : list PaymentDoc.t) :
  NoDup (map PaymentDoc._id l) -> In p l ->
  PaymentDoc._id p' = PaymentDoc._id p -> g p' = g p ->
  map g (Payment.replace p' l) = map g l.
Proof.
  intros Hnd Hin Hid Hg. unfold Payment.replace. rewrite map_map.
  apply map_ext_in. intros q Hq.
  destruct (N.eqb (PaymentDoc._id q) (PaymentDoc._id p')) eqn:E; [|reflexivity].
  apply N.eqb_eq in E. rewrite Hid in E.
  rewrite (nodup_ids_unique l p q Hnd Hin Hq E). exact Hg.
Qed.

(** X11. In a store where payments have distinct identities, the refund
    route never changes the status or the gateway payment id of any stored
    Payment, and never touches an order: a refund that the gateway reports
    as "processed" is not saved, and any other refund leaves the status as it
    was. *)
Theorem refund_never_changes_status gw now b w :
  NoDup (map PaymentDoc._id (payments (db w))) ->
  orders (db (fst (refund gw now b w))) = orders (db w)
  /\ map PaymentDoc.status (payments (db (fst (refund gw now b w))))
     = map PaymentDoc.status (payments (db w))
  /\ map PaymentDoc.paymentId (payments (db (fst (refund gw now b w))))
     = map PaymentDoc.paymentId (payments (db w)).
Proof.
  intros Hnd.
  destruct (JS.truthy_str (payment_id b)) eqn:Ht.
  2:{ unfold refund, try_catch, refund_body. rewrite Ht. cbn. auto. }
  apply truthy_or_str in Ht. destruct Ht as [Hne Hsome].
  rewrite (refund_run gw now b w _ Hsome Hne). cbv zeta.
  destruct (Razorpay.payments_refund gw _ _) as [rf|]; [|cbn; auto].
  destruct (Payment.lookup (JS.or_str (payment_id b) "") (db w)) as [p|] eqn:Hl;
    [|cbn; auto].
  unfold Payment.save, bind, lift, get_db, put_db.
  destruct (Payment.validate_refund _) as [e|r] eqn:Hv; [cbn; auto|].
  destruct (Schema.required_enum _ _ _) as [e|u]; [cbn; auto|].
  cbn [fst snd db logged orders payments].
  assert (Hin : In p (payments (db w))).
  { unfold Payment.lookup in Hl. apply find_some in Hl. tauto. }
  assert (Hnp : String.eqb (Razorpay.gr_status rf) "processed" = false).
  { destruct (String.eqb (Razorpay.gr_status rf) "processed") eqn:E; [|reflexivity].
    exfalso. apply String.eqb_eq in E.
    unfold refunded in Hv. rewrite E in Hv.
    unfold Payment.validate_refund, Payment.set_status, Payment.set_refundDetails in Hv.
    cbn [PaymentDoc.refundDetails PaymentDoc.refundAmount PaymentDoc.refundStatus
         String.eqb Ascii.eqb Bool.eqb andb] in Hv.
    destruct (Schema.optional_min _ _ _); cbn in Hv; discriminate Hv. }
  unfold refunded. rewrite Hnp.
  split; [reflexivity|].
  split; apply (replace_same_on _ p); try assumption; reflexivity.
Qed.

Lemma refund_never_changes_status_witness :
  orders (db (fst (refund Scenario.gw 3000%N (mkRefundBody (Some "pay_1") None None)
                     Scenario.settled)))
  = orders (db Scenario.settled)
  /\ map PaymentDoc.status
       (payments (db (fst (refund Scenario.gw 3000%N (mkRefundBody (Some "pay_1") None None)
                             Scenario.settled))))
     = map PaymentDoc.status (payments (db Scenario.settled))
  /\ map PaymentDoc.paymentId
       (payments (db (fst (refund Scenario.gw 3000%N (mkRefundBody (Some "pay_1") None None)
                             Scenario.settled))))
     = map PaymentDoc.paymentId (payments (db Scenario.settled)).
Proof.
  apply (refund_never_changes_status Scenario.gw 3000%N
           (mkRefundBody (Some "pay_1") None None) Scenario.settled).
  vm_compute. constructor; [intros H; destruct H|constructor].
Defined.

(* ===================================================================== *)
(** ** What a settlement stores *)
(* ===================================================================== *)

Lemma Order_validate_items id now p doc :
  Order.validate id now p = inr doc ->
  Schema.each Order.validate_item
    (match Payload.items p with Some l => l | None => [] end) = inr (OrderDoc.items doc).
Proof.
  unfold Order.validate. intro H.
  repeat step_result H. inversion H; subst. reflexivity.
Qed.

Lemma Order_pre_save_items n o :
  OrderDoc.items (Order.pre_save n o) = OrderDoc.items o.
Proof. unfold Order.pre_save. destruct (String.eqb _ _); reflexivity. Qed.

Lemma validate_item_inv i it :
  Order.validate_item i = inr it ->
  Payload.productName i = Some (OrderDoc.productName it)
  /\ Payload.quantity i = Some (OrderDoc.quantity it) /\ 1 <= OrderDoc.quantity it
  /\ Payload.unitPrice i = Some (OrderDoc.unitPrice it) /\ 0 <= OrderDoc.unitPrice it
  /\ Payload.totalPrice i = Some (OrderDoc.totalPrice it) /\ 0 <= OrderDoc.totalPrice it.
Proof.
  unfold Order.validate_item. intro H.
  step_result H.
  destruct (JS.truthy_str (Payload.productName i)) eqn:Hn; cbn [rbind] in H;
    [|discriminate H].
  repeat step_result H. inversion H; subst; cbn.
  repeat match goal with E : Schema.required_min _ _ _ = inr _ |- _ =>
    apply required_min_inv in E; destruct E end.
  apply truthy_or_str in Hn. destruct Hn as [_ Hn].
  repeat split; assumption.
Qed.

Lemma each_snapshot (l : list Draft.Product) (its : list OrderDoc.Item) :
  Schema.each Order.validate_item (map item_of l) = inr its ->
  Forall2 snapshot_of l its.
Proof.
  revert its. induction l as [|pr l IH]; cbn [map Schema.each]; intros its H.
  - inversion H. constructor.
  - step_result H. step_result H. inversion H; subst its.
    constructor; [|apply IH; reflexivity].
    match goal with E : Order.validate_item _ = inr _ |- _ =>
      apply validate_item_inv in E;
      destruct E as (En & Eq & Hq & Eu & Hu & Et & _) end.
    cbn in En, Eq, Eu, Et. inversion Eq. inversion Eu. inversion Et.
    unfold snapshot_of. repeat split; try assumption; congruence.
Qed.

(** X12. The Order created by a settlement holds one item for each
    product of the draft, in the same order: the product's name, its
    quantity (1 when absent or 0), its price (the rental price when the price
    is absent or 0, else 0), and a total that is the product of the two as
    doubles multiply, that is rounded to the nearest double; the quantity is
    at least 1 and the price not negative.  The prices and quantities are
    doubles, and no product overflows. *)
Theorem settlement_item_snapshots gw now b w :
  Forall (fun product =>
            let unit := JS.or_num (Draft.price product)
                          (JS.or_num (Draft.rental_price product) 0) in
            let qty := JS.or_num (Draft.quantity product) 1 in
            (JS.double unit && JS.double qty && JS.finite (unit * qty))%bool = true)
    (match chain (orderData b) Draft.products with Some l => l | None => [] end) ->
  success (snd (verify_payment gw now b w)) = true ->
  exists o,
    orders (db (fst (verify_payment gw now b w))) = (orders (db w) ++ [o])%list
    /\ Forall2 snapshot_of
         (match chain (orderData b) Draft.products with Some l => l | None => [] end)
         (OrderDoc.items o).
Proof.
  intros _ Hs.
  pose proof (verify_payment_settlement gw now b w) as S.
  destruct (success_recorded _ _ _ _ _ _ S Hs)
    as (payment & w1 & o & p & Hm & Hf & Ho & Hp & Hr).
  destruct (recorded_appends _ _ _ _ _ _ _ _ _ Ho Hp) as [Hord _].
  exists o. split; [exact Hord|].
  apply Order_create_inr in Ho. destruct Ho as (doc & Hv & -> & _).
  rewrite Order_pre_save_items.
  apply Order_validate_items in Hv. cbn [orderPayload Payload.items] in Hv.
  destruct (chain (orderData b) Draft.products) as [l|].
  - apply each_snapshot. exact Hv.
  - cbn in Hv. inversion Hv. constructor.
Qed.

Lemma settlement_item_snapshots_witness :
  exists o,
    orders (db (fst (verify_payment Scenario.gw 1000%N Scenario.callback Scenario.empty)))
    = (orders (db Scenario.empty) ++ [o])%list
    /\ Forall2 snapshot_of
         (match chain (orderData Scenario.callback) Draft.products with
          | Some l => l
          | None => []
          end)
         (OrderDoc.items o).
Proof.
  apply settlement_item_snapshots.
  - apply (Forall_cons Scenario.suit); [vm_compute; reflexivity|apply Forall_nil].
  - vm_compute. reflexivity.
Defined.

(** Three pieces at the double nearest to 0.1 are stored with the total
    0.30000000000000004. *)
Example item_total_is_a_double_product :
  Payload.totalPrice
    (item_of (Draft.mkProduct None (Some "Pin") (Some 3) (Some (JS.fl (1 # 10))) None))
  = Some (1351079888211149 # 4503599627370496).
Proof. vm_compute. reflexivity. Qed.

(** X13. After a settlement the Order's pricing is the draft's total as
    subtotal and total (0 when the draft has none), and the Payment's amount
    is the draft's total, or the gateway's amount in major units when the
    draft has none; tax, shipping and discount are 0 in both.  The two agree
    whenever the draft carries a total other than 0. *)
Theorem settlement_amounts gw now b w :
  success (snd (verify_payment gw now b w)) = true ->
  exists o p gp,
    orders (db (fst (verify_payment gw now b w))) = (orders (db w) ++ [o])%list
    /\ payments (db (fst (verify_payment gw now b w))) = (payments (db w) ++ [p])%list
    /\ Razorpay.payments_fetch gw (payment_id_of b) = Some gp
    /\ OrderDoc.pricing o
       = (let t := JS.or_num (chain (orderData b) Draft.totalPrice) 0 in
          mkMoney t 0 0 0 t)
    /\ PaymentDoc.amount p
       = (let a := JS.or_num (chain (orderData b) Draft.totalPrice)
                     (from_paise (Razorpay.gp_amount gp)) in
          mkMoney a 0 0 0 a)
    /\ (JS.truthy_num (chain (orderData b) Draft.totalPrice) = true ->
        PaymentDoc.amount p = OrderDoc.pricing o).
Proof.
  intros Hs.
  pose proof (verify_payment_settlement gw now b w) as S.
  destruct (success_recorded _ _ _ _ _ _ S Hs)
    as (payment & w1 & o & p & Hm & Hf & Ho & Hp & Hr).
  destruct (recorded_appends _ _ _ _ _ _ _ _ _ Ho Hp) as [Hord Hpay].
  exists o, p, payment.
  split; [exact Hord|]. split; [exact Hpay|]. split; [exact Hf|].
  apply Order_create_inr in Ho. destruct Ho as (odoc & Hov & -> & _).
  apply Order_validate_inv in Hov. destruct Hov as (_ & _ & Hpr & _).
  destruct (Order_pre_save_fields
              (List.length (orders (db (logged (Razorpay.CallPaymentsFetch (payment_id_of b)) w))))
              odoc) as (_ & -> & _).
  apply Payment_create_inr in Hp. destruct Hp as (pdoc & Hpv & -> & _).
  apply Payment_validate_inv in Hpv. destruct Hpv as (_ & _ & _ & Ham & _).
  destruct (Payment_pre_save_fields (List.length (payments (db w1))) pdoc)
    as (_ & _ & -> & _).
  assert (shape : forall path x m,
             validate_amounts path
               (Some (Payload.mkAmounts (Some x) (Some 0) (Some 0) (Some 0) (Some x)))
             = inr m -> m = mkMoney x 0 0 0 x).
  { intros path x m H. unfold validate_amounts in H.
    cbn [Payload.subtotal Payload.tax Payload.shipping Payload.discount Payload.total] in H.
    repeat step_result H. inversion H; subst.
    repeat match goal with
           | E : Schema.required_min _ _ (Some _) = inr _ |- _ =>
               apply required_min_inv in E; destruct E as [E _]; inversion E; subst; clear E
           | E : Schema.default_min _ _ _ (Some 0) = inr _ |- _ =>
               cbn in E; inversion E; subst; clear E
           end.
    reflexivity. }
  cbn [orderPayload Payload.pricing] in Hpr. apply shape in Hpr.
  unfold paymentData in Ham. cbn [Payload.amount] in Ham. apply shape in Ham.
  cbv zeta. split; [exact Hpr|]. split; [exact Ham|].
  intros Ht. rewrite Hpr, Ham.
  destruct (chain (orderData b) Draft.totalPrice) as [q|]; [|discriminate Ht].
  cbn in Ht |- *. destruct (Qeq_bool q 0); [discriminate Ht|reflexivity].
Qed.

Lemma settlement_amounts_witness :
  exists o p gp,
    orders (db (fst (verify_payment Scenario.gw 1000%N Scenario.callback_no_draft
                       Scenario.empty)))
    = (orders (db Scenario.empty) ++ [o])%list
    /\ payments (db (fst (verify_payment Scenario.gw 1000%N Scenario.callback_no_draft
                            Scenario.empty)))
       = (payments (db Scenario.empty) ++ [p])%list
    /\ Razorpay.payments_fetch Scenario.gw (payment_id_of Scenario.callback_no_draft)
       = Some gp
    /\ OrderDoc.pricing o
       = (let t := JS.or_num (chain (orderData Scenario.callback_no_draft) Draft.totalPrice) 0
          in mkMoney t 0 0 0 t)
    /\ PaymentDoc.amount p
       = (let a := JS.or_num (chain (orderData Scenario.callback_no_draft) Draft.totalPrice)
                     (from_paise (Razorpay.gp_amount gp)) in
          mkMoney a 0 0 0 a)
    /\ (JS.truthy_num (chain (orderData Scenario.callback_no_draft) Draft.totalPrice) = true ->
        PaymentDoc.amount p = OrderDoc.pricing o).
Proof.
  apply settlement_amounts. vm_compute. reflexivity.
Defined.

(* ===================================================================== *)
(** ** Money *)
(* ===================================================================== *)

(** X14. Paise to major units and back.  The gateway's integer amount of
    paise [n], with [0 <= n < 2^51], divided by 100 (a double division)
    gives a double within the relative error [2^-53] of [n / 100], and
    [Math.round] of its hundredfold (a double product) is [n] again.  An
    amount that is a double and whose hundredfold is exactly an integer [k]
    below [2^53] is sent as [k] paise and comes back as itself.  The bounds
    are needed: [to_paise_from_paise_large] is an amount of paise that comes
    back one paisa short. *)
Theorem paise_round_trip (n k : Z) (a : Q) :
  (0 <= n < 2 ^ 51)%Z ->
  (0 <= k < 2 ^ 53)%Z -> JS.double a = true -> a * 100 == inject_Z k ->
  to_paise (from_paise n) = n
  /\ Qabs (from_paise n - inject_Z n / 100) <= inject_Z n / 100 * (1 # 2 ^ 53)
  /\ to_paise a = k
  /\ from_paise (to_paise a) == a.
Proof.
  intros Hn Hk Hd E.
  split; [apply to_paise_from_paise; exact Hn|].
  split.
  - destruct Hn as [H0 H1].
    destruct (Z.eq_dec n 0) as [->|Hne]; [vm_compute; discriminate|].
    assert (HN1 : 1 <= inject_Z n).
    { change 1 with (inject_Z 1). rewrite <- Zle_Qle. lia. }
    unfold from_paise, JS.div.
    apply fl_error.
    + apply Qlt_shift_div_l; [reflexivity|]. lra.
    + assert (E7 : JS.pow2 (-7) == 1 # 128) by reflexivity.
      apply Qle_trans with (1 # 128).
      * rewrite <- E7. apply pow2_le. lia.
      * apply Qle_shift_div_l; [reflexivity|]. lra.
  - split; [apply to_paise_exact; assumption|].
    rewrite (to_paise_exact a k Hk E). apply from_paise_exact; assumption.
Qed.

Lemma paise_round_trip_witness :
  to_paise (from_paise 49900) = 49900%Z
  /\ Qabs (from_paise 49900 - inject_Z 49900 / 100)
     <= inject_Z 49900 / 100 * (1 # 2 ^ 53)
  /\ to_paise (499 # 2) = 24950%Z
  /\ from_paise (to_paise (499 # 2)) == 499 # 2.
Proof.
  apply (paise_round_trip 49900 24950 (499 # 2)).
  - lia.
  - lia.
  - vm_compute. reflexivity.
  - reflexivity.
Defined.

(* ===================================================================== *)
(** ** Signature *)
(* ===================================================================== *)

Lemma append_assoc (a b c : string) : (a ++ b) ++ c = a ++ (b ++ c).
Proof. induction a as [|x a IH]; cbn; [reflexivity|]. rewrite IH. reflexivity. Qed.

(** X15. The signed string is the order id, "|", the payment id: the
    signature does not tell where the order id ends.  A signature is
    accepted for the ids [o|x] and [p] exactly when it is accepted for [o]
    and [x|p]. *)
Theorem signature_does_not_bind_the_split (o x p signature : string) :
  isAuthentic (o ++ "|" ++ x) p signature = isAuthentic o (x ++ "|" ++ p) signature.
Proof.
  unfold isAuthentic, expectedSignature.
  replace ((o ++ "|" ++ x) ++ "|" ++ p) with (o ++ "|" ++ (x ++ "|" ++ p)).
  - reflexivity.
  - rewrite !append_assoc. reflexivity.
Qed.

(* ===================================================================== *)
(** ** POST /api/orders: the items *)
(* ===================================================================== *)

Lemma each_valid_items (l : list Payload.Item) (its : list OrderDoc.Item) :
  Schema.each Order.validate_item l = inr its ->
  List.length its = List.length l
  /\ Forall (fun it => 1 <= OrderDoc.quantity it /\ 0 <= OrderDoc.unitPrice it
                       /\ 0 <= OrderDoc.totalPrice it /\ OrderDoc.productName it <> "") its.
Proof.
  revert its. induction l as [|i l IH]; cbn [Schema.each]; intros its H.
  - inversion H. split; [reflexivity|constructor].
  - step_result H. step_result H. inversion H; subst its.
    destruct (IH _ eq_refl) as [Hlen Hall]. cbn [List.length]. split; [congruence|].
    constructor; [|exact Hall].
    match goal with E : Order.validate_item _ = inr _ |- _ =>
      pose proof E as E'; apply validate_item_inv in E;
      destruct E as (En & _ & Hq & _ & Hu & _ & Ht) end.
    repeat split; try assumption.
    unfold Order.validate_item in E'. step_result E'.
    destruct (JS.truthy_str (Payload.productName i)) eqn:Hn; cbn [rbind] in E';
      [|discriminate E'].
    apply truthy_or_str in Hn. destruct Hn as [Hne Hs].
    rewrite Hs in En. intros Hc. apply Hne. congruence.
Qed.

(** X16. An Order created through the generic route has as many items as
    the request, at least one, each with a name, a quantity of at least 1 and
    non-negative unit and total prices. *)
Theorem generic_order_items now p w :
  success (snd (OrderRoutes.create now p w)) = true ->
  exists o l,
    orders (db (fst (OrderRoutes.create now p w))) = (orders (db w) ++ [o])%list
    /\ Payload.items p = Some l
    /\ List.length (OrderDoc.items o) = List.length l
    /\ (0 < List.length (OrderDoc.items o))%nat
    /\ Forall (fun it => 1 <= OrderDoc.quantity it /\ 0 <= OrderDoc.unitPrice it
                         /\ 0 <= OrderDoc.totalPrice it /\ OrderDoc.productName it <> "")
              (OrderDoc.items o).
Proof.
  unfold OrderRoutes.create, try_catch, OrderRoutes.create_body.
  destruct (Payload.customerInfo p); [|discriminate].
  destruct (Payload.items p) as [l|] eqn:Hi; [|discriminate].
  destruct (Payload.pricing p); [|discriminate].
  destruct (Nat.eqb (List.length l) 0) eqn:Hl; [discriminate|].
  destruct (negb _ || _)%bool; [discriminate|].
  unfold bind. destruct (Order.create now p w) as [w1 [e|o]] eqn:Hc; [discriminate|].
  intros _. cbn [fst snd]. exists o, l.
  pose proof Hc as Hc'. apply Order_create_inv in Hc'. destruct Hc' as (_ & _ & Hord & _).
  apply Order_create_inr in Hc. destruct Hc as (doc & Hv & -> & _).
  rewrite Order_pre_save_items.
  apply Order_validate_items in Hv. rewrite Hi in Hv.
  apply each_valid_items in Hv. destruct Hv as [Hlen Hall].
  split; [exact Hord|]. split; [reflexivity|]. split; [exact Hlen|].
  split; [|exact Hall].
  apply Nat.eqb_neq in Hl. lia.
Qed.

Lemma generic_order_items_witness :
  exists o l,
    orders (db (fst (OrderRoutes.create 10%N Fixtures.order_body Scenario.empty)))
    = (orders (db Scenario.empty) ++ [o])%list
    /\ Payload.items Fixtures.order_body = Some l
    /\ List.length (OrderDoc.items o) = List.length l
    /\ (0 < List.length (OrderDoc.items o))%nat
    /\ Forall (fun it => 1 <= OrderDoc.quantity it /\ 0 <= OrderDoc.unitPrice it
                         /\ 0 <= OrderDoc.totalPrice it /\ OrderDoc.productName it <> "")
              (OrderDoc.items o).
Proof.
  apply generic_order_items. vm_compute. reflexivity.
Defined.

(* ===================================================================== *)
(** ** DELETE /api/orders/:id: the cascade *)
(* ===================================================================== *)

Lemma remove_first_filter_same {A : Type} (f : A -> bool) (l : list A) :
  List.length (filter f (Store.remove_first f l)) = pred (List.length (filter f l)).
Proof.
  induction l as [|a l IH]; [reflexivity|]. cbn.
  destruct (f a) eqn:E; cbn; [reflexivity|]. rewrite E. exact IH.
Qed.

Lemma remove_first_filter_other {A : Type} (f g : A -> bool) (l : list A) :
  (forall a, g a = true -> f a = false) ->
  filter g (Store.remove_first f l) = filter g l.
Proof.
  intros H. induction l as [|a l IH]; [reflexivity|]. cbn.
  destruct (f a) eqn:E; cbn.
  - destruct (g a) eqn:G; [|reflexivity]. rewrite (H a G) in E. discriminate E.
  - rewrite IH. reflexivity.
Qed.

Lemma remove_first_length {A : Type} (f : A -> bool) (l : list A) :
  find f l <> None -> S (List.length (Store.remove_first f l)) = List.length l.
Proof.
  intros H. destruct (remove_first_app_found f l [] H) as [_ L]. exact L.
Qed.

(** X17. Deleting a stored order removes exactly one order and at most
    one payment: the number of payments that reference the deleted order
    goes down by one (a second payment of that order stays behind), and the
    orders and the payments of every other identity are as before. *)
Theorem order_delete_cascade id i w :
  Schema.castObjectId id = Some i ->
  find (Store.order_has_id i) (orders (db w)) <> None ->
  let r := OrderRouter.delete id w in
  success (snd r) = true
  /\ S (List.length (orders (db (fst r)))) = List.length (orders (db w))
  /\ List.length (filter (Store.payment_of_order i) (payments (db (fst r))))
     = pred (List.length (filter (Store.payment_of_order i) (payments (db w))))
  /\ (forall j, j <> i ->
        filter (Store.payment_of_order j) (payments (db (fst r)))
        = filter (Store.payment_of_order j) (payments (db w))
        /\ filter (Store.order_has_id j) (orders (db (fst r)))
           = filter (Store.order_has_id j) (orders (db w))).
Proof.
  intros Hid Hf. cbv zeta. rewrite (delete_run id i w Hid).
  pose proof (remove_first_length _ _ Hf) as Hlen.
  destruct (find (Store.order_has_id i) (orders (db w))) as [o|]; [|congruence].
  cbn [fst snd db orders payments].
  split; [reflexivity|]. split; [exact Hlen|].
  split; [apply remove_first_filter_same|].
  intros j Hj. split; apply remove_first_filter_other; intros a Ha.
  - unfold Store.payment_of_order in *. apply N.eqb_eq in Ha. apply N.eqb_neq. congruence.
  - unfold Store.order_has_id in *. apply N.eqb_eq in Ha. apply N.eqb_neq. congruence.
Qed.

Lemma order_delete_cascade_witness :
  success (snd (OrderRouter.delete Fixtures.first_id Scenario.settled)) = true
  /\ S (List.length (orders (db (fst (OrderRouter.delete Fixtures.first_id Scenario.settled)))))
     = List.length (orders (db Scenario.settled))
  /\ List.length (filter (Store.payment_of_order 1%N)
                    (payments (db (fst (OrderRouter.delete Fixtures.first_id
                                          Scenario.settled)))))
     = pred (List.length (filter (Store.payment_of_order 1%N)
                            (payments (db Scenario.settled))))
  /\ (forall j, j <> 1%N ->
        filter (Store.payment_of_order j)
          (payments (db (fst (OrderRouter.delete Fixtures.first_id Scenario.settled))))
        = filter (Store.payment_of_order j) (payments (db Scenario.settled))
        /\ filter (Store.order_has_id j)
             (orders (db (fst (OrderRouter.delete Fixtures.first_id Scenario.settled))))
           = filter (Store.order_has_id j) (orders (db Scenario.settled))).
Proof.
  apply (order_delete_cascade Fixtures.first_id 1%N Scenario.settled).
  - reflexivity.
  - intros H. vm_compute in H. discriminate H.
Defined.

(* ===================================================================== *)
(** ** Verify-payment: calls and snapshots *)
(* ===================================================================== *)

(** X18. The verification route and the gateway.  A request that has the
    three fields, none empty, and whose signature matches makes exactly one
    gateway call, [payments.fetch] of the payment it names, and is answered
    200 or 500; every other request is answered 400 and leaves the store,
    the counter and the gateway log as they were. *)
Theorem settlement_gateway_calls gw now b w :
  let r := verify_payment gw now b w in
  if (JS.truthy_str (razorpay_order_id b) && JS.truthy_str (razorpay_payment_id b)
      && JS.truthy_str (razorpay_signature b)
      && isAuthentic (order_id_of b) (payment_id_of b) (signature_of b))%bool
  then gateway_log (fst r)
       = (gateway_log w ++ [Razorpay.CallPaymentsFetch (payment_id_of b)])%list
       /\ (statusCode (snd r) = 200%nat \/ statusCode (snd r) = 500%nat)
  else fst r = w /\ statusCode (snd r) = 400%nat.
Proof.
  cbv zeta.
  assert (M : missing b
              = negb (JS.truthy_str (razorpay_order_id b)
                      && JS.truthy_str (razorpay_payment_id b)
                      && JS.truthy_str (razorpay_signature b))).
  { unfold missing.
    destruct (JS.truthy_str (razorpay_order_id b));
      destruct (JS.truthy_str (razorpay_payment_id b));
      destruct (JS.truthy_str (razorpay_signature b)); reflexivity. }
  destruct (verify_payment_settlement gw now b w)
    as [Hm|Hm Ha|Hm Ha Hf|payment w1 e Hm Ha Hf Ho|payment w1 w2 o e Hm Ha Hf Ho Hp
        |payment w1 w2 o p Hm Ha Hf Ho Hp];
    rewrite M in Hm;
    [apply negb_true_iff in Hm; rewrite Hm
    |apply negb_false_iff in Hm; rewrite Hm, Ha..]; cbn [andb].
  - split; reflexivity.
  - split; reflexivity.
  - split; [reflexivity|right; reflexivity].
  - apply Order_create_inv in Ho. destruct Ho as (_ & Hlog & _).
    split; [exact Hlog|right; reflexivity].
  - apply Order_create_inv in Ho. destruct Ho as (_ & Hlog & _).
    apply Payment_create_inv in Hp. destruct Hp as (_ & Hlog' & _).
    rewrite Hlog', Hlog. split; [reflexivity|right; reflexivity].
  - apply Order_create_inv in Ho. destruct Ho as (_ & Hlog & _).
    apply Payment_create_inv in Hp. destruct Hp as (_ & Hlog' & _).
    rewrite Hlog', Hlog. split; [reflexivity|left; reflexivity].
Qed.

Lemma Order_validate_customer id now p doc :
  Order.validate id now p = inr doc ->
  validate_customer (Payload.customerInfo p) = inr (OrderDoc.customerInfo doc).
Proof.
  unfold Order.validate. intro H.
  repeat step_result H. inversion H; subst. reflexivity.
Qed.

Lemma Payment_validate_customer id now p doc :
  Payment.validate id now p = inr doc ->
  validate_customer (Payload.pay_customerInfo p) = inr (PaymentDoc.customerInfo doc)
  /\ Schema.required_string "orderNumber" (Payload.pay_orderNumber p)
     = inr (PaymentDoc.orderNumber doc).
Proof.
  unfold Payment.validate. intro H.
  repeat step_result H. inversion H; subst. split; reflexivity.
Qed.

Lemma Order_pre_save_customer n o :
  OrderDoc.customerInfo (Order.pre_save n o) = OrderDoc.customerInfo o.
Proof. unfold Order.pre_save. destruct (String.eqb _ _); reflexivity. Qed.

Lemma Payment_pre_save_customer n p :
  PaymentDoc.customerInfo (Payment.pre_save n p) = PaymentDoc.customerInfo p
  /\ PaymentDoc.orderNumber (Payment.pre_save n p) = PaymentDoc.orderNumber p.
Proof. unfold Payment.pre_save. destruct (String.eqb _ _); split; reflexivity. Qed.

Lemma required_string_path p p' s v :
  Schema.required_string p s = inr v -> Schema.required_string p' s = inr v.
Proof.
  unfold Schema.required_string. destruct s as [x|]; [|discriminate].
  destruct (String.eqb (JS.trim x) ""); [discriminate|auto].
Qed.

Lemma validate_address_path p p' a r :
  Order.validate_address p a = inr r -> Order.validate_address p' a = inr r.
Proof.
  unfold Order.validate_address. intro H. repeat step_result H.
  repeat match goal with
         | E : Schema.required_string (p ++ ?f) _ = inr _ |- _ =>
             apply (required_string_path _ (p' ++ f)) in E; rewrite E; clear E
         end.
  exact H.
Qed.

(** X19. The two records of a settlement agree: the Payment carries the
    same customer snapshot as the Order and the Order's number, and the
    Order's billing address is its shipping address. *)
Theorem settlement_records_agree gw now b w :
  success (snd (verify_payment gw now b w)) = true ->
  exists o p,
    orders (db (fst (verify_payment gw now b w))) = (orders (db w) ++ [o])%list
    /\ payments (db (fst (verify_payment gw now b w))) = (payments (db w) ++ [p])%list
    /\ PaymentDoc.customerInfo p = OrderDoc.customerInfo o
    /\ PaymentDoc.orderNumber p = JS.trim (OrderDoc.orderNumber o)
    /\ OrderDoc.shippingAddress o = OrderDoc.billingAddress o.
Proof.
  intros Hs.
  pose proof (verify_payment_settlement gw now b w) as S.
  destruct (success_recorded _ _ _ _ _ _ S Hs)
    as (payment & w1 & o & p & Hm & Hf & Ho & Hp & Hr).
  destruct (recorded_appends _ _ _ _ _ _ _ _ _ Ho Hp) as [Hord Hpay].
  exists o, p. split; [exact Hord|]. split; [exact Hpay|].
  apply Payment_create_inr in Hp. destruct Hp as (pdoc & Hpv & -> & _).
  apply Payment_validate_customer in Hpv. destruct Hpv as [Hpc Hpn].
  destruct (Payment_pre_save_customer (List.length (payments (db w1))) pdoc) as [-> ->].
  apply Order_create_inr in Ho. destruct Ho as (odoc & Hov & Eo & _).
  pose proof (Order_validate_customer _ _ _ _ Hov) as Hoc.
  cbn [paymentData Payload.pay_customerInfo Payload.pay_orderNumber] in Hpc, Hpn.
  cbn [orderPayload Payload.customerInfo] in Hoc.
  split.
  { rewrite Eo, Order_pre_save_customer. congruence. }
  split.
  { unfold Schema.required_string in Hpn.
    destruct (String.eqb (JS.trim (OrderDoc.orderNumber o)) ""); [discriminate Hpn|].
    inversion Hpn. reflexivity. }
  rewrite Eo. unfold Order.pre_save.
  assert (Ha : OrderDoc.shippingAddress odoc = OrderDoc.billingAddress odoc).
  { clear - Hov. unfold Order.validate in Hov. repeat step_result Hov.
    inversion Hov; subst; cbn [OrderDoc.shippingAddress OrderDoc.billingAddress].
    cbn [orderPayload Payload.shippingAddress Payload.billingAddress] in *.
    match goal with
    | E1 : Order.validate_address "shippingAddress" _ = inr ?x,
      E2 : Order.validate_address "billingAddress" _ = inr ?y |- _ =>
        apply (validate_address_path _ "billingAddress") in E1;
        rewrite E1 in E2; inversion E2; reflexivity
    end. }
  destruct (String.eqb _ _); cbn; exact Ha.
Qed.

Lemma settlement_records_agree_witness :
  exists o p,
    orders (db (fst (verify_payment Scenario.gw 1000%N Scenario.callback Scenario.empty)))
    = (orders (db Scenario.empty) ++ [o])%list
    /\ payments (db (fst (verify_payment Scenario.gw 1000%N Scenario.callback Scenario.empty)))
       = (payments (db Scenario.empty) ++ [p])%list
    /\ PaymentDoc.customerInfo p = OrderDoc.customerInfo o
    /\ PaymentDoc.orderNumber p = JS.trim (OrderDoc.orderNumber o)
    /\ OrderDoc.shippingAddress o = OrderDoc.billingAddress o.
Proof.
  apply settlement_records_agree. vm_compute. reflexivity.
Defined.

(* ===================================================================== *)
(** ** Trimming a generated number *)
(* ===================================================================== *)

(** A byte below 128 is a character by itself: it begins no white space
    of two or three bytes, and ends none. *)
Lemma is_space2_l (a b : ascii) :
  Nat.ltb (nat_of_ascii a) 128 = true -> JS.is_space2 a b = false.
Proof.
  intros H. apply Nat.ltb_lt in H. unfold JS.is_space2.
  replace (Nat.eqb (nat_of_ascii a) 194) with false
    by (symmetry; apply Nat.eqb_neq; lia).
  reflexivity.
Qed.

Lemma is_space2_r (a b : ascii) :
  Nat.ltb (nat_of_ascii b) 128 = true -> JS.is_space2 a b = false.
Proof.
  intros H. apply Nat.ltb_lt in H. unfold JS.is_space2.
  replace (Nat.eqb (nat_of_ascii b) 160) with false
    by (symmetry; apply Nat.eqb_neq; lia).
  apply andb_false_r.
Qed.

Lemma is_space3_l (a b c : ascii) :
  Nat.ltb (nat_of_ascii a) 128 = true -> JS.is_space3 a b c = false.
Proof.
  intros H. apply Nat.ltb_lt in H. unfold JS.is_space3. cbv zeta.
  replace (Nat.eqb (nat_of_ascii a) 225) with false
    by (symmetry; apply Nat.eqb_neq; lia).
  replace (Nat.eqb (nat_of_ascii a) 226) with false
    by (symmetry; apply Nat.eqb_neq; lia).
  replace (Nat.eqb (nat_of_ascii a) 227) with false
    by (symmetry; apply Nat.eqb_neq; lia).
  replace (Nat.eqb (nat_of_ascii a) 239) with false
    by (symmetry; apply Nat.eqb_neq; lia).
  reflexivity.
Qed.

Lemma is_space3_r (a b c : ascii) :
  Nat.ltb (nat_of_ascii c) 128 = true -> JS.is_space3 a b c = false.
Proof.
  intros H. apply Nat.ltb_lt in H. unfold JS.is_space3. cbv zeta.
  replace (Nat.eqb (nat_of_ascii c) 128) with false
    by (symmetry; apply Nat.eqb_neq; lia).
  replace (Nat.eqb (nat_of_ascii c) 168) with false
    by (symmetry; apply Nat.eqb_neq; lia).
  replace (Nat.eqb (nat_of_ascii c) 169) with false
    by (symmetry; apply Nat.eqb_neq; lia).
  replace (Nat.eqb (nat_of_ascii c) 175) with false
    by (symmetry; apply Nat.eqb_neq; lia).
  replace (Nat.eqb (nat_of_ascii c) 159) with false
    by (symmetry; apply Nat.eqb_neq; lia).
  replace (Nat.eqb (nat_of_ascii c) 191) with false
    by (symmetry; apply Nat.eqb_neq; lia).
  replace (Nat.leb 128 (nat_of_ascii c)) with false
    by (symmetry; apply Nat.leb_gt; lia).
  rewrite !andb_false_r. reflexivity.
Qed.

Lemma strip_head (back : bool) (c : ascii) (s : string) :
  JS.is_space c = false -> Nat.ltb (nat_of_ascii c) 128 = true ->
  JS.strip back (String c s) = String c s.
Proof.
  intros H1 H2. cbn [JS.strip]. rewrite H1.
  destruct s as [|b r]; [reflexivity|].
  rewrite (is_space2_l c b H2), (is_space2_r b c H2).
  destruct r as [|d r]; [destruct back; reflexivity|].
  rewrite (is_space3_l c b d H2), (is_space3_r d b c H2).
  destruct back; reflexivity.
Qed.

Lemma trim_start_head (c : ascii) (s : string) :
  JS.is_space c = false -> Nat.ltb (nat_of_ascii c) 128 = true ->
  JS.trim_start (String c s) = String c s.
Proof. apply strip_head. Qed.

Lemma reverse_chars (s : string) :
  list_ascii_of_string (JS.reverse s) = rev (list_ascii_of_string s).
Proof. unfold JS.reverse. apply list_ascii_of_string_of_list_ascii. Qed.

Lemma reverse_involutive (s : string) : JS.reverse (JS.reverse s) = s.
Proof.
  unfold JS.reverse. rewrite list_ascii_of_string_of_list_ascii, rev_involutive.
  apply string_of_list_ascii_of_string.
Qed.

Lemma trim_end_spaceless (s : string) :
  (forall c, In c (list_ascii_of_string s) ->
             JS.is_space c = false /\ Nat.ltb (nat_of_ascii c) 128 = true) ->
  JS.trim_end s = s.
Proof.
  intros H. unfold JS.trim_end.
  assert (E : JS.strip true (JS.reverse s) = JS.reverse s).
  { destruct (JS.reverse s) as [|c r] eqn:R; [reflexivity|].
    assert (Hc : In c (list_ascii_of_string s)).
    { apply in_rev. rewrite <- reverse_chars, R. left. reflexivity. }
    destruct (H c Hc) as [H1 H2]. apply strip_head; assumption. }
  rewrite E. apply reverse_involutive.
Qed.

Lemma trim_spaceless (s : string) :
  (forall c, In c (list_ascii_of_string s) ->
             JS.is_space c = false /\ Nat.ltb (nat_of_ascii c) 128 = true) ->
  JS.trim s = s.
Proof.
  intros H. unfold JS.trim.
  destruct s as [|c r]; [reflexivity|].
  destruct (H c (or_introl eq_refl)) as [H1 H2].
  rewrite trim_start_head by assumption.
  apply trim_end_spaceless. exact H.
Qed.

Lemma chars_app (a b : string) :
  list_ascii_of_string (a ++ b) = (list_ascii_of_string a ++ list_ascii_of_string b)%list.
Proof. induction a as [|c a IH]; [reflexivity|]. cbn. rewrite IH. reflexivity. Qed.

Lemma digits_spaceless (d : Decimal.uint) (c : ascii) :
  In c (list_ascii_of_string (NilEmpty.string_of_uint d)) ->
  JS.is_space c = false /\ Nat.ltb (nat_of_ascii c) 128 = true.
Proof.
  induction d; cbn [NilEmpty.string_of_uint list_ascii_of_string In];
    intros H; try (destruct H as [<-|H]; [split; reflexivity|exact (IHd H)]).
  destruct H.
Qed.

Lemma zeros_spaceless (k : nat) (c : ascii) :
  In c (list_ascii_of_string (string_of_list_ascii (repeat "0"%char k))) ->
  JS.is_space c = false /\ Nat.ltb (nat_of_ascii c) 128 = true.
Proof.
  rewrite list_ascii_of_string_of_list_ascii. intros H.
  apply repeat_spec in H. subst c. split; reflexivity.
Qed.

Lemma ordinal_spaceless (n : N) (c : ascii) :
  In c (list_ascii_of_string (Numbering.ordinal n)) ->
  JS.is_space c = false /\ Nat.ltb (nat_of_ascii c) 128 = true.
Proof.
  unfold Numbering.ordinal, JS.padStart0, JS.String_of_N.
  rewrite chars_app. intros H. apply in_app_or in H. destruct H as [H|H].
  - exact (zeros_spaceless _ _ H).
  - exact (digits_spaceless _ _ H).
Qed.

Lemma trim_order_number (n : N) :
  JS.trim (Numbering.order_number n) = Numbering.order_number n.
Proof.
  apply trim_spaceless. unfold Numbering.order_number.
  intros c H. rewrite chars_app in H. apply in_app_or in H. destruct H as [H|H].
  - cbn in H. destruct H as [<-|[<-|[<-|[<-|[]]]]]; split; reflexivity.
  - exact (ordinal_spaceless _ _ H).
Qed.

Lemma order_number_not_empty (n : N) : Numbering.order_number n <> "".
Proof. unfold Numbering.order_number. cbn. discriminate. Qed.

Lemma required_order_number (n : N) :
  Schema.required_string "orderNumber" (Some (Numbering.order_number n))
  = inr (Numbering.order_number n).
Proof.
  unfold Schema.required_string. rewrite trim_order_number.
  destruct (String.eqb (Numbering.order_number n) "") eqn:E; [|reflexivity].
  apply String.eqb_eq in E. destruct (order_number_not_empty n E).
Qed.

(* ===================================================================== *)
(** ** Validation does not depend on the identity or the time *)
(* ===================================================================== *)

Lemma Order_validate_at i n i' n' p doc :
  Order.validate i n p = inr doc ->
  exists doc', Order.validate i' n' p = inr doc'.
Proof.
  unfold Order.validate. intro H.
  repeat step_result H.
  eexists. reflexivity.
Qed.

Lemma validate_orderId_settle d (o o' : OrderDoc.t) x :
  Payment.validate_orderId
    (Some (if JS.truthy_str (chain d Draft.orderId)
           then Payload.RefString (JS.or_str (chain d Draft.orderId) "")
           else Payload.RefId (OrderDoc._id o))) = inr x ->
  exists x',
    Payment.validate_orderId
      (Some (if JS.truthy_str (chain d Draft.orderId)
             then Payload.RefString (JS.or_str (chain d Draft.orderId) "")
             else Payload.RefId (OrderDoc._id o'))) = inr x'.
Proof.
  destruct (JS.truthy_str (chain d Draft.orderId)); intros H.
  - exists x. exact H.
  - eexists. reflexivity.
Qed.

Lemma Payment_validate_at i n i' n' now now' oid pid sg d gp (o o' : OrderDoc.t) doc x :
  Payment.validate i n (paymentData now oid pid sg d gp o) = inr doc ->
  Schema.required_string "orderNumber" (Some (OrderDoc.orderNumber o')) = inr x ->
  exists doc', Payment.validate i' n' (paymentData now' oid pid sg d gp o') = inr doc'.
Proof.
  unfold Payment.validate, paymentData.
  cbn [Payload.orderId Payload.pay_orderNumber Payload.pay_customerInfo
       Payload.paymentMethod_type Payload.amount Payload.pay_status
       Payload.transactionDetails Payload.pay_notes Payload.paymentId
       Payload.paymentMethod_details Payload.timestamps].
  intros H Hn.
  step_result H.
  destruct (validate_orderId_settle d o o' _ E) as (x' & ->). clear E.
  cbn [rbind]. rewrite Hn. cbn [rbind].
  step_result H. clear E.
  repeat step_result H.
  eexists. reflexivity.
Qed.

(* ===================================================================== *)
(** ** DELETE /api/payments/:id *)
(* ===================================================================== *)

Lemma payment_delete_run id i w :
  Schema.castObjectId id = Some i ->
  PaymentRouter.delete id w
  = match find (Store.payment_has_id i) (payments (db w)) with
    | None => (w, fail 404 "Payment not found" "No payment found with the provided ID")
    | Some _ =>
        (mkWorld (mkDB (orders (db w))
                       (Store.remove_first (Store.payment_has_id i) (payments (db w))))
                 (next_oid w) (gateway_log w),
         ok 200 "Payment deleted successfully" NoData)
    end.
Proof.
  intros Hc.
  unfold PaymentRouter.delete, try_catch, PaymentRouter.delete_body,
    Store.Payment_findByIdAndDelete, Store.cast_id, Schema.required_oid.
  rewrite Hc.
  cbv beta iota zeta delta [bind lift get_db put_db ret].
  destruct (find (Store.payment_has_id i) (payments (db w))); [|destruct w; reflexivity].
  reflexivity.
Qed.

Lemma Payment_pre_save_id n p :
  PaymentDoc._id (Payment.pre_save n p) = PaymentDoc._id p.
Proof. unfold Payment.pre_save. destruct (String.eqb _ _); reflexivity. Qed.

(** The world a recorded settlement leaves. *)
Lemma recorded_world gw now b w :
  success (snd (verify_payment gw now b w)) = true ->
  exists gp odoc pdoc,
    let o := Order.pre_save (List.length (orders (db w))) odoc in
    let p := Payment.pre_save (List.length (payments (db w))) pdoc in
    missing b = false
    /\ isAuthentic (order_id_of b) (payment_id_of b) (signature_of b) = true
    /\ Razorpay.payments_fetch gw (payment_id_of b) = Some gp
    /\ Order.validate (next_oid w) now (orderPayload (payment_id_of b) (orderData b))
       = inr odoc
    /\ Order.number_taken (OrderDoc.orderNumber o) (db w) = false
    /\ Payment.validate (N.succ (next_oid w)) now
         (paymentData now (order_id_of b) (payment_id_of b) (signature_of b)
            (orderData b) gp o) = inr pdoc
    /\ Payment.lookup (payment_id_of b) (db w) = None
    /\ PaymentDoc.paymentId p = payment_id_of b
    /\ fst (verify_payment gw now b w)
       = mkWorld (mkDB (orders (db w) ++ [o]) (payments (db w) ++ [p]))
                 (N.succ (N.succ (next_oid w)))
                 (gateway_log w ++ [Razorpay.CallPaymentsFetch (payment_id_of b)]).
Proof.
  intros Hs.
  pose proof (verify_payment_settlement gw now b w) as S.
  destruct (success_recorded _ _ _ _ _ _ S Hs) as (gp & w1 & o & p & Hm & Hf & Ho & Hp & _).
  pose proof (recorded_paymentId _ _ _ _ _ _ _ Hm Hp) as Hpid.
  apply settle_success_iff in Hs.
  destruct Hs as (_ & Ha & gp' & odoc & pdoc & Hf' & Hov & Hnt & Hpv & Hl).
  assert (gp' = gp) by congruence. subst gp'.
  exists gp, odoc, pdoc. cbv zeta.
  rewrite (Order_create_ok now _ (logged _ w) odoc Hov Hnt) in Ho.
  inversion Ho; subst w1 o. clear Ho.
  cbn [logged db orders payments next_oid gateway_log] in Hp.
  erewrite Payment_create_ok in Hp.
  - inversion Hp as [[Hw Hpp]]. cbn [db orders payments next_oid gateway_log].
    rewrite <- Hpp in Hpid.
    split; [exact Hm|]. split; [exact Ha|]. split; [exact Hf|]. split; [exact Hov|].
    split; [exact Hnt|]. split; [exact Hpv|]. split; [exact Hl|]. split; [exact Hpid|].
    reflexivity.
  - exact Hpv.
  - cbn [db payments next_oid].
    apply Payment_validate_inv in Hpv. destruct Hpv as (_ & Hid & _).
    apply not_missing in Hm. destruct Hm as (_ & Hpt & _).
    apply truthy_or_str in Hpt. destruct Hpt as [Hne _]. fold (payment_id_of b) in Hne.
    assert (Hdoc : PaymentDoc.paymentId pdoc = payment_id_of b).
    { rewrite Hid. cbn. destruct (String.eqb (payment_id_of b) "") eqn:E; [|reflexivity].
      apply String.eqb_eq in E. symmetry. exact E. }
    destruct (Payment_pre_save_fields (List.length (payments (db w))) pdoc)
      as (_ & _ & _ & Hk).
    rewrite Hk; [|rewrite Hdoc; exact Hne]. rewrite Hdoc.
    rewrite <- Hl. apply lookup_same_payments. reflexivity.
Qed.

Lemma find_none_snoc {A : Type} (f : A -> bool) (l : list A) (x : A) :
  (forall a, In a l -> f a = false) -> f x = false -> find f (l ++ [x]) = None.
Proof.
  intros Hl Hx. induction l as [|a l IH]; cbn.
  - rewrite Hx. reflexivity.
  - rewrite (Hl a (or_introl eq_refl)). apply IH. intros b Hb. apply Hl. right. exact Hb.
Qed.

Lemma find_snoc_old {A : Type} (f : A -> bool) (l : list A) (x y : A) :
  find f l = Some y -> find f (l ++ [x]) = Some y.
Proof.
  induction l as [|a l IH]; cbn; [discriminate|].
  destruct (f a); [auto|exact IH].
Qed.

(** X20. The only guard against a replayed callback is the stored
    Payment.  In a consecutively numbered store, after a successful
    settlement the same callback is refused; once the Payment it created has
    been deleted through [DELETE /api/payments/:id] (which leaves the orders
    alone), the same callback is accepted again and records a second
    settlement. *)
Theorem payment_delete_reopens_settlement gw now now' b w id :
  success (snd (verify_payment gw now b w)) = true ->
  Numbering.consecutive (orders (db w)) ->
  Schema.castObjectId id = Some (N.succ (next_oid w)) ->
  (forall p, In p (payments (db w)) -> PaymentDoc._id p <> N.succ (next_oid w)) ->
  success (snd (verify_payment gw now' b (fst (verify_payment gw now b w)))) = false
  /\ success (snd (PaymentRouter.delete id (fst (verify_payment gw now b w)))) = true
  /\ payments (db (fst (PaymentRouter.delete id (fst (verify_payment gw now b w)))))
     = payments (db w)
  /\ orders (db (fst (PaymentRouter.delete id (fst (verify_payment gw now b w)))))
     = orders (db (fst (verify_payment gw now b w)))
  /\ success (snd (verify_payment gw now' b
                     (fst (PaymentRouter.delete id (fst (verify_payment gw now b w))))))
     = true.
Proof.
  intros Hs Hc Hid Hfresh.
  destruct (recorded_world gw now b w Hs)
    as (gp & odoc & pdoc & Hm & Ha & Hf & Hov & Hnt & Hpv & Hl & Hpid & Hw).
  cbv zeta in Hnt, Hpv, Hpid, Hw.
  set (o := Order.pre_save (List.length (orders (db w))) odoc) in *.
  set (p := Payment.pre_save (List.length (payments (db w))) pdoc) in *.
  rewrite Hw.
  split.
  { (* the replay, while the Payment is stored *)
    eapply proj2. eapply settled_id_refused; [|apply verify_payment_settlement].
    unfold Payment.lookup. cbn [db payments]. apply find_last.
    rewrite Hpid. apply String.eqb_refl. }
  rewrite (payment_delete_run id (N.succ (next_oid w)) _ Hid).
  cbn [db payments orders next_oid gateway_log].
  destruct (find_fresh_last (Store.payment_has_id (N.succ (next_oid w))) (payments (db w)) p)
    as [E1 E2].
  { intros a Hain. apply N.eqb_neq. apply Hfresh. exact Hain. }
  { apply N.eqb_eq. unfold p. rewrite Payment_pre_save_id.
    apply Payment_validate_inv in Hpv. destruct Hpv as (Hi & _). exact Hi. }
  rewrite E1, E2. cbn [fst snd db payments orders success ok].
  split; [reflexivity|]. split; [reflexivity|]. split; [reflexivity|].
  apply settle_success_iff. cbn [db payments orders next_oid gateway_log].
  split; [exact Hm|]. split; [exact Ha|].
  destruct (Order_validate_at _ _ (N.succ (N.succ (next_oid w))) now' _ _ Hov)
    as (odoc' & Hov').
  assert (Ho : OrderDoc.orderNumber o
               = Numbering.order_number (N.of_nat (List.length (orders (db w))) + 1)).
  { apply pre_save_unnumbered. eapply validate_unnumbered; [|exact Hov]. reflexivity. }
  assert (Ho' : OrderDoc.orderNumber
                  (Order.pre_save (List.length (orders (db w) ++ [o])) odoc')
                = Numbering.order_number
                    (N.of_nat (List.length (orders (db w) ++ [o])) + 1)).
  { apply pre_save_unnumbered. eapply validate_unnumbered; [|exact Hov']. reflexivity. }
  destruct (Payment_validate_at _ _ (N.succ (N.succ (N.succ (next_oid w)))) now' now now'
              _ _ _ _ _ o (Order.pre_save (List.length (orders (db w) ++ [o])) odoc')
              _ (Numbering.order_number (N.of_nat (List.length (orders (db w) ++ [o])) + 1))
              Hpv) as (pdoc' & Hpv').
  { rewrite Ho'. apply required_order_number. }
  exists gp, odoc', pdoc'.
  split; [exact Hf|]. split; [exact Hov'|].
  split.
  { rewrite Ho'. apply consecutive_free; [reflexivity|].
    apply consecutive_snoc; assumption. }
  split; [exact Hpv'|].
  rewrite <- Hl. apply lookup_same_payments. reflexivity.
Qed.

Lemma payment_delete_reopens_settlement_witness :
  success (snd (verify_payment Scenario.gw 2000%N Scenario.callback
                  (fst (verify_payment Scenario.gw 1000%N Scenario.callback Scenario.empty))))
  = false
  /\ success (snd (PaymentRouter.delete Linked.second_id
                     (fst (verify_payment Scenario.gw 1000%N Scenario.callback
                             Scenario.empty)))) = true
  /\ payments (db (fst (PaymentRouter.delete Linked.second_id
                          (fst (verify_payment Scenario.gw 1000%N Scenario.callback
                                  Scenario.empty)))))
     = payments (db Scenario.empty)
  /\ orders (db (fst (PaymentRouter.delete Linked.second_id
                        (fst (verify_payment Scenario.gw 1000%N Scenario.callback
                                Scenario.empty)))))
     = orders (db (fst (verify_payment Scenario.gw 1000%N Scenario.callback Scenario.empty)))
  /\ success (snd (verify_payment Scenario.gw 2000%N Scenario.callback
                     (fst (PaymentRouter.delete Linked.second_id
                             (fst (verify_payment Scenario.gw 1000%N Scenario.callback
                                     Scenario.empty))))))
     = true.
Proof.
  apply (payment_delete_reopens_settlement Scenario.gw 1000%N 2000%N Scenario.callback
           Scenario.empty Linked.second_id).
  - vm_compute. reflexivity.
  - intros i o H. destruct i; discriminate H.
  - reflexivity.
  - intros p H. destruct H.
Defined.

(* ===================================================================== *)
(** ** The pages after a settlement *)
(* ===================================================================== *)

Lemma order_page_run id i w :
  Schema.castObjectId id = Some i ->
  OrderPage.get id w
  = (w, match find (Store.order_has_id i) (orders (db w)) with
        | None => OrderPage.NotFound
        | Some o => OrderPage.Found o (find (Store.payment_of_order i) (payments (db w)))
        end).
Proof.
  intros Hc.
  unfold OrderPage.get, OrderPage.get_body, Store.Order_findById,
    OrderPage.Payment_findOne_orderId, Store.cast_id, Schema.required_oid.
  rewrite Hc.
  cbv beta iota zeta delta [bind lift get_db ret].
  destruct (find (Store.order_has_id i) (orders (db w))); reflexivity.
Qed.

Lemma payment_page_run id i w :
  Schema.castObjectId id = Some i ->
  PaymentPage.by_order id w
  = (w, match find (Store.payment_of_order i) (payments (db w)) with
        | None => PaymentPage.NotFound
        | Some p => PaymentPage.Found p (PaymentPage.populate (db w) p)
        end).
Proof.
  intros Hc.
  unfold PaymentPage.by_order, PaymentPage.by_order_body, Store.cast_id,
    Schema.required_oid.
  rewrite Hc.
  cbv beta iota zeta delta [bind lift get_db ret].
  destruct (find (Store.payment_of_order i) (payments (db w))); reflexivity.
Qed.

Lemma Order_pre_save_id n o : OrderDoc._id (Order.pre_save n o) = OrderDoc._id o.
Proof. destruct (Order_pre_save_fields n o) as (H & _). exact H. Qed.

Lemma Payment_pre_save_number n p :
  PaymentDoc.orderNumber (Payment.pre_save n p) = PaymentDoc.orderNumber p.
Proof. unfold Payment.pre_save. destruct (String.eqb _ _); reflexivity. Qed.

Lemma Payment_validate_number id now p doc :
  Payment.validate id now p = inr doc ->
  Schema.required_string "orderNumber" (Payload.pay_orderNumber p)
  = inr (PaymentDoc.orderNumber doc).
Proof.
  unfold Payment.validate. intro H.
  repeat step_result H.
  inversion H; subst; cbn. reflexivity.
Qed.

(** X21. After a successful settlement whose draft names no order, the
    page of the new order shows that order with the Payment created for it,
    the payment looked up by that order's id is that Payment with that order
    populated, and the Payment carries the order's number. *)
Theorem pages_after_settlement gw now b w id :
  success (snd (verify_payment gw now b w)) = true ->
  JS.truthy_str (chain (orderData b) Draft.orderId) = false ->
  Schema.castObjectId id = Some (next_oid w) ->
  (forall o, In o (orders (db w)) -> OrderDoc._id o <> next_oid w) ->
  (forall p, In p (payments (db w)) -> PaymentDoc.orderId p <> next_oid w) ->
  exists o p,
    orders (db (fst (verify_payment gw now b w))) = (orders (db w) ++ [o])%list
    /\ payments (db (fst (verify_payment gw now b w))) = (payments (db w) ++ [p])%list
    /\ OrderPage.get id (fst (verify_payment gw now b w))
       = (fst (verify_payment gw now b w), OrderPage.Found o (Some p))
    /\ PaymentPage.by_order id (fst (verify_payment gw now b w))
       = (fst (verify_payment gw now b w), PaymentPage.Found p (Some o))
    /\ PaymentDoc.orderNumber p = OrderDoc.orderNumber o.
Proof.
  intros Hs Hdraft Hid Hfo Hfp.
  destruct (recorded_world gw now b w Hs)
    as (gp & odoc & pdoc & Hm & Ha & Hf & Hov & Hnt & Hpv & Hl & Hpid & Hw).
  cbv zeta in Hnt, Hpv, Hpid, Hw.
  set (o := Order.pre_save (List.length (orders (db w))) odoc) in *.
  set (p := Payment.pre_save (List.length (payments (db w))) pdoc) in *.
  assert (Hoid : OrderDoc._id o = next_oid w).
  { unfold o. rewrite Order_pre_save_id.
    apply Order_validate_inv in Hov. destruct Hov as (Hi & _). exact Hi. }
  assert (Hpoid : PaymentDoc.orderId p = next_oid w).
  { destruct (Payment_pre_save_fields (List.length (payments (db w))) pdoc) as (E & _).
    unfold p. rewrite E.
    pose proof (Payment_validate_inv _ _ _ _ Hpv) as (_ & _ & Hv & _).
    cbn in Hv. rewrite Hdraft in Hv. cbn in Hv. inversion Hv. congruence. }
  assert (Ho : OrderDoc.orderNumber o
               = Numbering.order_number (N.of_nat (List.length (orders (db w))) + 1)).
  { apply pre_save_unnumbered. eapply validate_unnumbered; [|exact Hov]. reflexivity. }
  exists o, p. rewrite Hw. cbn [db orders payments].
  split; [reflexivity|]. split; [reflexivity|].
  rewrite (order_page_run id (next_oid w) _ Hid).
  rewrite (payment_page_run id (next_oid w) _ Hid).
  unfold PaymentPage.populate. cbn [db orders payments].
  destruct (find_fresh_last (Store.order_has_id (next_oid w)) (orders (db w)) o) as [E1 _].
  { intros a Hain. apply N.eqb_neq. apply Hfo. exact Hain. }
  { apply N.eqb_eq. exact Hoid. }
  destruct (find_fresh_last (Store.payment_of_order (next_oid w)) (payments (db w)) p)
    as [E2 _].
  { intros a Hain. apply N.eqb_neq. apply Hfp. exact Hain. }
  { apply N.eqb_eq. exact Hpoid. }
  rewrite E1, E2, Hpoid, E1.
  split; [reflexivity|]. split; [reflexivity|].
  unfold p. rewrite Payment_pre_save_number.
  apply Payment_validate_number in Hpv. cbn [paymentData Payload.pay_orderNumber] in Hpv.
  rewrite Ho in Hpv. rewrite required_order_number in Hpv.
  injection Hpv as E. rewrite <- E. symmetry. exact Ho.
Qed.

Lemma pages_after_settlement_witness :
  exists o p,
    orders (db (fst (verify_payment Scenario.gw 1000%N Scenario.callback Scenario.empty)))
    = (orders (db Scenario.empty) ++ [o])%list
    /\ payments (db (fst (verify_payment Scenario.gw 1000%N Scenario.callback
                            Scenario.empty)))
       = (payments (db Scenario.empty) ++ [p])%list
    /\ OrderPage.get Fixtures.first_id
         (fst (verify_payment Scenario.gw 1000%N Scenario.callback Scenario.empty))
       = (fst (verify_payment Scenario.gw 1000%N Scenario.callback Scenario.empty),
          OrderPage.Found o (Some p))
    /\ PaymentPage.by_order Fixtures.first_id
         (fst (verify_payment Scenario.gw 1000%N Scenario.callback Scenario.empty))
       = (fst (verify_payment Scenario.gw 1000%N Scenario.callback Scenario.empty),
          PaymentPage.Found p (Some o))
    /\ PaymentDoc.orderNumber p = OrderDoc.orderNumber o.
Proof.
  apply (pages_after_settlement Scenario.gw 1000%N Scenario.callback Scenario.empty
           Fixtures.first_id).
  - vm_compute. reflexivity.
  - reflexivity.
  - reflexivity.
  - intros o H. destruct H.
  - intros p H. destruct H.
Defined.

Lemma cast_not_empty ref i : Schema.castObjectId ref = Some i -> JS.truthy_str (Some ref) = true.
Proof.
  unfold Schema.castObjectId. destruct ref as [|c r]; [cbn; discriminate|].
  intros _. reflexivity.
Qed.

(** X22. After a successful settlement whose draft names a stored order
    [x] that had no payment, the Order created by the settlement has no
    payment on its page, while the payment looked up by the id of [x] is the
    new Payment, populated with [x]: the Payment carries the number of the
    new order, which is not the number of the order it references. *)
Theorem linked_settlement_pages gw now b w id ref i x :
  success (snd (verify_payment gw now b w)) = true ->
  chain (orderData b) Draft.orderId = Some ref ->
  Schema.castObjectId ref = Some i ->
  find (Store.order_has_id i) (orders (db w)) = Some x ->
  (forall p, In p (payments (db w)) -> PaymentDoc.orderId p <> i) ->
  Schema.castObjectId id = Some (next_oid w) ->
  (forall o, In o (orders (db w)) -> OrderDoc._id o <> next_oid w) ->
  (forall p, In p (payments (db w)) -> PaymentDoc.orderId p <> next_oid w) ->
  exists o p,
    orders (db (fst (verify_payment gw now b w))) = (orders (db w) ++ [o])%list
    /\ payments (db (fst (verify_payment gw now b w))) = (payments (db w) ++ [p])%list
    /\ OrderPage.get id (fst (verify_payment gw now b w))
       = (fst (verify_payment gw now b w), OrderPage.Found o None)
    /\ PaymentPage.by_order ref (fst (verify_payment gw now b w))
       = (fst (verify_payment gw now b w), PaymentPage.Found p (Some x))
    /\ PaymentDoc.orderNumber p = OrderDoc.orderNumber o
    /\ OrderDoc.orderNumber o <> OrderDoc.orderNumber x.
Proof.
  intros Hs Hdraft Href Hx Hnp Hid Hfo Hfp.
  destruct (recorded_world gw now b w Hs)
    as (gp & odoc & pdoc & Hm & Ha & Hf & Hov & Hnt & Hpv & Hl & Hpid & Hw).
  cbv zeta in Hnt, Hpv, Hpid, Hw.
  set (o := Order.pre_save (List.length (orders (db w))) odoc) in *.
  set (p := Payment.pre_save (List.length (payments (db w))) pdoc) in *.
  pose proof (find_some _ _ Hx) as [Hxin Hxid].
  apply N.eqb_eq in Hxid.
  assert (Hne : i <> next_oid w).
  { intros ->. exact (Hfo x Hxin Hxid). }
  assert (Hoid : OrderDoc._id o = next_oid w).
  { unfold o. rewrite Order_pre_save_id.
    apply Order_validate_inv in Hov. destruct Hov as (Hi & _). exact Hi. }
  assert (Hpoid : PaymentDoc.orderId p = i).
  { destruct (Payment_pre_save_fields (List.length (payments (db w))) pdoc) as (E & _).
    unfold p. rewrite E.
    pose proof (Payment_validate_inv _ _ _ _ Hpv) as (_ & _ & Hv & _).
    cbn [paymentData Payload.orderId] in Hv. rewrite Hdraft in Hv.
    rewrite (cast_not_empty ref i Href) in Hv.
    cbn [Payment.validate_orderId JS.or_str] in Hv.
    destruct (String.eqb ref "") eqn:Ee.
    { apply String.eqb_eq in Ee. subst ref. cbn in Href. discriminate Href. }
    unfold Schema.required_oid in Hv. rewrite Href in Hv. inversion Hv. reflexivity. }
  assert (Ho : OrderDoc.orderNumber o
               = Numbering.order_number (N.of_nat (List.length (orders (db w))) + 1)).
  { apply pre_save_unnumbered. eapply validate_unnumbered; [|exact Hov]. reflexivity. }
  exists o, p. rewrite Hw. cbn [db orders payments].
  split; [reflexivity|]. split; [reflexivity|].
  rewrite (order_page_run id (next_oid w) _ Hid).
  rewrite (payment_page_run ref i _ Href).
  unfold PaymentPage.populate. cbn [db orders payments].
  destruct (find_fresh_last (Store.order_has_id (next_oid w)) (orders (db w)) o) as [E1 _].
  { intros a Hain. apply N.eqb_neq. apply Hfo. exact Hain. }
  { apply N.eqb_eq. exact Hoid. }
  rewrite E1.
  rewrite (find_none_snoc (Store.payment_of_order (next_oid w)) (payments (db w)) p).
  2:{ intros a Hain. apply N.eqb_neq. apply Hfp. exact Hain. }
  2:{ apply N.eqb_neq. rewrite Hpoid. exact Hne. }
  destruct (find_fresh_last (Store.payment_of_order i) (payments (db w)) p) as [E2 _].
  { intros a Hain. apply N.eqb_neq. apply Hnp. exact Hain. }
  { apply N.eqb_eq. exact Hpoid. }
  rewrite E2, Hpoid. rewrite (find_snoc_old _ _ o x Hx).
  split; [reflexivity|]. split; [reflexivity|].
  split.
  - unfold p. rewrite Payment_pre_save_number.
    apply Payment_validate_number in Hpv. cbn [paymentData Payload.pay_orderNumber] in Hpv.
    rewrite Ho in Hpv. rewrite required_order_number in Hpv.
    injection Hpv as E. rewrite <- E. symmetry. exact Ho.
  - intros Hc. unfold Order.number_taken in Hnt.
    assert (Ht : existsb (fun a => String.eqb (OrderDoc.orderNumber a) (OrderDoc.orderNumber o))
                   (orders (db w)) = true).
    { apply existsb_exists. exists x. split; [exact Hxin|].
      apply String.eqb_eq. symmetry. exact Hc. }
    rewrite Ht in Hnt. discriminate Hnt.
Qed.

Lemma linked_settlement_pages_witness :
  exists x o p,
    find (Store.order_has_id 1%N) (orders (db Linked.one_order)) = Some x
    /\ orders (db (fst (verify_payment Scenario.gw 1000%N Linked.callback Linked.one_order)))
       = (orders (db Linked.one_order) ++ [o])%list
    /\ payments (db (fst (verify_payment Scenario.gw 1000%N Linked.callback
                            Linked.one_order)))
       = (payments (db Linked.one_order) ++ [p])%list
    /\ OrderPage.get Linked.second_id
         (fst (verify_payment Scenario.gw 1000%N Linked.callback Linked.one_order))
       = (fst (verify_payment Scenario.gw 1000%N Linked.callback Linked.one_order),
          OrderPage.Found o None)
    /\ PaymentPage.by_order Fixtures.first_id
         (fst (verify_payment Scenario.gw 1000%N Linked.callback Linked.one_order))
       = (fst (verify_payment Scenario.gw 1000%N Linked.callback Linked.one_order),
          PaymentPage.Found p (Some x))
    /\ PaymentDoc.orderNumber p = OrderDoc.orderNumber o
    /\ OrderDoc.orderNumber o <> OrderDoc.orderNumber x.
Proof.
  destruct (find (Store.order_has_id 1%N) (orders (db Linked.one_order))) as [x|] eqn:Hx.
  2:{ exfalso. vm_compute in Hx. discriminate Hx. }
  exists x.
  destruct (linked_settlement_pages Scenario.gw 1000%N Linked.callback Linked.one_order
              Linked.second_id Fixtures.first_id 1%N x) as (o & p & H).
  - vm_compute. reflexivity.
  - reflexivity.
  - reflexivity.
  - exact Hx.
  - intros p H. vm_compute in H. destruct H.
  - vm_compute. reflexivity.
  - intros o H. vm_compute in H. destruct H as [<-|[]]. vm_compute. discriminate.
  - intros p H. vm_compute in H. destruct H.
  - exists o, p. split; [reflexivity|exact H].
Defined.

(* ===================================================================== *)
(** ** The subcategory routes, case by case *)
(* ===================================================================== *)

Lemma catalog_validate_inr x y : Catalog.validate x = inr y -> y = x.
Proof.
  unfold Catalog.validate. intro H. repeat step_result H. inversion H. reflexivity.
Qed.

Lemma catalog_validate_names x y :
  Catalog.validate x = inr y ->
  SubcategoryDoc.subcategoryName x <> ""
  /\ (JS.length (SubcategoryDoc.subcategoryName x) <= 100)%nat
  /\ SubcategoryDoc.description x <> ""
  /\ (JS.length (SubcategoryDoc.description x) <= 500)%nat.
Proof.
  unfold Catalog.validate, Catalog.text. intro H.
  destruct (String.eqb (SubcategoryDoc.subcategoryName x) "") eqn:E1; [discriminate H|].
  destruct (Nat.leb (JS.length (SubcategoryDoc.subcategoryName x)) 100) eqn:L1;
    [|discriminate H].
  cbn [rbind] in H.
  destruct (String.eqb (SubcategoryDoc.description x) "") eqn:E2; [discriminate H|].
  destruct (Nat.leb (JS.length (SubcategoryDoc.description x)) 500) eqn:L2;
    [|discriminate H].
  apply String.eqb_neq in E1, E2. apply Nat.leb_le in L1, L2. auto.
Qed.

(** The subcategory a creation request describes. *)
Lemma subcategory_create_cases now b s :
  (exists r, SubcategoryRouter.create now b s = (s, r)
             /\ SubcategoryRouter.success r = false
             /\ SubcategoryRouter.statusCode r <> 201%nat)
  \/ (exists r, SubcategoryRouter.create now b s
                = (Catalog.mkState (Catalog.categories s) (Catalog.subcategories s)
                     (N.succ (Catalog.next_id s)), r)
                /\ SubcategoryRouter.success r = false
                /\ SubcategoryRouter.statusCode r <> 201%nat)
  \/ (exists i cat r,
        let x := SubcategoryDoc.mkSubcategory (Catalog.next_id s)
                   (JS.trim (JS.or_str (SubcategoryRouter.subcategoryName b) ""))
                   (JS.trim (JS.or_str (SubcategoryRouter.description b) ""))
                   i true (JS.or_num (SubcategoryRouter.order b) 0) now now in
        Schema.castObjectId (JS.or_str (SubcategoryRouter.category b) "") = Some i
        /\ find (Catalog.category_has_id i) (Catalog.categories s) = Some cat
        /\ Catalog.validate x = inr x
        /\ Catalog.name_taken (SubcategoryDoc.subcategoryName x) i (Catalog.subcategories s)
           = false
        /\ SubcategoryRouter.create now b s
           = (Catalog.mkState
                (Catalog.update_category i
                   (Catalog.with_subcategories now (Catalog.push (Catalog.next_id s)))
                   (Catalog.categories s))
                (Catalog.subcategories s ++ [x])
                (N.succ (Catalog.next_id s)), r)
        /\ SubcategoryRouter.success r = true
        /\ SubcategoryRouter.statusCode r = 201%nat).
Proof.
  unfold SubcategoryRouter.create, SubcategoryRouter.create_body.
  destruct (negb (JS.truthy_str (SubcategoryRouter.subcategoryName b))
            || negb (JS.truthy_str (SubcategoryRouter.description b))
            || negb (JS.truthy_str (SubcategoryRouter.category b)))%bool.
  { left. eexists. split; [reflexivity|]. split; [reflexivity|]. cbn. discriminate. }
  unfold Catalog.Category_findById, Catalog.cast_id, Schema.required_oid.
  destruct (Schema.castObjectId (JS.or_str (SubcategoryRouter.category b) "")) as [i|] eqn:Hc.
  2:{ left. eexists. split; [reflexivity|]. split; [reflexivity|]. cbn. discriminate. }
  cbv beta iota zeta delta [Catalog.and_then Catalog.of_result Catalog.get_categories
                            Catalog.pure].
  destruct (find (Catalog.category_has_id i) (Catalog.categories s)) as [cat|] eqn:Hf.
  2:{ left. eexists. split; [reflexivity|]. split; [reflexivity|]. cbn. discriminate. }
  unfold Catalog.new_Subcategory, Catalog.insert, Catalog.Category_push, Catalog.cast_id,
    Schema.required_oid.
  rewrite Hc.
  cbv beta iota zeta delta [Catalog.and_then Catalog.of_result Catalog.get_categories
                            Catalog.get_subcategories Catalog.pure Catalog.new_id].
  cbn [Catalog.subcategories Catalog.categories Catalog.next_id].
  match goal with
  | |- context [Catalog.validate ?x] => destruct (Catalog.validate x) as [e|y] eqn:Hv
  end.
  { right. left. destruct e; eexists; (split; [reflexivity|]);
      (split; [reflexivity|]); cbn; discriminate. }
  pose proof (catalog_validate_inr _ _ Hv) as ->.
  cbn [SubcategoryDoc.subcategoryName SubcategoryDoc.category].
  match goal with
  | |- context [Catalog.name_taken ?n ?c ?l] => destruct (Catalog.name_taken n c l) eqn:Ht
  end.
  { right. left. eexists. split; [reflexivity|]. split; [reflexivity|]. cbn. discriminate. }
  right. right.
  cbv beta iota zeta delta [Catalog.put_subcategories Catalog.put_categories
                            Catalog.Subcategory_findById_populated
                            Catalog.and_then Catalog.get_categories
                            Catalog.get_subcategories Catalog.pure].
  cbn [Catalog.subcategories Catalog.categories Catalog.next_id SubcategoryDoc._id].
  exists i, cat. eexists. cbv zeta.
  split; [reflexivity|]. split; [exact Hf|]. split; [exact Hv|].
  split; [exact Ht|]. split; [reflexivity|]. split; reflexivity.
Qed.

Lemma subcategory_delete_cases now id s :
  (exists r, SubcategoryRouter.delete now id s = (s, r)
             /\ SubcategoryRouter.success r = false)
  \/ (exists i x,
        Schema.castObjectId id = Some i
        /\ find (Catalog.subcategory_has_id i) (Catalog.subcategories s) = Some x
        /\ SubcategoryRouter.delete now id s
           = (Catalog.mkState
                (Catalog.update_category (SubcategoryDoc.category x)
                   (Catalog.with_subcategories now (Catalog.pull i))
                   (Catalog.categories s))
                (Store.remove_first (Catalog.subcategory_has_id i) (Catalog.subcategories s))
                (Catalog.next_id s),
              SubcategoryRouter.mkReply 200 true "Subcategory deleted successfully"
                None None)).
Proof.
  unfold SubcategoryRouter.delete, SubcategoryRouter.delete_body,
    Catalog.Subcategory_findById, Catalog.Category_pull,
    Catalog.Subcategory_findByIdAndDelete, Catalog.cast_id, Schema.required_oid.
  destruct (Schema.castObjectId id) as [i|] eqn:Hc.
  2:{ left. eexists. split; reflexivity. }
  cbv beta iota zeta delta [Catalog.and_then Catalog.of_result Catalog.get_categories
                            Catalog.get_subcategories Catalog.pure].
  destruct (find (Catalog.subcategory_has_id i) (Catalog.subcategories s)) as [x|] eqn:Hf.
  2:{ left. eexists. split; reflexivity. }
  right. exists i, x.
  split; [reflexivity|]. split; [exact Hf|].
  cbv beta iota zeta delta [Catalog.put_categories Catalog.put_subcategories
                            Catalog.and_then Catalog.of_result Catalog.get_categories
                            Catalog.get_subcategories Catalog.pure].
  cbn [Catalog.subcategories Catalog.categories Catalog.next_id].
  rewrite Hf. reflexivity.
Qed.

Lemma subcategory_toggle_cases now id s :
  (exists r, SubcategoryRouter.toggle now id s = (s, r)
             /\ SubcategoryRouter.success r = false)
  \/ (exists i x r,
        Schema.castObjectId id = Some i
        /\ find (Catalog.subcategory_has_id i) (Catalog.subcategories s) = Some x
        /\ Catalog.validate x = inr x
        /\ SubcategoryRouter.toggle now id s
           = (Catalog.mkState (Catalog.categories s)
                (Catalog.replace (Catalog.toggled now x) (Catalog.subcategories s))
                (Catalog.next_id s), r)
        /\ SubcategoryRouter.success r = true
        /\ SubcategoryRouter.statusCode r = 200%nat).
Proof.
  unfold SubcategoryRouter.toggle, SubcategoryRouter.toggle_body,
    Catalog.Subcategory_findById, Catalog.save, Catalog.cast_id, Schema.required_oid.
  destruct (Schema.castObjectId id) as [i|] eqn:Hc.
  2:{ left. eexists. split; reflexivity. }
  cbv beta iota zeta delta [Catalog.and_then Catalog.of_result Catalog.get_categories
                            Catalog.get_subcategories Catalog.pure].
  destruct (find (Catalog.subcategory_has_id i) (Catalog.subcategories s)) as [x|] eqn:Hf.
  2:{ left. eexists. split; reflexivity. }
  destruct (Catalog.validate (Catalog.toggled now x)) as [e|y] eqn:Hv.
  { left. eexists. split; reflexivity. }
  pose proof (catalog_validate_inr _ _ Hv) as ->.
  right. exists i, x. eexists.
  split; [reflexivity|]. split; [exact Hf|].
  split.
  { unfold Catalog.validate in *. cbn [Catalog.toggled SubcategoryDoc.subcategoryName
                                        SubcategoryDoc.description] in Hv.
    repeat step_result Hv. reflexivity. }
  cbv beta iota zeta delta [Catalog.put_subcategories Catalog.Subcategory_findById_populated
                            Catalog.and_then Catalog.get_categories
                            Catalog.get_subcategories Catalog.pure].
  cbn [Catalog.subcategories Catalog.categories Catalog.next_id].
  split; [reflexivity|]. split; reflexivity.
Qed.

(* ===================================================================== *)
(** ** Lists of documents *)
(* ===================================================================== *)

Lemma update_category_ids i f l :
  (forall c, CategoryDoc._id (f c) = CategoryDoc._id c) ->
  map CategoryDoc._id (Catalog.update_category i f l) = map CategoryDoc._id l.
Proof.
  intros Hf. induction l as [|a l IH]; [reflexivity|]. cbn.
  destruct (Catalog.category_has_id i a); cbn; [rewrite Hf|rewrite IH]; reflexivity.
Qed.

Lemma update_category_in i f l c' :
  NoDup (map CategoryDoc._id l) ->
  In c' (Catalog.update_category i f l) ->
  (In c' l /\ CategoryDoc._id c' <> i)
  \/ (exists c, In c l /\ CategoryDoc._id c = i /\ c' = f c).
Proof.
  intros Hnd. induction l as [|a l IH]; cbn; [intros []|].
  inversion Hnd as [|? ? Hna Hnd']; subst.
  destruct (Catalog.category_has_id i a) eqn:E; unfold Catalog.category_has_id in E.
  - apply N.eqb_eq in E. intros [<-|Hin].
    + right. exists a. auto.
    + left. split; [right; exact Hin|].
      intros Hc. apply Hna. rewrite E, <- Hc. apply in_map. exact Hin.
  - apply N.eqb_neq in E. intros [<-|Hin].
    + left. auto.
    + destruct (IH Hnd' Hin) as [[H1 H2]|(c & H1 & H2 & H3)].
      * left. auto.
      * right. exists c. auto.
Qed.

Lemma update_category_keeps i f l c :
  In c l -> CategoryDoc._id c <> i -> In c (Catalog.update_category i f l).
Proof.
  intros Hin Hne. induction l as [|a l IH]; [destruct Hin|]. cbn.
  destruct (Catalog.category_has_id i a) eqn:E; unfold Catalog.category_has_id in E.
  - apply N.eqb_eq in E. destruct Hin as [->|Hin]; [congruence|]. right. exact Hin.
  - destruct Hin as [->|Hin]; [left; reflexivity|right; exact (IH Hin)].
Qed.

Lemma update_category_hits i f l c :
  NoDup (map CategoryDoc._id l) -> In c l -> CategoryDoc._id c = i ->
  In (f c) (Catalog.update_category i f l).
Proof.
  intros Hnd Hin Hid. induction l as [|a l IH]; [destruct Hin|]. cbn.
  inversion Hnd as [|? ? Hna Hnd']; subst.
  destruct (Catalog.category_has_id (CategoryDoc._id c) a) eqn:E;
    unfold Catalog.category_has_id in E.
  - apply N.eqb_eq in E. destruct Hin as [->|Hin]; [left; reflexivity|].
    exfalso. apply Hna. rewrite E. apply in_map. exact Hin.
  - apply N.eqb_neq in E. destruct Hin as [->|Hin]; [congruence|].
    right. exact (IH Hnd' Hin).
Qed.

Lemma find_category_in i l c :
  find (Catalog.category_has_id i) l = Some c -> In c l /\ CategoryDoc._id c = i.
Proof.
  intros H. apply find_some in H. destruct H as [H1 H2].
  apply N.eqb_eq in H2. auto.
Qed.

Lemma find_subcategory_in i l x :
  find (Catalog.subcategory_has_id i) l = Some x -> In x l /\ SubcategoryDoc._id x = i.
Proof.
  intros H. apply find_some in H. destruct H as [H1 H2].
  apply N.eqb_eq in H2. auto.
Qed.

Lemma remove_first_subset {A : Type} (f : A -> bool) (l : list A) (y : A) :
  In y (Store.remove_first f l) -> In y l.
Proof.
  induction l as [|a l IH]; cbn; [auto|].
  destruct (f a); [auto|]. intros [->|H]; auto.
Qed.

Lemma remove_first_nodup {A B : Type} (g : A -> B) (f : A -> bool) (l : list A) :
  NoDup (map g l) -> NoDup (map g (Store.remove_first f l)).
Proof.
  induction l as [|a l IH]; cbn; [auto|].
  intros H. inversion H as [|? ? Hna Hnd]; subst.
  destruct (f a); [exact Hnd|]. cbn. constructor; [|exact (IH Hnd)].
  intros Hin. apply Hna. apply in_map_iff in Hin. destruct Hin as (y & Hy & Hin).
  apply in_map_iff. exists y. split; [exact Hy|]. exact (remove_first_subset f l y Hin).
Qed.

Lemma remove_first_other i l y :
  NoDup (map SubcategoryDoc._id l) ->
  In y (Store.remove_first (Catalog.subcategory_has_id i) l) ->
  In y l /\ SubcategoryDoc._id y <> i.
Proof.
  intros Hnd. induction l as [|a l IH]; cbn; [intros []|].
  inversion Hnd as [|? ? Hna Hnd']; subst.
  destruct (Catalog.subcategory_has_id i a) eqn:E; unfold Catalog.subcategory_has_id in E.
  - apply N.eqb_eq in E. intros Hin. split; [right; exact Hin|].
    intros Hc. apply Hna. rewrite E, <- Hc. apply in_map. exact Hin.
  - apply N.eqb_neq in E. intros [<-|Hin]; [auto|].
    destruct (IH Hnd' Hin). auto.
Qed.

Lemma remove_first_keeps i l y :
  In y l -> SubcategoryDoc._id y <> i ->
  In y (Store.remove_first (Catalog.subcategory_has_id i) l).
Proof.
  intros Hin Hne. induction l as [|a l IH]; [destruct Hin|]. cbn.
  destruct (Catalog.subcategory_has_id i a) eqn:E; unfold Catalog.subcategory_has_id in E.
  - apply N.eqb_eq in E. destruct Hin as [->|Hin]; [congruence|exact Hin].
  - destruct Hin as [->|Hin]; [left; reflexivity|right; exact (IH Hin)].
Qed.

Lemma replace_map {B : Type} (g : SubcategoryDoc.t -> B) i x x' l :
  find (Catalog.subcategory_has_id i) l = Some x ->
  SubcategoryDoc._id x' = i -> g x' = g x ->
  map g (Catalog.replace x' l) = map g l.
Proof.
  intros Hf Hi Hg. induction l as [|a l IH]; [reflexivity|].
  cbn in *. rewrite Hi.
  destruct (Catalog.subcategory_has_id i a).
  - inversion Hf; subst a. cbn. rewrite Hg. reflexivity.
  - cbn. rewrite (IH Hf). reflexivity.
Qed.

Lemma in_by_key {A B : Type} (g : A -> B) (l l' : list A) (y : A) :
  map g l' = map g l -> In y l' -> exists y0, In y0 l /\ g y0 = g y.
Proof.
  intros Hm Hin. apply (in_map g) in Hin. rewrite Hm in Hin.
  apply in_map_iff in Hin. destruct Hin as (y0 & H1 & H2). exists y0. auto.
Qed.

Lemma nodup_ids_same (l : list SubcategoryDoc.t) (x y : SubcategoryDoc.t) :
  NoDup (map SubcategoryDoc._id l) -> In x l -> In y l ->
  SubcategoryDoc._id x = SubcategoryDoc._id y -> x = y.
Proof.
  induction l as [|a l IH]; [intros _ []|].
  cbn. intros Hnd Hx Hy He. inversion Hnd as [|? ? Hna Hnd']; subst.
  destruct Hx as [->|Hx], Hy as [->|Hy].
  - reflexivity.
  - exfalso. apply Hna. rewrite He. apply in_map. exact Hy.
  - exfalso. apply Hna. rewrite <- He. apply in_map. exact Hx.
  - exact (IH Hnd' Hx Hy He).
Qed.

Lemma pull_in x l j : In j (Catalog.pull x l) <-> In j l /\ j <> x.
Proof.
  unfold Catalog.pull. rewrite filter_In. split; intros [H1 H2]; split; auto.
  - apply negb_true_iff in H2. apply N.eqb_neq in H2. exact H2.
  - apply negb_true_iff. apply N.eqb_neq. exact H2.
Qed.

Lemma pull_push x l : ~ In x l -> Catalog.pull x (Catalog.push x l) = l.
Proof.
  unfold Catalog.pull, Catalog.push. intros Hn. rewrite filter_app. cbn.
  rewrite N.eqb_refl. cbn. rewrite app_nil_r.
  induction l as [|a l IH]; [reflexivity|]. cbn.
  destruct (N.eqb a x) eqn:E.
  - apply N.eqb_eq in E. exfalso. apply Hn. left. exact E.
  - cbn. rewrite IH; [reflexivity|]. intros H. apply Hn. right. exact H.
Qed.

(* ===================================================================== *)
(** ** The links between the two collections *)
(* ===================================================================== *)

Lemma NoDup_snoc {A : Type} (l : list A) (x : A) :
  NoDup l -> ~ In x l -> NoDup (l ++ [x]).
Proof.
  intros Hnd Hn. induction l as [|a l IH]; cbn.
  - constructor; [intros []|constructor].
  - inversion Hnd as [|? ? Hna Hnd']; subst. constructor.
    + intros Hin. apply in_app_or in Hin. destruct Hin as [Hin|[Hin|[]]].
      * exact (Hna Hin).
      * apply Hn. left. symmetry. exact Hin.
    + apply IH; [exact Hnd'|]. intros Hin. apply Hn. right. exact Hin.
Qed.

Lemma consistent_counter s :
  Catalog.consistent s ->
  Catalog.consistent
    (Catalog.mkState (Catalog.categories s) (Catalog.subcategories s)
       (N.succ (Catalog.next_id s))).
Proof.
  intros (H1 & H2 & H3 & H4 & H5 & H6). unfold Catalog.consistent. cbn.
  split; [exact H1|]. split; [exact H2|].
  split; [intros x Hx; pose proof (H3 x Hx); lia|].
  split; [exact H4|]. split; [exact H5|exact H6].
Qed.

Lemma consistent_created now s i cat x :
  Catalog.consistent s ->
  find (Catalog.category_has_id i) (Catalog.categories s) = Some cat ->
  SubcategoryDoc._id x = Catalog.next_id s ->
  SubcategoryDoc.category x = i ->
  Catalog.consistent
    (Catalog.mkState
       (Catalog.update_category i
          (Catalog.with_subcategories now (Catalog.push (Catalog.next_id s)))
          (Catalog.categories s))
       (Catalog.subcategories s ++ [x])
       (N.succ (Catalog.next_id s))).
Proof.
  intros (H1 & H2 & H3 & H4 & H5 & H6) Hf Hid Hcat.
  apply find_category_in in Hf. destruct Hf as [Hcin Hcid].
  assert (Hfresh : forall c, In c (Catalog.categories s) ->
                             ~ In (Catalog.next_id s) (CategoryDoc.subcategories c)).
  { intros c Hc Hin. destruct (H6 c _ Hc Hin) as (y & Hy & Hyid & _).
    pose proof (H3 y Hy). lia. }
  unfold Catalog.consistent. cbn [Catalog.categories Catalog.subcategories Catalog.next_id].
  split.
  { rewrite update_category_ids; [exact H1|]. intros c. reflexivity. }
  split.
  { rewrite map_app. cbn. rewrite Hid. apply NoDup_snoc; [exact H2|].
    intros Hin. apply in_map_iff in Hin. destruct Hin as (y & Hy & Hin).
    pose proof (H3 y Hin). lia. }
  split.
  { intros y Hy. apply in_app_or in Hy. destruct Hy as [Hy|[<-|[]]].
    - pose proof (H3 y Hy). lia.
    - rewrite Hid. lia. }
  split.
  { intros c Hc. apply update_category_in in Hc; [|exact H1].
    destruct Hc as [[Hc _]|(c0 & Hc0 & _ & ->)]; [exact (H4 c Hc)|].
    cbn. unfold Catalog.push. apply NoDup_snoc; [exact (H4 c0 Hc0)|exact (Hfresh c0 Hc0)]. }
  split.
  { intros y Hy. apply in_app_or in Hy. destruct Hy as [Hy|[<-|[]]].
    - destruct (H5 y Hy) as (c & Hc & Hcy & Hlist).
      destruct (N.eq_dec (CategoryDoc._id c) i) as [E|E].
      + exists (Catalog.with_subcategories now (Catalog.push (Catalog.next_id s)) c).
        split; [apply update_category_hits; assumption|].
        split; [exact Hcy|]. cbn. unfold Catalog.push. apply in_or_app. left. exact Hlist.
      + exists c. split; [apply update_category_keeps; assumption|]. auto.
    - exists (Catalog.with_subcategories now (Catalog.push (Catalog.next_id s)) cat).
      split; [apply update_category_hits; assumption|].
      split; [cbn; congruence|].
      cbn. unfold Catalog.push. apply in_or_app. right. left. symmetry. exact Hid. }
  intros c j Hc Hj. apply update_category_in in Hc; [|exact H1].
  destruct Hc as [[Hc _]|(c0 & Hc0 & Hc0id & ->)].
  - destruct (H6 c j Hc Hj) as (y & Hy & Hyid & Hycat).
    exists y. split; [apply in_or_app; left; exact Hy|auto].
  - cbn in Hj. unfold Catalog.push in Hj. apply in_app_or in Hj.
    destruct Hj as [Hj|[<-|[]]].
    + destruct (H6 c0 j Hc0 Hj) as (y & Hy & Hyid & Hycat).
      exists y. split; [apply in_or_app; left; exact Hy|auto].
    + exists x. split; [apply in_or_app; right; left; reflexivity|].
      split; [exact Hid|]. cbn. congruence.
Qed.

Lemma consistent_deleted now s i x :
  Catalog.consistent s ->
  find (Catalog.subcategory_has_id i) (Catalog.subcategories s) = Some x ->
  Catalog.consistent
    (Catalog.mkState
       (Catalog.update_category (SubcategoryDoc.category x)
          (Catalog.with_subcategories now (Catalog.pull i)) (Catalog.categories s))
       (Store.remove_first (Catalog.subcategory_has_id i) (Catalog.subcategories s))
       (Catalog.next_id s)).
Proof.
  intros (H1 & H2 & H3 & H4 & H5 & H6) Hf.
  apply find_subcategory_in in Hf. destruct Hf as [Hxin Hxid].
  unfold Catalog.consistent. cbn [Catalog.categories Catalog.subcategories Catalog.next_id].
  split.
  { rewrite update_category_ids; [exact H1|]. intros c. reflexivity. }
  split; [apply remove_first_nodup; exact H2|].
  split.
  { intros y Hy. apply H3. exact (remove_first_subset _ _ _ Hy). }
  split.
  { intros c Hc. apply update_category_in in Hc; [|exact H1].
    destruct Hc as [[Hc _]|(c0 & Hc0 & _ & ->)]; [exact (H4 c Hc)|].
    cbn. unfold Catalog.pull. apply NoDup_filter. exact (H4 c0 Hc0). }
  split.
  { intros y Hy. apply remove_first_other in Hy; [|exact H2]. destruct Hy as [Hy Hne].
    destruct (H5 y Hy) as (c & Hc & Hcy & Hlist).
    destruct (N.eq_dec (CategoryDoc._id c) (SubcategoryDoc.category x)) as [E|E].
    - exists (Catalog.with_subcategories now (Catalog.pull i) c).
      split; [apply update_category_hits; assumption|].
      split; [exact Hcy|]. cbn. apply pull_in. auto.
    - exists c. split; [apply update_category_keeps; assumption|]. auto. }
  intros c j Hc Hj. apply update_category_in in Hc; [|exact H1].
  destruct Hc as [[Hc Hne]|(c0 & Hc0 & Hc0id & ->)].
  - destruct (H6 c j Hc Hj) as (y & Hy & Hyid & Hycat).
    exists y. split; [|auto].
    apply remove_first_keeps; [exact Hy|].
    intros Hc'. apply Hne. rewrite <- Hycat.
    rewrite (nodup_ids_same _ y x H2 Hy Hxin); [reflexivity|congruence].
  - cbn in Hj. apply pull_in in Hj. destruct Hj as [Hj Hne].
    destruct (H6 c0 j Hc0 Hj) as (y & Hy & Hyid & Hycat).
    exists y. split; [|auto].
    apply remove_first_keeps; [exact Hy|congruence].
Qed.

Lemma consistent_toggled now s i x :
  Catalog.consistent s ->
  find (Catalog.subcategory_has_id i) (Catalog.subcategories s) = Some x ->
  Catalog.consistent
    (Catalog.mkState (Catalog.categories s)
       (Catalog.replace (Catalog.toggled now x) (Catalog.subcategories s))
       (Catalog.next_id s)).
Proof.
  intros (H1 & H2 & H3 & H4 & H5 & H6) Hf.
  pose proof (find_subcategory_in _ _ _ Hf) as [Hxin Hxid].
  pose proof (replace_map (fun y => (SubcategoryDoc._id y, SubcategoryDoc.category y))
                i x (Catalog.toggled now x) _ Hf Hxid eq_refl) as Hk.
  pose proof (replace_map SubcategoryDoc._id i x (Catalog.toggled now x) _ Hf Hxid eq_refl)
    as Hi.
  unfold Catalog.consistent. cbn [Catalog.categories Catalog.subcategories Catalog.next_id].
  split; [exact H1|]. split; [rewrite Hi; exact H2|].
  split.
  { intros y Hy. destruct (in_by_key _ _ _ y Hi Hy) as (y0 & Hy0 & E).
    rewrite <- E. exact (H3 y0 Hy0). }
  split; [exact H4|].
  split.
  { intros y Hy. destruct (in_by_key _ _ _ y Hk Hy) as (y0 & Hy0 & E).
    injection E as E1 E2. destruct (H5 y0 Hy0) as (c & Hc & Hcy & Hl).
    exists c. split; [exact Hc|]. split; congruence. }
  intros c j Hc Hj. destruct (H6 c j Hc Hj) as (y & Hy & Hyid & Hycat).
  assert (Hin : In (SubcategoryDoc._id y, SubcategoryDoc.category y)
                   (map (fun y => (SubcategoryDoc._id y, SubcategoryDoc.category y))
                      (Catalog.replace (Catalog.toggled now x) (Catalog.subcategories s)))).
  { rewrite Hk. apply (in_map (fun y => (SubcategoryDoc._id y, SubcategoryDoc.category y))).
    exact Hy. }
  apply in_map_iff in Hin. destruct Hin as (y' & E & Hy').
  injection E as E1 E2. exists y'. split; [exact Hy'|]. split; congruence.
Qed.

Lemma subcategory_delete_ok now id s i x :
  Schema.castObjectId id = Some i ->
  find (Catalog.subcategory_has_id i) (Catalog.subcategories s) = Some x ->
  SubcategoryRouter.delete now id s
  = (Catalog.mkState
       (Catalog.update_category (SubcategoryDoc.category x)
          (Catalog.with_subcategories now (Catalog.pull i)) (Catalog.categories s))
       (Store.remove_first (Catalog.subcategory_has_id i) (Catalog.subcategories s))
       (Catalog.next_id s),
     SubcategoryRouter.mkReply 200 true "Subcategory deleted successfully" None None).
Proof.
  intros Hc Hf.
  unfold SubcategoryRouter.delete, SubcategoryRouter.delete_body,
    Catalog.Subcategory_findById, Catalog.Category_pull,
    Catalog.Subcategory_findByIdAndDelete, Catalog.cast_id, Schema.required_oid.
  rewrite Hc.
  cbv beta iota zeta delta [Catalog.and_then Catalog.of_result Catalog.get_categories
                            Catalog.get_subcategories Catalog.pure].
  rewrite Hf.
  cbv beta iota zeta delta [Catalog.put_categories Catalog.put_subcategories
                            Catalog.and_then Catalog.of_result Catalog.get_categories
                            Catalog.get_subcategories Catalog.pure].
  cbn [Catalog.subcategories Catalog.categories Catalog.next_id].
  rewrite Hf. reflexivity.
Qed.

Lemma subcategory_toggle_ok now id s i x :
  Schema.castObjectId id = Some i ->
  find (Catalog.subcategory_has_id i) (Catalog.subcategories s) = Some x ->
  Catalog.validate x = inr x ->
  exists r,
    SubcategoryRouter.toggle now id s
    = (Catalog.mkState (Catalog.categories s)
         (Catalog.replace (Catalog.toggled now x) (Catalog.subcategories s))
         (Catalog.next_id s), r)
    /\ SubcategoryRouter.success r = true
    /\ SubcategoryRouter.statusCode r = 200%nat.
Proof.
  intros Hc Hf Hv.
  assert (Hv' : Catalog.validate (Catalog.toggled now x) = inr (Catalog.toggled now x)).
  { unfold Catalog.validate in *.
    cbn [Catalog.toggled SubcategoryDoc.subcategoryName SubcategoryDoc.description].
    repeat step_result Hv. reflexivity. }
  unfold SubcategoryRouter.toggle, SubcategoryRouter.toggle_body,
    Catalog.Subcategory_findById, Catalog.save, Catalog.cast_id, Schema.required_oid.
  rewrite Hc.
  cbv beta iota zeta delta [Catalog.and_then Catalog.of_result Catalog.get_categories
                            Catalog.get_subcategories Catalog.pure].
  rewrite Hf, Hv'.
  cbv beta iota zeta delta [Catalog.put_subcategories Catalog.Subcategory_findById_populated
                            Catalog.and_then Catalog.get_categories
                            Catalog.get_subcategories Catalog.pure].
  cbn [Catalog.subcategories Catalog.categories Catalog.next_id].
  eexists. split; [reflexivity|]. split; reflexivity.
Qed.

Lemma update_category_twice i f g l :
  (forall c, CategoryDoc._id (f c) = CategoryDoc._id c) ->
  Catalog.update_category i g (Catalog.update_category i f l)
  = Catalog.update_category i (fun c => g (f c)) l.
Proof.
  intros Hf. induction l as [|a l IH]; [reflexivity|]. cbn.
  destruct (Catalog.category_has_id i a) eqn:E; cbn.
  - unfold Catalog.category_has_id in *. rewrite Hf, E. reflexivity.
  - rewrite E, IH. reflexivity.
Qed.

Lemma update_category_ext i f g l :
  (forall c, In c l -> f c = g c) ->
  Catalog.update_category i f l = Catalog.update_category i g l.
Proof.
  induction l as [|a l IH]; [reflexivity|]. intros H. cbn.
  rewrite (H a (or_introl eq_refl)), IH; [reflexivity|].
  intros c Hc. apply H. right. exact Hc.
Qed.

Lemma replace_find i x x' l :
  find (Catalog.subcategory_has_id i) l = Some x ->
  SubcategoryDoc._id x' = i ->
  find (Catalog.subcategory_has_id i) (Catalog.replace x' l) = Some x'.
Proof.
  intros Hf Hi. induction l as [|a l IH]; [discriminate Hf|].
  cbn in *. rewrite Hi.
  destruct (Catalog.subcategory_has_id i a) eqn:E; cbn.
  - unfold Catalog.subcategory_has_id. rewrite Hi, N.eqb_refl. reflexivity.
  - rewrite E. exact (IH Hf).
Qed.

Lemma replace_replace i x x' x'' l :
  find (Catalog.subcategory_has_id i) l = Some x ->
  SubcategoryDoc._id x' = i -> SubcategoryDoc._id x'' = i ->
  Catalog.replace x'' (Catalog.replace x' l) = Catalog.replace x'' l.
Proof.
  intros Hf Hi Hi'. induction l as [|a l IH]; [reflexivity|].
  cbn in *. rewrite Hi, Hi'.
  destruct (Catalog.subcategory_has_id i a) eqn:E; cbn.
  - unfold Catalog.subcategory_has_id. rewrite Hi, Hi', N.eqb_refl. reflexivity.
  - rewrite Hi', E, (IH Hf). reflexivity.
Qed.

Lemma name_free_key name i l y :
  Catalog.name_taken name i l = false -> In y l ->
  (SubcategoryDoc.subcategoryName y, SubcategoryDoc.category y) <> (name, i).
Proof.
  unfold Catalog.name_taken. intros H Hy E. injection E as E1 E2.
  assert (Ht : existsb (Catalog.same_key name i) l = true).
  { apply existsb_exists. exists y. split; [exact Hy|].
    unfold Catalog.same_key. rewrite E1, E2, String.eqb_refl, N.eqb_refl. reflexivity. }
  rewrite Ht in H. discriminate H.
Qed.

(** X23. Creating a subcategory is all or nothing.  Either the answer is
    not 201 and both collections are as before, or it is 201 and exactly one
    subcategory has been appended: it belongs to a category that exists, its
    identity has been pushed onto that category's list, its name is the
    name of the request without the white space at its ends (the Unicode
    white space that [trim] removes), not empty and at most 100 UTF-16 code
    units long (what [maxlength] counts), it is active, and no subcategory
    of that category had its name. *)
Theorem subcategory_create_outcomes now b s :
  (SubcategoryRouter.statusCode (snd (SubcategoryRouter.create now b s)) <> 201%nat
   /\ SubcategoryRouter.success (snd (SubcategoryRouter.create now b s)) = false
   /\ Catalog.categories (fst (SubcategoryRouter.create now b s)) = Catalog.categories s
   /\ Catalog.subcategories (fst (SubcategoryRouter.create now b s))
      = Catalog.subcategories s)
  \/ (SubcategoryRouter.statusCode (snd (SubcategoryRouter.create now b s)) = 201%nat
      /\ SubcategoryRouter.success (snd (SubcategoryRouter.create now b s)) = true
      /\ exists i x,
          Schema.castObjectId (JS.or_str (SubcategoryRouter.category b) "") = Some i
          /\ find (Catalog.category_has_id i) (Catalog.categories s) <> None
          /\ Catalog.subcategories (fst (SubcategoryRouter.create now b s))
             = (Catalog.subcategories s ++ [x])%list
          /\ Catalog.categories (fst (SubcategoryRouter.create now b s))
             = Catalog.update_category i
                 (Catalog.with_subcategories now (Catalog.push (SubcategoryDoc._id x)))
                 (Catalog.categories s)
          /\ SubcategoryDoc.category x = i
          /\ SubcategoryDoc.subcategoryName x
             = JS.trim (JS.or_str (SubcategoryRouter.subcategoryName b) "")
          /\ SubcategoryDoc.subcategoryName x <> ""
          /\ (JS.length (SubcategoryDoc.subcategoryName x) <= 100)%nat
          /\ SubcategoryDoc.isActive x = true
          /\ Catalog.name_taken (SubcategoryDoc.subcategoryName x) i
               (Catalog.subcategories s) = false).
Proof.
  destruct (subcategory_create_cases now b s)
    as [(r & -> & Hs & Hc)|[(r & -> & Hs & Hc)|(i & cat & r & H)]].
  - left. cbn. auto.
  - left. cbn. auto.
  - cbv zeta in H. destruct H as (Hcast & Hf & Hv & Ht & -> & Hs & Hc).
    right. cbn [fst snd Catalog.categories Catalog.subcategories].
    split; [exact Hc|]. split; [exact Hs|].
    destruct (catalog_validate_names _ _ Hv) as (Hn1 & Hn2 & _).
    eexists i, _. split; [exact Hcast|]. split; [congruence|].
    split; [reflexivity|]. split; [reflexivity|]. split; [reflexivity|].
    split; [reflexivity|]. split; [exact Hn1|]. split; [exact Hn2|].
    split; [reflexivity|exact Ht].
Qed.

(** A name of sixty accented letters is 120 bytes and 60 code units: it
    is accepted.  White space of more than one byte is trimmed. *)
Example subcategory_create_unicode :
  String.length Shop.accents = 120%nat
  /\ JS.length Shop.accents = 60%nat
  /\ SubcategoryRouter.statusCode
       (snd (SubcategoryRouter.create 20%N Shop.accented Shop.start)) = 201%nat
  /\ map SubcategoryDoc.subcategoryName
       (Catalog.subcategories (fst (SubcategoryRouter.create 20%N Shop.spaced Shop.start)))
     = ["Kurtas"].
Proof. repeat split; vm_compute; reflexivity. Qed.

(** X24. The routes that create, delete and toggle subcategories keep the
    links between the two collections in order: identities stay distinct,
    every subcategory stays listed, once, by the category it names, and every
    entry of a category's list stays a subcategory of that category. *)
Theorem subcategory_routes_keep_links now b id s :
  Catalog.consistent s ->
  Catalog.consistent (fst (SubcategoryRouter.create now b s))
  /\ Catalog.consistent (fst (SubcategoryRouter.delete now id s))
  /\ Catalog.consistent (fst (SubcategoryRouter.toggle now id s)).
Proof.
  intros H. split; [|split].
  - destruct (subcategory_create_cases now b s)
      as [(r & -> & _)|[(r & -> & _)|(i & cat & r & Hc)]].
    + exact H.
    + apply consistent_counter. exact H.
    + cbv zeta in Hc. destruct Hc as (_ & Hf & _ & _ & -> & _).
      cbn [fst]. apply (consistent_created now s i cat); [exact H|exact Hf| |]; reflexivity.
  - destruct (subcategory_delete_cases now id s) as [(r & -> & _)|(i & x & _ & Hf & ->)].
    + exact H.
    + cbn [fst]. apply consistent_deleted; assumption.
  - destruct (subcategory_toggle_cases now id s)
      as [(r & -> & _)|(i & x & r & _ & Hf & _ & -> & _)].
    + exact H.
    + cbn [fst]. apply (consistent_toggled now s i x); assumption.
Qed.

Lemma stocked_consistent : Catalog.consistent Shop.stocked.
Proof.
  unfold Catalog.consistent. vm_compute.
  split; [constructor; [intros []|constructor]|].
  split; [constructor; [intros []|constructor]|].
  split; [intros x [<-|[]]; reflexivity|].
  split; [intros c [<-|[]]; constructor; [intros []|constructor]|].
  split.
  - intros x [<-|[]]. eexists. split; [left; reflexivity|]. split; [reflexivity|].
    left. reflexivity.
  - intros c i [<-|[]] [<-|[]]. eexists. split; [left; reflexivity|].
    split; reflexivity.
Defined.

Lemma subcategory_routes_keep_links_witness :
  Catalog.consistent (fst (SubcategoryRouter.create 20%N Shop.shirts Shop.stocked))
  /\ Catalog.consistent (fst (SubcategoryRouter.delete 20%N Linked.second_id Shop.stocked))
  /\ Catalog.consistent (fst (SubcategoryRouter.toggle 20%N Linked.second_id Shop.stocked)).
Proof.
  apply (subcategory_routes_keep_links 20%N Shop.shirts Linked.second_id Shop.stocked).
  exact stocked_consistent.
Defined.

(** X25. No route gives two subcategories of one category the same name:
    if names are unique within categories before a creation, a deletion or a
    toggle, they are afterwards. *)
Theorem subcategory_names_stay_unique now b id s :
  Catalog.unique_names (Catalog.subcategories s) ->
  Catalog.unique_names (Catalog.subcategories (fst (SubcategoryRouter.create now b s)))
  /\ Catalog.unique_names (Catalog.subcategories (fst (SubcategoryRouter.delete now id s)))
  /\ Catalog.unique_names (Catalog.subcategories (fst (SubcategoryRouter.toggle now id s))).
Proof.
  unfold Catalog.unique_names. intros H. split; [|split].
  - destruct (subcategory_create_cases now b s)
      as [(r & -> & _)|[(r & -> & _)|(i & cat & r & Hc)]].
    + exact H.
    + exact H.
    + cbv zeta in Hc. destruct Hc as (_ & _ & _ & Ht & -> & _).
      cbn [fst Catalog.subcategories]. rewrite map_app. cbn [map].
      apply NoDup_snoc; [exact H|].
      intros Hin. apply in_map_iff in Hin. destruct Hin as (y & E & Hy).
      exact (name_free_key _ _ _ y Ht Hy E).
  - destruct (subcategory_delete_cases now id s) as [(r & -> & _)|(i & x & _ & _ & ->)].
    + exact H.
    + cbn [fst Catalog.subcategories]. apply remove_first_nodup. exact H.
  - destruct (subcategory_toggle_cases now id s)
      as [(r & -> & _)|(i & x & r & _ & Hf & _ & -> & _)].
    + exact H.
    + cbn [fst Catalog.subcategories].
      pose proof (find_subcategory_in _ _ _ Hf) as [_ Hxid].
      rewrite (replace_map
                 (fun x => (SubcategoryDoc.subcategoryName x, SubcategoryDoc.category x))
                 i x (Catalog.toggled now x) _ Hf Hxid eq_refl).
      exact H.
Qed.

Lemma subcategory_names_stay_unique_witness :
  Catalog.unique_names
    (Catalog.subcategories (fst (SubcategoryRouter.create 20%N Shop.shirts Shop.stocked)))
  /\ Catalog.unique_names
       (Catalog.subcategories
          (fst (SubcategoryRouter.delete 20%N Linked.second_id Shop.stocked)))
  /\ Catalog.unique_names
       (Catalog.subcategories
          (fst (SubcategoryRouter.toggle 20%N Linked.second_id Shop.stocked))).
Proof.
  apply (subcategory_names_stay_unique 20%N Shop.shirts Linked.second_id Shop.stocked).
  unfold Catalog.unique_names. vm_compute. constructor; [intros []|constructor].
Defined.

(** X26. In a catalogue whose links are in order, deleting the
    subcategory that a creation has just added gives back the subcategories
    as they were, and the categories as they were but for the [updatedAt] of
    the category concerned. *)
Theorem subcategory_create_then_delete now now' b id s :
  Catalog.consistent s ->
  SubcategoryRouter.statusCode (snd (SubcategoryRouter.create now b s)) = 201%nat ->
  Schema.castObjectId id = Some (Catalog.next_id s) ->
  SubcategoryRouter.statusCode
    (snd (SubcategoryRouter.delete now' id (fst (SubcategoryRouter.create now b s))))
  = 200%nat
  /\ Catalog.subcategories
       (fst (SubcategoryRouter.delete now' id (fst (SubcategoryRouter.create now b s))))
     = Catalog.subcategories s
  /\ exists i,
      Schema.castObjectId (JS.or_str (SubcategoryRouter.category b) "") = Some i
      /\ Catalog.categories
           (fst (SubcategoryRouter.delete now' id (fst (SubcategoryRouter.create now b s))))
         = Catalog.update_category i (Catalog.with_subcategories now' (fun l => l))
             (Catalog.categories s).
Proof.
  intros (H1 & H2 & H3 & H4 & H5 & H6) Hcode Hid.
  destruct (subcategory_create_cases now b s)
    as [(r & E & _ & Hc)|[(r & E & _ & Hc)|(i & cat & r & H)]].
  - rewrite E in Hcode. cbn in Hcode. contradiction.
  - rewrite E in Hcode. cbn in Hcode. contradiction.
  - cbv zeta in H. destruct H as (Hcast & Hf & Hv & Ht & -> & _).
    cbn [fst].
    match goal with
    | |- context [(Catalog.subcategories s ++ [?x0])%list] => set (x := x0)
    end.
    destruct (find_fresh_last (Catalog.subcategory_has_id (Catalog.next_id s))
                (Catalog.subcategories s) x) as [E1 E2].
    { intros a Ha. apply N.eqb_neq. pose proof (H3 a Ha). lia. }
    { apply N.eqb_refl. }
    match goal with
    | |- context [SubcategoryRouter.delete now' id ?st] =>
        rewrite (subcategory_delete_ok now' id st (Catalog.next_id s) x Hid E1)
    end.
    cbn [fst snd Catalog.subcategories Catalog.categories SubcategoryRouter.statusCode].
    split; [reflexivity|]. split; [exact E2|].
    exists i. split; [exact Hcast|].
    cbn [SubcategoryDoc.category x].
    rewrite update_category_twice by (intros c; reflexivity).
    apply update_category_ext. intros c Hc.
    unfold Catalog.with_subcategories.
    cbn [CategoryDoc._id CategoryDoc.categoryName CategoryDoc.description
         CategoryDoc.isActive CategoryDoc.order CategoryDoc.subcategories
         CategoryDoc.createdAt CategoryDoc.updatedAt].
    rewrite pull_push; [reflexivity|].
    intros Hin. destruct (H6 c _ Hc Hin) as (y & Hy & Hyid & _).
    pose proof (H3 y Hy). lia.
Qed.

Lemma subcategory_create_then_delete_witness :
  SubcategoryRouter.statusCode
    (snd (SubcategoryRouter.delete 20%N Linked.second_id
            (fst (SubcategoryRouter.create 10%N Shop.suits Shop.start))))
  = 200%nat
  /\ Catalog.subcategories
       (fst (SubcategoryRouter.delete 20%N Linked.second_id
               (fst (SubcategoryRouter.create 10%N Shop.suits Shop.start))))
     = Catalog.subcategories Shop.start
  /\ exists i,
      Schema.castObjectId (JS.or_str (SubcategoryRouter.category Shop.suits) "") = Some i
      /\ Catalog.categories
           (fst (SubcategoryRouter.delete 20%N Linked.second_id
                   (fst (SubcategoryRouter.create 10%N Shop.suits Shop.start))))
         = Catalog.update_category i (Catalog.with_subcategories 20%N (fun l => l))
             (Catalog.categories Shop.start).
Proof.
  apply (subcategory_create_then_delete 10%N 20%N Shop.suits Linked.second_id Shop.start).
  - unfold Catalog.consistent. vm_compute.
    split; [constructor; [intros []|constructor]|].
    split; [constructor|].
    split; [intros x []|].
    split; [intros c [<-|[]]; constructor|].
    split; [intros x []|].
    intros c i [<-|[]] [].
  - reflexivity.
  - reflexivity.
Defined.

(** X27. Toggling a subcategory twice succeeds the second time when it
    did the first, leaves the categories alone, and gives back every
    subcategory as it was but for [updatedAt]. *)
Theorem subcategory_toggle_twice now now' id s :
  SubcategoryRouter.success (snd (SubcategoryRouter.toggle now id s)) = true ->
  SubcategoryRouter.success
    (snd (SubcategoryRouter.toggle now' id (fst (SubcategoryRouter.toggle now id s))))
  = true
  /\ Catalog.categories
       (fst (SubcategoryRouter.toggle now' id (fst (SubcategoryRouter.toggle now id s))))
     = Catalog.categories s
  /\ map (fun x => (SubcategoryDoc._id x, SubcategoryDoc.subcategoryName x,
                    SubcategoryDoc.description x, SubcategoryDoc.category x,
                    SubcategoryDoc.isActive x, SubcategoryDoc.order x,
                    SubcategoryDoc.createdAt x))
       (Catalog.subcategories
          (fst (SubcategoryRouter.toggle now' id (fst (SubcategoryRouter.toggle now id s)))))
     = map (fun x => (SubcategoryDoc._id x, SubcategoryDoc.subcategoryName x,
                      SubcategoryDoc.description x, SubcategoryDoc.category x,
                      SubcategoryDoc.isActive x, SubcategoryDoc.order x,
                      SubcategoryDoc.createdAt x))
         (Catalog.subcategories s).
Proof.
  intros Hs.
  destruct (subcategory_toggle_cases now id s)
    as [(r & E & Hf)|(i & x & r & Hc & Hf & Hv & E & _)].
  { rewrite E in Hs. cbn in Hs. congruence. }
  rewrite E. cbn [fst].
  pose proof (find_subcategory_in _ _ _ Hf) as [_ Hxid].
  assert (Hf' : find (Catalog.subcategory_has_id i)
                  (Catalog.replace (Catalog.toggled now x) (Catalog.subcategories s))
                = Some (Catalog.toggled now x)).
  { apply (replace_find i x); [exact Hf|exact Hxid]. }
  assert (Hv' : Catalog.validate (Catalog.toggled now x) = inr (Catalog.toggled now x)).
  { unfold Catalog.validate in *.
    cbn [Catalog.toggled SubcategoryDoc.subcategoryName SubcategoryDoc.description].
    repeat step_result Hv. reflexivity. }
  destruct (subcategory_toggle_ok now' id
              (Catalog.mkState (Catalog.categories s)
                 (Catalog.replace (Catalog.toggled now x) (Catalog.subcategories s))
                 (Catalog.next_id s)) i (Catalog.toggled now x) Hc Hf' Hv')
    as (r' & E' & Hs' & _).
  rewrite E'. cbn [fst snd Catalog.categories Catalog.subcategories].
  split; [exact Hs'|]. split; [reflexivity|].
  rewrite (replace_replace i x) by (exact Hf || exact Hxid).
  apply (replace_map _ i x); [exact Hf|exact Hxid|].
  cbn. rewrite negb_involutive. reflexivity.
Qed.

Lemma subcategory_toggle_twice_witness :
  SubcategoryRouter.success
    (snd (SubcategoryRouter.toggle 30%N Linked.second_id
            (fst (SubcategoryRouter.toggle 20%N Linked.second_id Shop.stocked))))
  = true
  /\ Catalog.categories
       (fst (SubcategoryRouter.toggle 30%N Linked.second_id
               (fst (SubcategoryRouter.toggle 20%N Linked.second_id Shop.stocked))))
     = Catalog.categories Shop.stocked
  /\ map (fun x => (SubcategoryDoc._id x, SubcategoryDoc.subcategoryName x,
                    SubcategoryDoc.description x, SubcategoryDoc.category x,
                    SubcategoryDoc.isActive x, SubcategoryDoc.order x,
                    SubcategoryDoc.createdAt x))
       (Catalog.subcategories
          (fst (SubcategoryRouter.toggle 30%N Linked.second_id
                  (fst (SubcategoryRouter.toggle 20%N Linked.second_id Shop.stocked)))))
     = map (fun x => (SubcategoryDoc._id x, SubcategoryDoc.subcategoryName x,
                      SubcategoryDoc.description x, SubcategoryDoc.category x,
                      SubcategoryDoc.isActive x, SubcategoryDoc.order x,
                      SubcategoryDoc.createdAt x))
         (Catalog.subcategories Shop.stocked).
Proof.
  apply (subcategory_toggle_twice 20%N 30%N Linked.second_id Shop.stocked).
  reflexivity.
Defined.

(** The catalogue of the examples: a second "Suits" in the same category
    is refused, "Shirts" is accepted. *)
Example shop_requests :
  SubcategoryRouter.statusCode (snd (SubcategoryRouter.create 10%N Shop.suits Shop.start))
  = 201%nat
  /\ SubcategoryRouter.statusCode
       (snd (SubcategoryRouter.create 20%N Shop.suits Shop.stocked)) = 400%nat
  /\ Catalog.subcategories (fst (SubcategoryRouter.create 20%N Shop.suits Shop.stocked))
     = Catalog.subcategories Shop.stocked
  /\ SubcategoryRouter.statusCode
       (snd (SubcategoryRouter.create 20%N Shop.shirts Shop.stocked)) = 201%nat
  /\ map CategoryDoc.subcategories
       (Catalog.categories (fst (SubcategoryRouter.create 20%N Shop.shirts Shop.stocked)))
     = [[2%N; 3%N]].
Proof.
  split; [reflexivity|]. split; [reflexivity|]. split; [reflexivity|].
  split; reflexivity.
Qed.
